(** * SemNotes: the resilient data-access layer and the home page's
      emergency mode, embedded from the TypeScript sources.

    Sources embedded here:
    - [src/lib/types.ts]: the records mirrored from the external store;
    - [src/unnamed/part_002], the Supabase utilities the home page imports
      from [@/lib/supabase-utils]: [testSupabaseConnection],
      [fetchStudentProfile], [createOrUpdateStudentProfile],
      [fetchSubjectsForStudent], [safeSupabaseOperation];
    - [src/lib/database-fixed.ts], which holds two documents: lines 1-229
      (module [DatabaseFixed]) and lines 229-462, the dual-key variant
      (module [DualKey]);
    - [src/pages/Home.tsx]: the emergency-mode flag, its triggers and the
      three cached queries.

    The hosted backend is an external collaborator.  It is modelled by its
    request/response contract: a request is logged, then either fails (an
    [error] member in the response, or a rejected promise) as scheduled by
    the environment, or is executed on the tables.  Transport errors and the
    schema and constraint errors of the store are failures the environment
    schedules.  In these definitions every request settles, and at once;
    requests that take time or never settle, and the timers the sources set
    against them, are the matter of module [Timed].  Console logging and
    toasts are left out. *)

From Stdlib Require Import ZArith Bool Ascii Lia.
From stdpp Require Import base option list strings pretty gmap.

Local Open Scope string_scope.
Local Open Scope Z_scope.
Local Open Scope list_scope.

(** ** Records of [src/lib/types.ts] *)

Module Student.
Record t : Type := mk {
  id : string;
  full_name : string;
  email : string;
  academic_year : Z;
  semester : Z;
  branch : string;
  is_admin : bool;
  created_at : string
}.
End Student.

Module Subject.
Record t : Type := mk {
  id : string;
  name : string;
  branch : string;
  academic_year : Z;
  semester : Z;
  is_common : bool;
  created_at : string
}.
End Subject.

(** [note_id?] and [subject_id?] are optional: [None] stands for an absent
    member as well as for a null column. *)
Module Bookmark.
Record t : Type := mk {
  id : string;
  user_id : string;
  note_id : option string;
  subject_id : option string;
  created_at : string
}.
End Bookmark.

(** [Partial<Student>]: every member may be absent. *)
Module PartialStudent.
Record t : Type := mk {
  id : option string;
  full_name : option string;
  email : option string;
  academic_year : option Z;
  semester : option Z;
  branch : option string;
  is_admin : option bool;
  created_at : option string
}.
End PartialStudent.

(** JavaScript truthiness of a string: the empty string is falsy. *)
Definition truthy (s : string) : bool := negb (String.eqb s "").

(** [a || b] on an optional string. *)
Definition or_else (a : option string) (b : string) : string :=
  match a with
  | Some s => if truthy s then s else b
  | None => b
  end.

(** The sources build their [.or(...)] filters as strings and splice values
    into them as they are: [`subject_id.eq.${id},note_id.eq.${id}`]
    ([database-fixed.ts], line 75) and [`branch.eq.${branch},is_common.eq.true`]
    ([part_002], line 253).  Such a string is the disjunction the filter
    constructors [BOr] and [SOr] below stand for when the spliced value is
    made of letters, digits, [-] and [_], as ids and branch codes are; a
    comma or a parenthesis in the value would make it another filter. *)
Definition plain_char (c : ascii) : bool :=
  let n := nat_of_ascii c in
  ((48 <=? n)%nat && (n <=? 57)%nat)
  || ((65 <=? n)%nat && (n <=? 90)%nat)
  || ((97 <=? n)%nat && (n <=? 122)%nat)
  || (n =? 45)%nat || (n =? 95)%nat.

Fixpoint plain (s : string) : bool :=
  match s with
  | EmptyString => true
  | String c s' => plain_char c && plain s'
  end.

(** ** The backend contract *)

(** The [error] member of a response. *)
Module PgError.
Record t : Type := mk { code : string; message : string }.
End PgError.

(** A thrown value (a rejected promise): [name] is ["AbortError"] when a
    cancellation token fired. *)
Record Exn : Type := mkExn { exn_name : string; exn_message : string }.

Record Resp (A : Type) : Type := mkResp { data : option A; error : option PgError.t }.
Arguments mkResp {A} _ _.
Arguments data {A} _.
Arguments error {A} _.

Definition ok {A} (a : A) : Resp A := mkResp (Some a) None.
Definition ok_null {A} : Resp A := mkResp None None.
Definition failed {A} (e : PgError.t) : Resp A := mkResp None (Some e).

Inductive BookmarkCol : Type := ColUserId | ColNoteId | ColSubjectId.

(** A filter on the bookmarks table: [.eq(col, v)] or [.or("a,b")], the
    latter for [plain] values. *)
Inductive BFilter : Type :=
| BEq (c : BookmarkCol) (v : string)
| BOr (a b : BFilter).

(** The column lists the sources select from bookmarks. *)
Inductive BCols : Type :=
| AllCols        (* select('*') *)
| NoteCols       (* select('id, user_id, note_id, created_at') *)
| SubjectCols.   (* select('id, user_id, subject_id, created_at') *)

(** A filter on the subjects table; [SOr] is an [.or("a,b")] string, for
    [plain] values. *)
Inductive SFilter : Type :=
| SEqYear (y : Z)
| SEqSemester (s : Z)
| SEqBranch (b : string)
| SEqCommon (c : bool)
| SOr (a b : SFilter).

Inductive Request : Type :=
| CountStudents
| SelectStudent (id : string)
| UpsertStudent (id : string) (payload : PartialStudent.t) (created : string)
| SelectSubjects (filters : list SFilter)
| SelectBookmarks (cols : BCols) (filters : list BFilter)
| InsertBookmark (user : string) (note subject : option string) (returning : bool)
| DeleteBookmarks (filters : list BFilter).

(** What the environment does to one request. *)
Inductive Fault : Type :=
| NoFault
| FailWith (e : PgError.t)
| Reject (x : Exn).

Record Database : Type := mkDatabase {
  students : gmap string Student.t;
  subjects : list Subject.t;
  bookmarks : list Bookmark.t;
  bookmark_seq : nat
}.

(** The world a call runs in: the tables, the faults the environment has
    scheduled for the coming requests (none once the list is empty), the
    requests sent so far, the delays waited so far (in ms), the clock. *)
Record World : Type := mkWorld {
  db : Database;
  faults : list Fault;
  log : list Request;
  sleeps : list Z;
  now : string
}.

(** ** Asynchronous code: state passing with exceptions *)

Inductive Outcome (A : Type) : Type :=
| Val (a : A)
| Throw (x : Exn).
Arguments Val {A} _.
Arguments Throw {A} _.

Definition M (A : Type) : Type := World -> Outcome A * World.

Definition ret {A} (a : A) : M A := fun w => (Val a, w).

Definition bind {A B} (m : M A) (k : A -> M B) : M B :=
  fun w =>
    match m w with
    | (Val a, w') => k a w'
    | (Throw x, w') => (Throw x, w')
    end.

Notation "'do' x <- m ; k" := (bind m (fun x => k))
  (at level 10, x name, m at level 100, k at level 200).
Notation "'run' m ; k" := (bind m (fun _ => k))
  (at level 10, m at level 100, k at level 200).

(** [try { body } catch (e) { handler e }] *)
Definition try_catch {A} (body : M A) (handler : Exn -> M A) : M A :=
  fun w =>
    match body w with
    | (Val a, w') => (Val a, w')
    | (Throw x, w') => handler x w'
    end.

(** One element of [Promise.allSettled]. *)
Inductive Settled (A : Type) : Type :=
| Fulfilled (value : A)
| Rejected (reason : Exn).
Arguments Fulfilled {A} _.
Arguments Rejected {A} _.

Definition settle {A} (m : M A) : M (Settled A) :=
  try_catch (do a <- m; ret (Fulfilled a)) (fun x => ret (Rejected x)).

(** [await new Promise(r => setTimeout(r, ms))] *)
Definition sleep (ms : Z) : M unit :=
  fun w => (Val tt, mkWorld (db w) (faults w) (log w) (sleeps w ++ [ms]) (now w)).

Definition get_now : M string := fun w => (Val (now w), w).

(** One request: it is logged and consumes the next scheduled fault. *)
Definition backend {A} (r : Request) (exec : Database -> Resp A * Database)
  : M (Resp A) :=
  fun w =>
    let lg := log w ++ [r] in
    match faults w with
    | Reject x :: fs => (Throw x, mkWorld (db w) fs lg (sleeps w) (now w))
    | FailWith e :: fs => (Val (failed e), mkWorld (db w) fs lg (sleeps w) (now w))
    | NoFault :: fs =>
        let '(r', d') := exec (db w) in
        (Val r', mkWorld d' fs lg (sleeps w) (now w))
    | [] =>
        let '(r', d') := exec (db w) in
        (Val r', mkWorld d' [] lg (sleeps w) (now w))
    end.

(** ** What the backend does with a request that reaches it *)

Definition opt_eqb (o : option string) (v : string) : bool :=
  match o with
  | Some s => String.eqb s v
  | None => false
  end.

Fixpoint bmatch (f : BFilter) (b : Bookmark.t) : bool :=
  match f with
  | BEq ColUserId v => String.eqb (Bookmark.user_id b) v
  | BEq ColNoteId v => opt_eqb (Bookmark.note_id b) v
  | BEq ColSubjectId v => opt_eqb (Bookmark.subject_id b) v
  | BOr f1 f2 => bmatch f1 b || bmatch f2 b
  end.

(** Chained filters are a conjunction. *)
Definition bmatch_all (fs : list BFilter) (b : Bookmark.t) : bool :=
  forallb (fun f => bmatch f b) fs.

Definition project (cols : BCols) (b : Bookmark.t) : Bookmark.t :=
  match cols with
  | AllCols => b
  | NoteCols =>
      Bookmark.mk (Bookmark.id b) (Bookmark.user_id b) (Bookmark.note_id b) None
        (Bookmark.created_at b)
  | SubjectCols =>
      Bookmark.mk (Bookmark.id b) (Bookmark.user_id b) None (Bookmark.subject_id b)
        (Bookmark.created_at b)
  end.

Fixpoint smatch (f : SFilter) (s : Subject.t) : bool :=
  match f with
  | SEqYear y => Subject.academic_year s =? y
  | SEqSemester m => Subject.semester s =? m
  | SEqBranch b => String.eqb (Subject.branch s) b
  | SEqCommon c => Bool.eqb (Subject.is_common s) c
  | SOr f1 f2 => smatch f1 s || smatch f2 s
  end.

Definition smatch_all (fs : list SFilter) (s : Subject.t) : bool :=
  forallb (fun f => smatch f s) fs.

Definition with_bookmarks (d : Database) (bs : list Bookmark.t) (n : nat) : Database :=
  mkDatabase (students d) (subjects d) bs n.

Definition with_students (d : Database) (m : gmap string Student.t) : Database :=
  mkDatabase m (subjects d) (bookmarks d) (bookmark_seq d).

Definition exec_select_bookmarks (cols : BCols) (fs : list BFilter) (d : Database)
  : Resp (list Bookmark.t) * Database :=
  (ok (map (project cols) (List.filter (bmatch_all fs) (bookmarks d))), d).

(** The backend generates the row's id; with [.select().single()] the new
    row comes back as [data], without it [data] is null. *)
Definition exec_insert_bookmark (user : string) (note subject : option string)
    (returning : bool) (time : string) (d : Database)
  : Resp Bookmark.t * Database :=
  let row := Bookmark.mk ("bm-" +:+ pretty (bookmark_seq d)) user note subject time in
  (if returning then ok row else ok_null,
   with_bookmarks d (bookmarks d ++ [row]) (S (bookmark_seq d))).

Definition exec_delete_bookmarks (fs : list BFilter) (d : Database)
  : Resp unit * Database :=
  (ok_null,
   with_bookmarks d (List.filter (fun b => negb (bmatch_all fs b)) (bookmarks d))
     (bookmark_seq d)).

Definition exec_select_subjects (fs : list SFilter) (d : Database)
  : Resp (list Subject.t) * Database :=
  (ok (List.filter (smatch_all fs) (subjects d)), d).

(** [.eq('id', id).maybeSingle()]: [id] is the primary key of students. *)
Definition exec_select_student (id : string) (d : Database)
  : Resp Student.t * Database :=
  (mkResp (students d !! id) None, d).

(** A column the payload leaves out keeps its value when the row exists and
    is blank in a new row. *)
Definition upsert_row (old : option Student.t) (id : string)
    (p : PartialStudent.t) (created : string) : Student.t :=
  let base := default (Student.mk id "" "" 0 0 "" false created) old in
  Student.mk id
    (default (Student.full_name base) (PartialStudent.full_name p))
    (default (Student.email base) (PartialStudent.email p))
    (default (Student.academic_year base) (PartialStudent.academic_year p))
    (default (Student.semester base) (PartialStudent.semester p))
    (default (Student.branch base) (PartialStudent.branch p))
    (default (Student.is_admin base) (PartialStudent.is_admin p))
    created.

(** [.upsert(profileData).select().single()] *)
Definition exec_upsert_student (id : string) (p : PartialStudent.t)
    (created : string) (d : Database) : Resp Student.t * Database :=
  let row := upsert_row (students d !! id) id p created in
  (ok row, with_students d (<[id := row]> (students d))).

Definition exec_count_students (d : Database) : Resp unit * Database :=
  (ok_null, d).

(** ** The requests the client builds *)

Definition count_students : M (Resp unit) :=
  backend CountStudents exec_count_students.

Definition select_student (id : string) : M (Resp Student.t) :=
  backend (SelectStudent id) (exec_select_student id).

Definition upsert_student (id : string) (p : PartialStudent.t) (created : string)
  : M (Resp Student.t) :=
  backend (UpsertStudent id p created) (exec_upsert_student id p created).

Definition select_subjects (fs : list SFilter) : M (Resp (list Subject.t)) :=
  backend (SelectSubjects fs) (exec_select_subjects fs).

Definition select_bookmarks (cols : BCols) (fs : list BFilter)
  : M (Resp (list Bookmark.t)) :=
  backend (SelectBookmarks cols fs) (exec_select_bookmarks cols fs).

Definition insert_bookmark (user : string) (note subject : option string)
    (returning : bool) : M (Resp Bookmark.t) :=
  do t <- get_now;
  backend (InsertBookmark user note subject returning)
    (exec_insert_bookmark user note subject returning t).

Definition delete_bookmarks (fs : list BFilter) : M (Resp unit) :=
  backend (DeleteBookmarks fs) (exec_delete_bookmarks fs).

(** ** The Supabase utilities ([src/unnamed/part_002]) *)

(** How one pass through a retry loop ends: [return v] or [continue]
    (falling off the end of the body goes round again as well). *)
Inductive Step (A : Type) : Type :=
| Return (v : A)
| Continue.
Arguments Return {A} _.
Arguments Continue {A}.

Definition maxAttempts : Z := 3.

(** [while (attempt < maxAttempts) { attempt++; body }] followed by
    [return after].  [attempt] grows by one per pass, so the loop makes at most
    [maxAttempts] passes and any [fuel] above that reaches the exit test. *)
Fixpoint while_attempts {A} (fuel : nat) (body : Z -> M (Step A)) (after : A)
    (attempt : Z) : M A :=
  match fuel with
  | O => ret after
  | S fuel' =>
      if attempt <? maxAttempts then
        let attempt := attempt + 1 in
        do s <- body attempt;
        match s with
        | Return v => ret v
        | Continue => while_attempts fuel' body after attempt
        end
      else ret after
  end.

Definition loop_fuel : nat := 4.

Definition testSupabaseConnection : M bool :=
  try_catch
    (do r <- count_students;
     match error r with
     | Some _ => ret false
     | None => ret true
     end)
    (fun _ => ret false).

(** [500 * Math.pow(2, attempt - 1)] *)
Definition profile_backoffMs (attempt : Z) : Z := 500 * 2 ^ (attempt - 1).

Definition profile_attempt (userId : string) (attempt : Z)
  : M (Step (option Student.t)) :=
  try_catch
    (do r <- select_student userId;
     match error r with
     | Some _ =>
         if attempt =? maxAttempts then ret (Return None)
         else run sleep (profile_backoffMs attempt); ret Continue
     | None =>
         match data r with
         | Some s => ret (Return (Some s))
         | None => ret (Return None)
         end
     end)
    (fun _ =>
       if attempt =? maxAttempts then ret (Return None)
       else run sleep (profile_backoffMs attempt); ret Continue).

Definition fetchStudentProfile (userId : string) : M (option Student.t) :=
  if negb (truthy userId) then ret None
  else
    do isConnected <- testSupabaseConnection;
    while_attempts loop_fuel (profile_attempt userId) None 0.

Definition createOrUpdateStudentProfile (userId : string)
    (partial : PartialStudent.t) : M (option Student.t) :=
  if negb (truthy userId) then ret None
  else
    try_catch
      (do t <- get_now;
       let id := default userId (PartialStudent.id partial) in
       let created := or_else (PartialStudent.created_at partial) t in
       do r <- upsert_student id partial created;
       match error r with
       | Some _ => ret None
       | None => ret (data r)
       end)
      (fun _ => ret None).

(** What [fetchSubjectsForStudent] is called with: a student id, a full
    profile, or a falsy value that is not a string. *)
Inductive IdOrProfile : Type :=
| ById (studentId : string)
| ByProfile (profile : Student.t)
| NoProfile.

(** [.eq('academic_year', y).eq('semester', s).or(`branch.eq.${b},is_common.eq.true`)],
    which is this list of filters for a [plain] branch *)
Definition strict_filters (academicYear semester : Z) (branch : string)
  : list SFilter :=
  [SEqYear academicYear; SEqSemester semester;
   SOr (SEqBranch branch) (SEqCommon true)].

(** [.or(`academic_year.eq.${y},is_common.eq.true`)] *)
Definition permissive_filters (academicYear : Z) : list SFilter :=
  [SOr (SEqYear academicYear) (SEqCommon true)].

(** [500 * attempt] *)
Definition subjects_backoffMs (attempt : Z) : Z := 500 * attempt.

(** The end of a failed pass: give up on the last attempt, else wait and go
    round again. *)
Definition subjects_retry (attempt : Z) : M (Step (list Subject.t)) :=
  if attempt =? maxAttempts then ret (Return [])
  else run sleep (subjects_backoffMs attempt); ret Continue.

Definition subjects_attempt (academicYear semester : Z) (branch : string)
    (attempt : Z) : M (Step (list Subject.t)) :=
  try_catch
    (do r <- select_subjects (strict_filters academicYear semester branch);
     match error r with
     | Some _ => subjects_retry attempt
     | None =>
         match data r with
         | Some (s :: l) => ret (Return (s :: l))
         | _ =>
             do fallbackData <-
               (if attempt =? maxAttempts - 1 then
                  do r2 <- select_subjects (permissive_filters academicYear);
                  ret (data r2)
                else ret None);
             match fallbackData with
             | Some (s :: l) => ret (Return (s :: l))
             | _ => subjects_retry attempt
             end
         end
     end)
    (fun _ => subjects_retry attempt).

Definition fetchSubjectsForStudent (studentIdOrProfile : IdOrProfile)
  : M (list Subject.t) :=
  do details <-
    match studentIdOrProfile with
    | ById studentId =>
        try_catch (fetchStudentProfile studentId) (fun _ => ret None)
    | NoProfile => ret None
    | ByProfile profile => ret (Some profile)
    end;
  match details with
  | None => ret []
  | Some profile =>
      while_attempts loop_fuel
        (subjects_attempt (Student.academic_year profile)
           (Student.semester profile) (Student.branch profile))
        [] 0
  end.

(** [safeSupabaseOperation]: [data] may be null, so the result is optional;
    the cancellation token it creates is handed to nobody. *)
Definition safeSupabaseOperation {T} (operation : M (Resp T))
    (errorMessage : string) (defaultValue : T) (timeoutMs : Z) : M (option T) :=
  try_catch
    (do r <- operation;
     match error r with
     | Some _ => ret (Some defaultValue)
     | None => ret (data r)
     end)
    (fun _ => ret (Some defaultValue)).

(** ** [src/lib/database-fixed.ts], lines 1-229 *)

Inductive Action : Type := added | removed.

(** [{ success, message }] *)
Module OpResult.
Record t : Type := mk { success : bool; message : string }.
End OpResult.

(** [DatabaseResponse<Bookmark>] of [src/lib/types.ts] *)
Module DatabaseResponse.
Record t : Type := mk {
  success : bool;
  data : option Bookmark.t;
  message : option string;
  action : option Action
}.
End DatabaseResponse.

(** [{ ...result, action }] *)
Module ToggleResult.
Record t : Type := mk { success : bool; action : Action; message : string }.
End ToggleResult.

Definition truthy_opt (o : option string) : bool :=
  match o with
  | Some s => truthy s
  | None => false
  end.

Definition missing_ids : OpResult.t :=
  OpResult.mk false "Missing user ID or item ID".

Module DatabaseFixed.

Definition fetchUserBookmarks (userId : string) : M (list Bookmark.t) :=
  try_catch
    (do r <- select_bookmarks AllCols [BEq ColUserId userId];
     match error r with
     | Some _ => ret []
     | None =>
         match data r with
         | Some (b :: l) => ret (b :: l)
         | _ => ret []
         end
     end)
    (fun _ => ret []).

Definition isBookmarked (bookmarks : list Bookmark.t) (id : string) : bool :=
  existsb
    (fun bookmark =>
       (truthy_opt (Bookmark.subject_id bookmark)
          && opt_eqb (Bookmark.subject_id bookmark) id)
       || (truthy_opt (Bookmark.note_id bookmark)
             && opt_eqb (Bookmark.note_id bookmark) id))
    bookmarks.

(** The removal filters with [.or(`subject_id.eq.${id},note_id.eq.${id}`)]
    (line 75), which is the [BOr] below for a [plain] id. *)
Definition toggleBookmark (userId id : string) (currentlyBookmarked : bool)
  : M DatabaseResponse.t :=
  try_catch
    (if currentlyBookmarked then
       do r <- delete_bookmarks
                 [BOr (BEq ColSubjectId id) (BEq ColNoteId id); BEq ColUserId userId];
       match error r with
       | Some e =>
           ret (DatabaseResponse.mk false None
                  (Some ("Failed to remove bookmark: " +:+ PgError.message e)) None)
       | None =>
           ret (DatabaseResponse.mk true None
                  (Some "Bookmark removed successfully") (Some removed))
       end
     else
       do r <- insert_bookmark userId (Some id) (Some id) true;
       match error r with
       | Some e =>
           ret (DatabaseResponse.mk false None
                  (Some ("Failed to add bookmark: " +:+ PgError.message e)) None)
       | None =>
           ret (DatabaseResponse.mk true (data r)
                  (Some "Bookmark added successfully") (Some added))
       end)
    (fun x =>
       ret (DatabaseResponse.mk false None
              (Some ("An unexpected error occurred: " +:+ exn_message x)) None)).

Definition addBookmark (userId itemId : string) : M OpResult.t :=
  if negb (truthy userId) || negb (truthy itemId) then ret missing_ids
  else
    try_catch
      (do r <- insert_bookmark userId (Some itemId) (Some itemId) true;
       match error r with
       | Some e =>
           ret (OpResult.mk false ("Failed to add bookmark: " +:+ PgError.message e))
       | None => ret (OpResult.mk true "Bookmark added successfully")
       end)
      (fun _ =>
         ret (OpResult.mk false "Failed to add bookmark. Please try again later.")).

Definition removeBookmark (userId itemId : string) : M OpResult.t :=
  if negb (truthy userId) || negb (truthy itemId) then ret missing_ids
  else
    try_catch
      (do first <-
         try_catch
           (do r <- delete_bookmarks [BEq ColUserId userId; BEq ColNoteId itemId];
            match error r with
            | None => ret (Some (OpResult.mk true "Bookmark removed successfully"))
            | Some _ => ret None
            end)
           (fun _ => ret None);
       match first with
       | Some res => ret res
       | None =>
           try_catch
             (do r <- delete_bookmarks
                        [BEq ColUserId userId; BEq ColSubjectId itemId];
              match error r with
              | None => ret (OpResult.mk true "Bookmark removed successfully")
              | Some e => ret (OpResult.mk false (PgError.message e))
              end)
             (fun _ =>
                ret (OpResult.mk false "Failed to remove bookmark. Please try again."))
       end)
      (fun _ =>
         ret (OpResult.mk false "Failed to remove bookmark. Please try again.")).

End DatabaseFixed.

(** ** [src/lib/database-fixed.ts], lines 229-462: the dual-key variant *)

Module DualKey.

(** [status === 'fulfilled' && !value.error && value.data?.length > 0] *)
Definition rows_of (result : Settled (Resp (list Bookmark.t)))
  : option (list Bookmark.t) :=
  match result with
  | Fulfilled value =>
      match error value, data value with
      | None, Some (b :: l) => Some (b :: l)
      | _, _ => None
      end
  | Rejected _ => None
  end.

(** [{ ...item, note_id: item.subject_id }] *)
Definition map_to_note_id (item : Bookmark.t) : Bookmark.t :=
  Bookmark.mk (Bookmark.id item) (Bookmark.user_id item) (Bookmark.subject_id item)
    (Bookmark.subject_id item) (Bookmark.created_at item).

Definition fetchUserBookmarks (userId : string) : M (list Bookmark.t) :=
  if negb (truthy userId) then ret []
  else
    try_catch
      (do noteIdResult <- settle (select_bookmarks NoteCols [BEq ColUserId userId]);
       do subjectIdResult <-
         settle (select_bookmarks SubjectCols [BEq ColUserId userId]);
       match rows_of noteIdResult with
       | Some rows => ret rows
       | None =>
           match rows_of subjectIdResult with
           | Some rows => ret (map map_to_note_id rows)
           | None => ret []
           end
       end)
      (fun _ => ret []).

Definition isBookmarked (bookmarks : list Bookmark.t) (id : string) : bool :=
  existsb
    (fun bookmark =>
       opt_eqb (Bookmark.note_id bookmark) id
       || opt_eqb (Bookmark.subject_id bookmark) id)
    bookmarks.

Definition addBookmark (userId itemId : string) : M OpResult.t :=
  if negb (truthy userId) || negb (truthy itemId) then ret missing_ids
  else
    try_catch
      (do first <-
         try_catch
           (do r <- insert_bookmark userId (Some itemId) None false;
            match error r with
            | None => ret (Some (OpResult.mk true "Bookmark added successfully"))
            | Some _ => ret None
            end)
           (fun _ => ret None);
       match first with
       | Some res => ret res
       | None =>
           try_catch
             (do r <- insert_bookmark userId None (Some itemId) false;
              match error r with
              | None => ret (OpResult.mk true "Bookmark added successfully")
              | Some e => ret (OpResult.mk false (PgError.message e))
              end)
             (fun _ =>
                ret (OpResult.mk false "Failed to add bookmark. Please try again."))
       end)
      (fun _ =>
         ret (OpResult.mk false "Failed to add bookmark. Please try again.")).

Definition removeBookmark (userId itemId : string) : M OpResult.t :=
  if negb (truthy userId) || negb (truthy itemId) then ret missing_ids
  else
    try_catch
      (do first <-
         try_catch
           (do r <- delete_bookmarks [BEq ColUserId userId; BEq ColNoteId itemId];
            match error r with
            | None => ret (Some (OpResult.mk true "Bookmark removed successfully"))
            | Some _ => ret None
            end)
           (fun _ => ret None);
       match first with
       | Some res => ret res
       | None =>
           try_catch
             (do r <- delete_bookmarks
                        [BEq ColUserId userId; BEq ColSubjectId itemId];
              match error r with
              | None => ret (OpResult.mk true "Bookmark removed successfully")
              | Some e => ret (OpResult.mk false (PgError.message e))
              end)
             (fun _ =>
                ret (OpResult.mk false "Failed to remove bookmark. Please try again."))
       end)
      (fun _ =>
         ret (OpResult.mk false "Failed to remove bookmark. Please try again.")).

Definition toggleBookmark (userId itemId : string) (isCurrentlyBookmarked : bool)
  : M ToggleResult.t :=
  if isCurrentlyBookmarked then
    do result <- removeBookmark userId itemId;
    ret (ToggleResult.mk (OpResult.success result) removed (OpResult.message result))
  else
    do result <- addBookmark userId itemId;
    ret (ToggleResult.mk (OpResult.success result) added (OpResult.message result)).

End DualKey.

(** ** [src/pages/Home.tsx]: emergency mode *)

Module Home.

(** The members of the signed-in user the page reads: [user.id],
    [user.email], [user.user_metadata.full_name]. *)
Record User : Type := mkUser {
  id : string;
  email : option string;
  full_name : option string
}.

(** The react-query cache entries the page reads: [['userProfile', id]],
    [['subjects']] (initial data [[]]) and [['bookmarks', id]] (default [[]]). *)
Record Cache : Type := mkCache {
  userProfile : option Student.t;
  subjectsData : list Subject.t;
  bookmarksData : list Bookmark.t
}.

(** What has been observed since the page was loaded; no code reads it.
    [failedChecks] counts the connectivity checks that came back false,
    [sawOffline] records that the page read [navigator.onLine] as false or
    handled an [offline] event, [queryTimeouts] counts the 5 s timers set by
    the [catch] blocks of the profile and subjects queries that have fired. *)
Record History : Type := mkHistory {
  failedChecks : nat;
  sawOffline : bool;
  queryTimeouts : nat
}.

Record State : Type := mkState {
  user : option User;
  retryAttempt : Z;        (* parseInt(searchParams.get('retryAttempt') || '0') *)
  onLine : bool;           (* navigator.onLine *)
  clock : string;          (* new Date().toISOString() *)
  isEmergencyMode : bool;
  listening : bool;        (* the offline/online listeners are registered *)
  pendingTests : nat;      (* connection tests of the effect not yet resolved *)
  pendingRetries : nat;    (* 5 s retry timers not yet fired *)
  cache : Cache;
  history : History
}.

(** What happens to a loaded page.
    - [EvTestResolved]: the [testSupabaseConnection()] promise of the
      connection effect resolves (lines 120-145);
    - [EvRetryTimer]: the 5 s timer set after a failed test fires and, the
      browser being online, tests once more, with the given result
      (lines 125-141);
    - [EvOffline], [EvOnline]: the browser goes offline, comes back online;
    - [EvProfileTimer], [EvSubjectsTimer]: the 5 s timer set by the [catch]
      block of the profile query (lines 209-217), of the subjects query
      (lines 262-271), fires; the argument is what its closure reads
      ([userProfile] is set, [subjectsQuery.data] is empty);
    - [EvDepsChanged]: the auth context hands out a new user, so the
      connection effect is cleaned up and runs again;
    - [EvReconnect]: the user clicks "Try reconnecting"
      ([attemptReconnection], lines 44-55);
    - [EvReload]: the user reloads the page. *)
Inductive Event : Type :=
| EvTestResolved (isConnected : bool)
| EvRetryTimer (isConnectedRetry : bool)
| EvOffline
| EvOnline
| EvProfileTimer (hasProfile : bool)
| EvSubjectsTimer (noSubjects : bool)
| EvDepsChanged (u : option User)
| EvReconnect
| EvReload.

(** The events that are explicit user actions. *)
Definition user_action (e : Event) : bool :=
  match e with
  | EvReconnect | EvReload => true
  | _ => false
  end.

Definition has_user (st : State) : bool := truthy_opt (id <$> user st).

(** [s.split('@')[0]] *)
Fixpoint before_at (s : string) : string :=
  match s with
  | EmptyString => EmptyString
  | String c s' => if Ascii.eqb c "@"%char then EmptyString else String c (before_at s')
  end.

Definition emergencyProfile (st : State) : Student.t :=
  Student.mk
    (or_else (id <$> user st) "emergency-user")
    (or_else (user st ≫= full_name)
       (or_else (before_at <$> (user st ≫= email)) "Offline User"))
    (or_else (user st ≫= email) "offline@example.com")
    1 1 "CSE" false (clock st).

Definition emergencySubjects (st : State) : list Subject.t :=
  [Subject.mk "offline-subject-1" "Computer Science 101" "CSE" 1 1 true (clock st);
   Subject.mk "offline-subject-2" "Data Structures" "CSE" 1 1 false (clock st)].

Definition set_history (st : State) (h : History) : State :=
  mkState (user st) (retryAttempt st) (onLine st) (clock st) (isEmergencyMode st)
    (listening st) (pendingTests st) (pendingRetries st) (cache st) h.

Definition note_failed (st : State) : State :=
  set_history st
    (mkHistory (S (failedChecks (history st))) (sawOffline (history st))
       (queryTimeouts (history st))).

Definition note_offline (st : State) : State :=
  set_history st
    (mkHistory (failedChecks (history st)) true (queryTimeouts (history st))).

Definition note_timeout (st : State) : State :=
  set_history st
    (mkHistory (failedChecks (history st)) (sawOffline (history st))
       (S (queryTimeouts (history st)))).

Definition set_pending (st : State) (tests retries : nat) : State :=
  mkState (user st) (retryAttempt st) (onLine st) (clock st) (isEmergencyMode st)
    (listening st) tests retries (cache st) (history st).

Definition set_listening (st : State) (l : bool) : State :=
  mkState (user st) (retryAttempt st) (onLine st) (clock st) (isEmergencyMode st)
    l (pendingTests st) (pendingRetries st) (cache st) (history st).

Definition set_onLine (st : State) (o : bool) : State :=
  mkState (user st) (retryAttempt st) o (clock st) (isEmergencyMode st)
    (listening st) (pendingTests st) (pendingRetries st) (cache st) (history st).

Definition set_user (st : State) (u : option User) : State :=
  mkState u (retryAttempt st) (onLine st) (clock st) (isEmergencyMode st)
    (listening st) (pendingTests st) (pendingRetries st) (cache st) (history st).

(** [forceEmergencyMode]: [setIsEmergencyMode(true)] and the three
    [setQueryData] calls.  The render that follows runs the cleanup of the
    connection effect, which removes the listeners; the effect itself then
    does nothing, the flag being set. *)
Definition forceEmergencyMode (st : State) : State :=
  mkState (user st) (retryAttempt st) (onLine st) (clock st) true false
    (pendingTests st) (pendingRetries st)
    (mkCache (Some (emergencyProfile st)) (emergencySubjects st) [])
    (history st).

(** The body of the connection-test effect, run by a render whose
    [isEmergencyMode] was [rendered]. *)
Definition connection_effect (rendered : bool) (st : State) : State :=
  if negb rendered && has_user st then
    if negb (onLine st) then forceEmergencyMode (note_offline st)
    else set_listening (set_pending st (S (pendingTests st)) (pendingRetries st)) true
  else st.

(** The render caused by a state update: with the flag set, the cleanup of
    the connection effect has removed the listeners. *)
Definition rerender (st : State) : State :=
  if isEmergencyMode st then set_listening st false else st.

(** A page load: fresh component state, then the [retryAttempt] effect and
    the connection-test effect of the first render (whose flag was false). *)
Definition page_load (u : option User) (retry : Z) (online : bool) (time : string)
  : State :=
  let st0 :=
    mkState u retry online time false false 0 0 (mkCache None [] [])
      (mkHistory 0 false 0) in
  let st1 := if retry >? 3 then forceEmergencyMode st0 else st0 in
  rerender (connection_effect false st1).

(** One event.  An event whose promise or timer is not pending changes
    nothing.  The [offline] handler runs only while the listeners are
    registered, and they are registered only by a render whose flag was
    false.  "Try reconnecting" is offered in emergency mode only: it bumps
    [retryAttempt] in the URL and reloads; out of emergency mode the button
    refreshes the subjects, which leaves this state alone.  A reload is
    taken to bring the page back for the same user at the address as it
    stands.  In the application the router first sends a reloaded [/home] to
    [/auth], the session being not yet restored ([ProtectedRoute], lines
    12-14), and comes back to [/home] without the query string; nothing
    stated below depends on what a reload keeps. *)
Definition step (st : State) (e : Event) : State :=
  match e with
  | EvTestResolved isConnected =>
      match pendingTests st with
      | O => st
      | S n =>
          if isConnected then set_pending st n (pendingRetries st)
          else note_failed (set_pending st n (S (pendingRetries st)))
      end
  | EvRetryTimer isConnectedRetry =>
      match pendingRetries st with
      | O => st
      | S n =>
          let st1 := set_pending st (pendingTests st) n in
          if negb (onLine st1) then forceEmergencyMode (note_offline st1)
          else if negb isConnectedRetry then forceEmergencyMode (note_failed st1)
          else st1
      end
  | EvOffline =>
      let st1 := set_onLine st false in
      if listening st1 then forceEmergencyMode (note_offline st1) else st1
  | EvOnline => set_onLine st true
  | EvProfileTimer hasProfile =>
      let st1 := note_timeout st in
      if negb hasProfile then forceEmergencyMode st1 else st1
  | EvSubjectsTimer noSubjects =>
      let st1 := note_timeout st in
      if noSubjects then forceEmergencyMode st1 else st1
  | EvDepsChanged u =>
      rerender
        (connection_effect (isEmergencyMode st) (set_listening (set_user st u) false))
  | EvReconnect =>
      if isEmergencyMode st then
        page_load (user st) (retryAttempt st + 1) (onLine st) (clock st)
      else st
  | EvReload => page_load (user st) (retryAttempt st) (onLine st) (clock st)
  end.

Definition run_events (st : State) (es : list Event) : State :=
  fold_left step es st.

(** The failed connectivity checks the connection effect wants before it
    gives up: the initial test and the retry five seconds later. *)
Definition failureThreshold : nat := 2.

(** *** The three cached queries *)

(** [enabled: !!user?.id && !isEmergencyMode] *)
Definition profile_enabled (st : State) : bool :=
  has_user st && negb (isEmergencyMode st).

(** [enabled: !!user?.id && !isEmergencyMode] *)
Definition subjects_enabled (st : State) : bool :=
  has_user st && negb (isEmergencyMode st).

(** [enabled: !!user?.id] *)
Definition bookmarks_enabled (st : State) : bool := has_user st.

Definition set_cache (st : State) (c : Cache) : State :=
  mkState (user st) (retryAttempt st) (onLine st) (clock st) (isEmergencyMode st)
    (listening st) (pendingTests st) (pendingRetries st) c (history st).

Definition defaultProfile (u : User) (time : string) : Student.t :=
  Student.mk (id u)
    (or_else (full_name u) (or_else (before_at <$> email u) "New User"))
    (or_else (email u) "")
    1 1 "CSE" false time.

(** A full [Student] passed where a [Partial<Student>] is expected. *)
Definition to_partial (s : Student.t) : PartialStudent.t :=
  PartialStudent.mk (Some (Student.id s)) (Some (Student.full_name s))
    (Some (Student.email s)) (Some (Student.academic_year s))
    (Some (Student.semester s)) (Some (Student.branch s))
    (Some (Student.is_admin s)) (Some (Student.created_at s)).

Definition profile_queryFn (st : State) : M (option Student.t) :=
  match user st with
  | None => ret None
  | Some u =>
      if negb (truthy (id u)) then ret None
      else
        do profile <- fetchStudentProfile (id u);
        match profile with
        | Some p => ret (Some p)
        | None =>
            do t <- get_now;
            let d := defaultProfile u t in
            do savedProfile <- createOrUpdateStudentProfile (id u) (to_partial d);
            match savedProfile with
            | Some p => ret (Some p)
            | None => ret (Some d)
            end
        end
  end.

Definition subjects_queryFn (st : State) : M (list Subject.t) :=
  match user st with
  | None => ret []
  | Some u =>
      if negb (truthy (id u)) then ret []
      else try_catch (fetchSubjectsForStudent (ById (id u))) (fun _ => ret [])
  end.

Definition bookmarks_queryFn (st : State) : M (list Bookmark.t) :=
  match user st with
  | None => ret []
  | Some u =>
      if negb (truthy (id u)) then ret []
      else DatabaseFixed.fetchUserBookmarks (id u)
  end.

(** A query fetches (on mount, on window focus, on reconnect, after an
    invalidation) only while it is enabled; the result replaces its cache
    entry. *)
Definition refetch_profile (st : State) : M State :=
  if profile_enabled st then
    do p <- profile_queryFn st;
    ret (set_cache st
           (mkCache p (subjectsData (cache st)) (bookmarksData (cache st))))
  else ret st.

Definition refetch_subjects (st : State) : M State :=
  if subjects_enabled st then
    do l <- subjects_queryFn st;
    ret (set_cache st
           (mkCache (userProfile (cache st)) l (bookmarksData (cache st))))
  else ret st.

Definition refetch_bookmarks (st : State) : M State :=
  if bookmarks_enabled st then
    do l <- bookmarks_queryFn st;
    ret (set_cache st
           (mkCache (userProfile (cache st)) (subjectsData (cache st)) l))
  else ret st.

End Home.

(** ** [src/pages/Home.tsx]: toggling a bookmark (lines 501-541) *)

Module HomeBookmarks.

(** The optimistic update of the bookmarks cache entry.  The entry it adds
    is [{ subject_id: id, user_id: user.id }]: it has no [id] and no
    [created_at], which are left empty here; nothing reads them. *)
Definition optimistic_update (userId id : string) (currentlyBookmarked : bool)
    (oldBookmarks : list Bookmark.t) : list Bookmark.t :=
  if currentlyBookmarked then
    List.filter (fun bookmark => negb (opt_eqb (Bookmark.subject_id bookmark) id))
      oldBookmarks
  else oldBookmarks ++ [Bookmark.mk "" userId None (Some id) ""].

(** [handleBookmarkToggle]: without a user nothing happens; else the cache
    is updated optimistically, [toggleBookmark] is called with the state the
    cache showed, and the bookmarks query is invalidated, on success and in
    the [catch] block alike, which makes it fetch again if it is enabled. *)
Definition handleBookmarkToggle (st : Home.State) (id : string) : M Home.State :=
  match Home.user st with
  | None => ret st
  | Some u =>
      let currentlyBookmarked :=
        DatabaseFixed.isBookmarked (Home.bookmarksData (Home.cache st)) id in
      let st1 :=
        Home.set_cache st
          (Home.mkCache (Home.userProfile (Home.cache st))
             (Home.subjectsData (Home.cache st))
             (optimistic_update (Home.id u) id currentlyBookmarked
                (Home.bookmarksData (Home.cache st)))) in
      try_catch
        (run DatabaseFixed.toggleBookmark (Home.id u) id currentlyBookmarked;
         Home.refetch_bookmarks st1)
        (fun _ => Home.refetch_bookmarks st1)
  end.

End HomeBookmarks.

(** ** Vocabulary of the statements *)

Definition is_failure (f : Fault) : bool :=
  match f with
  | NoFault => false
  | FailWith _ | Reject _ => true
  end.

(** Is the [i]-th fault of the schedule no failure?  Past the end of the
    schedule nothing fails. *)
Definition ok_at (fs : list Fault) (i : nat) : bool :=
  match fs !! i with
  | Some f => negb (is_failure f)
  | None => true
  end.

(** Is the [i]-th coming request answered by the backend itself? *)
Definition request_ok (i : nat) (w : World) : bool := ok_at (faults w) i.

(** No coming request fails. *)
Definition fault_free (w : World) : Prop := Forall (fun f => f = NoFault) (faults w).

(** The requests sent and the delays waited between two worlds of one run. *)
Definition call_requests (w w' : World) : list Request :=
  drop (length (log w)) (log w').

Definition call_sleeps (w w' : World) : list Z :=
  drop (length (sleeps w)) (sleeps w').

Arguments call_requests : simpl never.
Arguments call_sleeps : simpl never.

(** [w] after the requests [reqs], each consuming one scheduled fault, and
    the delays [sl]; the tables are untouched. *)
Definition advance (w : World) (reqs : list Request) (sl : list Z) : World :=
  mkWorld (db w) (drop (length reqs) (faults w)) (log w ++ reqs) (sleeps w ++ sl)
    (now w).

(** Does the record belong to the (user, item) pair, under either key? *)
Definition pair_matches (userId itemId : string) (b : Bookmark.t) : bool :=
  String.eqb (Bookmark.user_id b) userId
  && (opt_eqb (Bookmark.note_id b) itemId
      || opt_eqb (Bookmark.subject_id b) itemId).

(** The state of the (user, item) pair in the bookmarks table. *)
Definition has_bookmark (d : Database) (userId itemId : string) : bool :=
  existsb (pair_matches userId itemId) (bookmarks d).

(** Two toggles in sequence, each called with the state of the pair the
    table holds once the previous call has settled; the result is the state
    of the pair after the second one. *)
Definition double_toggle {A} (toggle : string -> string -> bool -> M A)
    (userId itemId : string) (w : World) : bool :=
  let b0 := has_bookmark (db w) userId itemId in
  let w1 := snd (toggle userId itemId b0 w) in
  let b1 := has_bookmark (db w1) userId itemId in
  let w2 := snd (toggle userId itemId b1 w1) in
  has_bookmark (db w2) userId itemId.

(** Between [w] and [w'], every record that entered the bookmarks table and
    every insert that was requested carries [id] under both keys. *)
Definition creates_only_both_keys (userId id : string) (w w' : World) : Prop :=
  (forall b, In b (bookmarks (db w')) ->
             In b (bookmarks (db w))
             \/ (Bookmark.user_id b = userId
                 /\ Bookmark.note_id b = Some id
                 /\ Bookmark.subject_id b = Some id))
  /\ (forall u n s r, In (InsertBookmark u n s r) (call_requests w w') ->
                      u = userId /\ n = Some id /\ s = Some id).

(** The rows of [userId], as the table holds them. *)
Definition rows_of_user (userId : string) (w : World) : list Bookmark.t :=
  List.filter (bmatch_all [BEq ColUserId userId]) (bookmarks (db w)).

(** Some bookmark of the list carries [id] under one of the two keys. *)
Definition some_key_matches (bookmarks : list Bookmark.t) (id : string) : Prop :=
  exists b, In b bookmarks
            /\ (Bookmark.note_id b = Some id \/ Bookmark.subject_id b = Some id).

(** The calls of the resilient fetch functions, with their results and
    their declared defaults. *)
Inductive FetchCall : Type :=
| CallFetchStudentProfile (userId : string)
| CallFetchSubjectsForStudent (studentIdOrProfile : IdOrProfile)
| CallFetchUserBookmarks (userId : string)
| CallFetchUserBookmarksDualKey (userId : string).

Inductive FetchResult : Type :=
| Profile (p : option Student.t)
| Subjects (l : list Subject.t)
| Bookmarks (l : list Bookmark.t).

Definition run_fetch (c : FetchCall) : M FetchResult :=
  match c with
  | CallFetchStudentProfile userId =>
      do p <- fetchStudentProfile userId; ret (Profile p)
  | CallFetchSubjectsForStudent a =>
      do l <- fetchSubjectsForStudent a; ret (Subjects l)
  | CallFetchUserBookmarks userId =>
      do l <- DatabaseFixed.fetchUserBookmarks userId; ret (Bookmarks l)
  | CallFetchUserBookmarksDualKey userId =>
      do l <- DualKey.fetchUserBookmarks userId; ret (Bookmarks l)
  end.

Definition default_of (c : FetchCall) : FetchResult :=
  match c with
  | CallFetchStudentProfile _ => Profile None
  | CallFetchSubjectsForStudent _ => Subjects []
  | CallFetchUserBookmarks _ | CallFetchUserBookmarksDualKey _ => Bookmarks []
  end.

(** The permissive query of the subjects loop. *)
Definition is_fallback (r : Request) : bool :=
  match r with
  | SelectSubjects [SOr (SEqYear _) (SEqCommon true)] => true
  | _ => false
  end.

(** The requests of a call that are attempts of the fetch itself: the
    selects on the table it fetches from, the permissive fallback apart.
    The connectivity ping, and the profile lookup that precedes a subjects
    fetch by id, are preliminaries. *)
Definition attempt_of (c : FetchCall) (r : Request) : bool :=
  match c, r with
  | CallFetchStudentProfile _, SelectStudent _ => true
  | CallFetchSubjectsForStudent _, SelectSubjects _ => negb (is_fallback r)
  | CallFetchUserBookmarks _, SelectBookmarks _ _ => true
  | CallFetchUserBookmarksDualKey _, SelectBookmarks _ _ => true
  | _, _ => false
  end.

(** Every attempt among the requests is answered by a failure, the request
    at position [i] of the call consuming the fault at position [i] of the
    schedule. *)
Fixpoint failures_from (c : FetchCall) (i : nat) (reqs : list Request)
    (fs : list Fault) : bool :=
  match reqs with
  | [] => true
  | r :: reqs' =>
      (negb (attempt_of c r) || negb (ok_at fs i)) && failures_from c (S i) reqs' fs
  end.

Definition attempts_fail (c : FetchCall) (reqs : list Request) (fs : list Fault)
  : bool :=
  failures_from c 0 reqs fs.

(** The number of attempts among the requests of a call. *)
Definition attempts (c : FetchCall) (reqs : list Request) : nat :=
  length (List.filter (attempt_of c) reqs).

(** Two requests are the same query, the filter values apart. *)
Definition same_query (r1 r2 : Request) : bool :=
  match r1, r2 with
  | CountStudents, CountStudents => true
  | SelectStudent a, SelectStudent b => String.eqb a b
  | SelectSubjects _, SelectSubjects _ => true
  | SelectBookmarks c1 _, SelectBookmarks c2 _ =>
      match c1, c2 with
      | AllCols, AllCols | NoteCols, NoteCols | SubjectCols, SubjectCols => true
      | _, _ => false
      end
  | _, _ => false
  end.

(** A query occurs twice in the list: it was sent again. *)
Fixpoint retried (reqs : list Request) : bool :=
  match reqs with
  | [] => false
  | r :: reqs' => existsb (same_query r) reqs' || retried reqs'
  end.

(** The first [k] delays of a backoff that starts at 500 ms and doubles. *)
Definition backoff_delays (k : nat) : list Z :=
  map (fun i => 500 * 2 ^ Z.of_nat i) (seq 0 k).

(** What can have set the emergency flag of a home-page state: more than
    three reconnection attempts in the URL, an offline browser, the
    threshold of failed connectivity checks, or a query timeout timer. *)
Definition emergency_cause (st : Home.State) : Prop :=
  3 < Home.retryAttempt st
  \/ Home.sawOffline (Home.history st) = true
  \/ (Home.failureThreshold <= Home.failedChecks (Home.history st))%nat
  \/ (0 < Home.queryTimeouts (Home.history st))%nat.

(** What holds of every state of the page: a set flag has a cause, and an
    armed retry timer comes from a failed check. *)
Definition home_invariant (st : Home.State) : Prop :=
  (Home.isEmergencyMode st = true -> emergency_cause st)
  /\ ((0 < Home.pendingRetries st)%nat ->
      (1 <= Home.failedChecks (Home.history st))%nat).

(** The retry discipline of the call [c] between [w] and [w'], its first
    attempt being the request at position [first] of the call: at most two
    retries; the delays waited are those of the doubling backoff, one before
    each retry; a failed first attempt is retried, and so is a failed second
    attempt. *)
Definition retry_discipline (c : FetchCall) (first : nat) (w w' : World) : Prop :=
  exists k : nat,
    (k <= 2)%nat
    /\ call_sleeps w w' = backoff_delays k
    /\ attempts c (call_requests w w') = S k
    /\ (request_ok first w = false -> (1 <= k)%nat)
    /\ (request_ok first w = false -> request_ok (S first) w = false ->
        (2 <= k)%nat).

(** What C3 says of a returned subject. *)
Definition claimed_match (academicYear semester : Z) (branch : string)
    (s : Subject.t) : Prop :=
  (Subject.academic_year s = academicYear
   /\ Subject.semester s = semester
   /\ Subject.branch s = branch)
  \/ Subject.is_common s = true.

(** The profile [fetchSubjectsForStudent] works with, when it gets one. *)
Definition profile_of (a : IdOrProfile) (w : World) : option Student.t :=
  match a with
  | ById studentId => students (db w) !! studentId
  | ByProfile profile => Some profile
  | NoProfile => None
  end.

Definition nonempty {A} (l : list A) : bool :=
  match l with
  | [] => false
  | _ :: _ => true
  end.

(** The rows the two subject queries find in the table. *)
Definition strict_rows (academicYear semester : Z) (branch : string) (w : World)
  : list Subject.t :=
  List.filter (smatch_all (strict_filters academicYear semester branch))
    (subjects (db w)).

Definition permissive_rows (academicYear : Z) (w : World) : list Subject.t :=
  List.filter (smatch_all (permissive_filters academicYear)) (subjects (db w)).

(** The subjects a profile asks for, and the wider set of the fallback. *)
Definition strict_match (academicYear semester : Z) (branch : string)
    (s : Subject.t) : Prop :=
  Subject.academic_year s = academicYear
  /\ Subject.semester s = semester
  /\ (Subject.branch s = branch \/ Subject.is_common s = true).

Definition permissive_match (academicYear : Z) (s : Subject.t) : Prop :=
  Subject.academic_year s = academicYear \/ Subject.is_common s = true.

(** Does the table hold a record of the user that carries [id] in the
    column? *)
Definition stored_under (col : BookmarkCol) (d : Database) (userId id : string)
  : bool :=
  existsb (bmatch_all [BEq ColUserId userId; BEq col id]) (bookmarks d).

(** The calls that write to the bookmarks table, with the [success] they
    report. *)
Inductive BookmarkCall : Type :=
| CallToggleBookmark (currentlyBookmarked : bool)
| CallAddBookmark
| CallRemoveBookmark
| CallToggleBookmarkDualKey (isCurrentlyBookmarked : bool)
| CallAddBookmarkDualKey
| CallRemoveBookmarkDualKey.

Definition run_bookmark_call (c : BookmarkCall) (userId itemId : string) : M bool :=
  match c with
  | CallToggleBookmark b =>
      do r <- DatabaseFixed.toggleBookmark userId itemId b;
      ret (DatabaseResponse.success r)
  | CallAddBookmark =>
      do r <- DatabaseFixed.addBookmark userId itemId; ret (OpResult.success r)
  | CallRemoveBookmark =>
      do r <- DatabaseFixed.removeBookmark userId itemId; ret (OpResult.success r)
  | CallToggleBookmarkDualKey b =>
      do r <- DualKey.toggleBookmark userId itemId b; ret (ToggleResult.success r)
  | CallAddBookmarkDualKey =>
      do r <- DualKey.addBookmark userId itemId; ret (OpResult.success r)
  | CallRemoveBookmarkDualKey =>
      do r <- DualKey.removeBookmark userId itemId; ret (OpResult.success r)
  end.

(** The records of the table that do not belong to the (user, item) pair. *)
Definition other_records (userId itemId : string) (d : Database) : list Bookmark.t :=
  List.filter (fun b => negb (pair_matches userId itemId b)) (bookmarks d).

(** The one request [toggleBookmark] of the first document sends. *)
Definition toggle_request (userId id : string) (currentlyBookmarked : bool) : Request :=
  if currentlyBookmarked
  then DeleteBookmarks
         [BOr (BEq ColSubjectId id) (BEq ColNoteId id); BEq ColUserId userId]
  else InsertBookmark userId (Some id) (Some id) true.

(** ** Requests that take time *)

(** The definitions above answer every request at once.  The functions of
    [src/unnamed/part_002] and the lookup of the second document also set
    timers that abort an [AbortController]; what the timers do shows only
    when a request takes time, or never settles.  The definitions of this
    module are the fetch functions once more, with their timers and with a
    latency for every request. *)

Module Timed.

(** How long the backend takes to settle a request. *)
Inductive Latency : Type :=
| After (ms : Z)
| Never.

(** A world and the latencies of the coming requests; past the end of the
    list a request settles at once. *)
Record TimedWorld : Type := mkTimedWorld {
  world : World;
  latencies : list Latency
}.

Definition latency_at (tw : TimedWorld) (i : nat) : Latency :=
  default (After 0) (latencies tw !! i).

(** What becomes of an awaited promise: it is fulfilled, it is rejected, or
    it never settles and the code after the [await] never runs. *)
Inductive Result (A : Type) : Type :=
| Returns (a : A)
| Throws (x : Exn)
| Pending.
Arguments Returns {A} _.
Arguments Throws {A} _.
Arguments Pending {A}.

Definition T (A : Type) : Type := TimedWorld -> Result A * TimedWorld.

Definition of_outcome {A} (o : Outcome A) : Result A :=
  match o with
  | Val a => Returns a
  | Throw x => Throws x
  end.

(** A step that sends no request. *)
Definition lift {A} (m : M A) : T A :=
  fun tw =>
    let '(o, w') := m (world tw) in
    (of_outcome o, mkTimedWorld w' (latencies tw)).

Definition ret {A} (a : A) : T A := fun tw => (Returns a, tw).

Definition bind {A B} (m : T A) (k : A -> T B) : T B :=
  fun tw =>
    match m tw with
    | (Returns a, tw') => k a tw'
    | (Throws x, tw') => (Throws x, tw')
    | (Pending, tw') => (Pending, tw')
    end.

Declare Scope timed_scope.
Notation "'do' x <- m ; k" := (bind m (fun x => k))
  (at level 10, x name, m at level 100, k at level 200) : timed_scope.
Notation "'run' m ; k" := (bind m (fun _ => k))
  (at level 10, m at level 100, k at level 200) : timed_scope.
Local Open Scope timed_scope.

(** [try { body } catch (e) { handler e }]: a promise that never settles
    is not caught. *)
Definition try_catch {A} (body : T A) (handler : Exn -> T A) : T A :=
  fun tw =>
    match body tw with
    | (Returns a, tw') => (Returns a, tw')
    | (Throws x, tw') => handler x tw'
    | (Pending, tw') => (Pending, tw')
    end.

Definition sleep (ms : Z) : T unit := lift (sleep ms).

(** [const controller = new AbortController();
     const timeoutId = setTimeout(() => controller.abort(), timeoutMs)],
    with [clearTimeout(timeoutId)] after the awaited query: the signal of
    the controller, aborted [timeoutMs] after the query was sent unless the
    query has settled by then. *)
Definition AbortSignal : Type := Z.

Definition abort_after (timeoutMs : Z) : AbortSignal := timeoutMs.

Definition abortError : Exn := mkExn "AbortError" "The operation was aborted".

(** Is the signal the query was given (if any) aborted before the query
    settles? *)
Definition aborted_first (signal : option AbortSignal) (l : Latency) : bool :=
  match signal, l with
  | Some timeoutMs, After ms => timeoutMs <? ms
  | Some _, Never => true
  | None, _ => false
  end.

(** One request, built with [.abortSignal(signal)] or without.  A request
    whose signal is aborted first is rejected with an [AbortError]: it
    was sent, and what the backend had in store for it is lost.  A request
    that never settles and has no signal to abort it stays pending.  Any
    other request is answered as [backend] says. *)
Definition send {A} (signal : option AbortSignal) (r : Request)
    (exec : Database -> Resp A * Database) : T (Resp A) :=
  fun tw =>
    let w := world tw in
    let rest := drop 1 (latencies tw) in
    let sent := advance w [r] [] in
    if aborted_first signal (latency_at tw 0) then
      (Throws abortError, mkTimedWorld sent rest)
    else
      match latency_at tw 0 with
      | Never => (Pending, mkTimedWorld sent rest)
      | After _ =>
          let '(o, w') := backend r exec w in
          (of_outcome o, mkTimedWorld w' rest)
      end.

(** [Promise.allSettled([m1, m2])]: both requests are sent; the result
    comes once both have settled. *)
Definition allSettled {A B} (m1 : T A) (m2 : T B) : T (Settled A * Settled B) :=
  fun tw =>
    let '(r1, tw1) := m1 tw in
    let '(r2, tw2) := m2 tw1 in
    match r1, r2 with
    | Pending, _ | _, Pending => (Pending, tw2)
    | Returns a, Returns b => (Returns (Fulfilled a, Fulfilled b), tw2)
    | Returns a, Throws y => (Returns (Fulfilled a, Rejected y), tw2)
    | Throws x, Returns b => (Returns (Rejected x, Fulfilled b), tw2)
    | Throws x, Throws y => (Returns (Rejected x, Rejected y), tw2)
    end.

Fixpoint while_attempts {A} (fuel : nat) (body : Z -> T (Step A)) (after : A)
    (attempt : Z) : T A :=
  match fuel with
  | O => ret after
  | S fuel' =>
      if attempt <? maxAttempts then
        let attempt := attempt + 1 in
        do s <- body attempt;
        match s with
        | Return v => ret v
        | Continue => while_attempts fuel' body after attempt
        end
      else ret after
  end.

(** [testSupabaseConnection] (lines 7-33) sets no timer. *)
Definition testSupabaseConnection : T bool :=
  try_catch
    (do r <- send None CountStudents exec_count_students;
     match error r with
     | Some _ => ret false
     | None => ret true
     end)
    (fun _ => ret false).

(** One pass of the loop of [fetchStudentProfile] (lines 57-136): the
    select is built with [.abortSignal(controller.signal)] (line 78). *)
Definition profile_attempt (userId : string) (attempt : Z)
  : T (Step (option Student.t)) :=
  try_catch
    (let signal := abort_after (5000 + attempt * 1000) in
     do r <- send (Some signal) (SelectStudent userId) (exec_select_student userId);
     match error r with
     | Some _ =>
         if attempt =? maxAttempts then ret (Return None)
         else run sleep (profile_backoffMs attempt); ret Continue
     | None =>
         match data r with
         | Some s => ret (Return (Some s))
         | None => ret (Return None)
         end
     end)
    (fun _ =>
       if attempt =? maxAttempts then ret (Return None)
       else run sleep (profile_backoffMs attempt); ret Continue).

Definition fetchStudentProfile (userId : string) : T (option Student.t) :=
  if negb (truthy userId) then ret None
  else
    do isConnected <- testSupabaseConnection;
    while_attempts loop_fuel (profile_attempt userId) None 0.

Definition subjects_retry (attempt : Z) : T (Step (list Subject.t)) :=
  if attempt =? maxAttempts then ret (Return [])
  else run sleep (subjects_backoffMs attempt); ret Continue.

(** One pass of the loop of [fetchSubjectsForStudent] (lines 233-327): the
    controller and its timer are set up (lines 240-245), but neither query
    is given the signal (lines 248-253, 290-293). *)
Definition subjects_attempt (academicYear semester : Z) (branch : string)
    (attempt : Z) : T (Step (list Subject.t)) :=
  try_catch
    (let signal := abort_after (2000 + attempt * 1000) in
     do r <- send None (SelectSubjects (strict_filters academicYear semester branch))
               (exec_select_subjects (strict_filters academicYear semester branch));
     match error r with
     | Some _ => subjects_retry attempt
     | None =>
         match data r with
         | Some (s :: l) => ret (Return (s :: l))
         | _ =>
             do fallbackData <-
               (if attempt =? maxAttempts - 1 then
                  do r2 <- send None (SelectSubjects (permissive_filters academicYear))
                             (exec_select_subjects (permissive_filters academicYear));
                  ret (data r2)
                else ret None);
             match fallbackData with
             | Some (s :: l) => ret (Return (s :: l))
             | _ => subjects_retry attempt
             end
         end
     end)
    (fun _ => subjects_retry attempt).

Definition fetchSubjectsForStudent (studentIdOrProfile : IdOrProfile)
  : T (list Subject.t) :=
  do details <-
    match studentIdOrProfile with
    | ById studentId =>
        try_catch (fetchStudentProfile studentId) (fun _ => ret None)
    | NoProfile => ret None
    | ByProfile profile => ret (Some profile)
    end;
  match details with
  | None => ret []
  | Some profile =>
      while_attempts loop_fuel
        (subjects_attempt (Student.academic_year profile)
           (Student.semester profile) (Student.branch profile))
        [] 0
  end.

(** [fetchUserBookmarks] of the first document (lines 16-41) sets no
    timer. *)
Definition fetchUserBookmarks (userId : string) : T (list Bookmark.t) :=
  try_catch
    (do r <- send None (SelectBookmarks AllCols [BEq ColUserId userId])
               (exec_select_bookmarks AllCols [BEq ColUserId userId]);
     match error r with
     | Some _ => ret []
     | None =>
         match data r with
         | Some (b :: l) => ret (b :: l)
         | _ => ret []
         end
     end)
    (fun _ => ret []).

(** [fetchUserBookmarks] of the second document (lines 243-310): the
    controller and its 2500 ms timer are set up (lines 247-248), but neither
    query is given the signal (lines 254-263). *)
Definition fetchUserBookmarksDualKey (userId : string) : T (list Bookmark.t) :=
  if negb (truthy userId) then ret []
  else
    let signal := abort_after 2500 in
    try_catch
      (do results <-
         allSettled
           (send None (SelectBookmarks NoteCols [BEq ColUserId userId])
              (exec_select_bookmarks NoteCols [BEq ColUserId userId]))
           (send None (SelectBookmarks SubjectCols [BEq ColUserId userId])
              (exec_select_bookmarks SubjectCols [BEq ColUserId userId]));
       match DualKey.rows_of (fst results) with
       | Some rows => ret rows
       | None =>
           match DualKey.rows_of (snd results) with
           | Some rows => ret (map DualKey.map_to_note_id rows)
           | None => ret []
           end
       end)
      (fun _ => ret []).

Definition run_fetch (c : FetchCall) : T FetchResult :=
  match c with
  | CallFetchStudentProfile userId =>
      do p <- fetchStudentProfile userId; ret (Profile p)
  | CallFetchSubjectsForStudent a =>
      do l <- fetchSubjectsForStudent a; ret (Subjects l)
  | CallFetchUserBookmarks userId =>
      do l <- fetchUserBookmarks userId; ret (Bookmarks l)
  | CallFetchUserBookmarksDualKey userId =>
      do l <- fetchUserBookmarksDualKey userId; ret (Bookmarks l)
  end.

End Timed.

(** Is attempt [a] of the timed [fetchStudentProfile], which is the request
    [a] of the call, answered, and within its time limit of
    [5000 + a * 1000] ms? *)
Definition answered_in_time (tw : Timed.TimedWorld) (a : nat) : bool :=
  request_ok a (Timed.world tw)
  && negb (Timed.aborted_first
             (Some (Timed.abort_after (5000 + Z.of_nat a * 1000)))
             (Timed.latency_at tw a)).

(** The discipline of [fetchSubjectsForStudent] called with an id: first
    the profile lookup, with its own retries and delays; then, when it has
    found a profile, the attempts on the subjects, with theirs; when it has
    not, nothing more. *)
Definition by_id_discipline (studentId : string) (w w' : World) : Prop :=
  let lookup := fetchStudentProfile studentId w in
  retry_discipline (CallFetchStudentProfile studentId) 1 w (snd lookup)
  /\ match fst lookup with
     | Val (Some p) =>
         retry_discipline (CallFetchSubjectsForStudent (ByProfile p)) 0
           (snd lookup) w'
     | _ => w' = snd lookup
     end.

(** * Properties *)

Ltac open_world w :=
  let d := fresh "d" in
  let fs := fresh "fs" in
  let lg := fresh "lg" in
  let sl := fresh "sl" in
  let t := fresh "t" in
  destruct w as [d fs lg sl t].

Ltac next_fault fs :=
  let e := fresh "e" in
  let x := fresh "x" in
  destruct fs as [|[|e|x] fs].

Ltac unfold_m :=
  unfold try_catch, settle, bind, ret, sleep, get_now,
    select_bookmarks, insert_bookmark, delete_bookmarks, select_subjects,
    select_student, upsert_student, count_students, backend,
    exec_select_bookmarks, exec_insert_bookmark, exec_delete_bookmarks,
    exec_select_subjects, exec_select_student, exec_upsert_student,
    exec_count_students, ok, ok_null, failed in *.

(** ** Basic facts *)

Lemma truthy_false (s : string) : truthy s = false <-> s = "".
Proof.
  unfold truthy. rewrite negb_false_iff. apply String.eqb_eq.
Qed.

Lemma truthy_true (s : string) : truthy s = true <-> s <> "".
Proof.
  unfold truthy. rewrite negb_true_iff. apply String.eqb_neq.
Qed.

Lemma opt_eqb_true (o : option string) (v : string) :
  opt_eqb o v = true <-> o = Some v.
Proof.
  destruct o as [s|]; simpl.
  - rewrite String.eqb_eq. split; congruence.
  - split; discriminate.
Qed.

(** ** Dual-key lookup *)

Lemma DualKey_isBookmarked_iff (bookmarks : list Bookmark.t) (id : string) :
  DualKey.isBookmarked bookmarks id = true <-> some_key_matches bookmarks id.
Proof.
  unfold DualKey.isBookmarked, some_key_matches.
  rewrite existsb_exists.
  split; intros [b [Hin Hb]]; exists b; split; auto.
  - apply orb_true_iff in Hb. now rewrite !opt_eqb_true in Hb.
  - apply orb_true_iff. now rewrite !opt_eqb_true.
Qed.

Lemma DatabaseFixed_isBookmarked_iff (bookmarks : list Bookmark.t) (id : string) :
  DatabaseFixed.isBookmarked bookmarks id = true
  <-> id <> "" /\ some_key_matches bookmarks id.
Proof.
  unfold DatabaseFixed.isBookmarked, some_key_matches.
  rewrite existsb_exists.
  split.
  - intros [b [Hin Hb]].
    apply orb_true_iff in Hb.
    destruct Hb as [Hb|Hb]; apply andb_true_iff in Hb; destruct Hb as [Ht He];
      apply opt_eqb_true in He; rewrite He in Ht; simpl in Ht;
      apply truthy_true in Ht; (split; [exact Ht | exists b; auto]).
  - intros [Hid [b [Hin Hb]]].
    exists b. split; [exact Hin|].
    apply truthy_true in Hid.
    apply orb_true_iff.
    destruct Hb as [Hb|Hb]; rewrite Hb; simpl; rewrite Hid, String.eqb_refl; auto.
Qed.

Example isBookmarked_by_subject_id :
  let bookmarks := [Bookmark.mk "bm-0" "u1" None (Some "s1") "t0"] in
  DatabaseFixed.isBookmarked bookmarks "s1" = true
  /\ DualKey.isBookmarked bookmarks "s1" = true
  /\ DualKey.isBookmarked bookmarks "s2" = false.
Proof. repeat split. Qed.

(** C2, as stated, fails on the lookup of lines 46-56: with the empty
    string as id, a bookmark whose [note_id] is the empty string matches on
    that key, and the lookup answers false. *)
Lemma C2_empty_id_counterexample :
  let bookmarks := [Bookmark.mk "b1" "u1" (Some "") None "2025-04-19"] in
  ~ (DatabaseFixed.isBookmarked bookmarks "" = true <-> some_key_matches bookmarks "").
Proof.
  intros bookmarks [_ H].
  assert (Hm : some_key_matches bookmarks "").
  { exists (Bookmark.mk "b1" "u1" (Some "") None "2025-04-19").
    split; [left; reflexivity | left; reflexivity]. }
  apply H in Hm. discriminate Hm.
Qed.

(** C2 (amended): the lookup of lines 315-319 returns true exactly when some
    bookmark of the list has [note_id] or [subject_id] equal to the id; the
    lookup of lines 46-56, which guards each key by its truthiness, does so
    for every id other than the empty string, and returns false for the
    empty string. *)
Theorem C2_isBookmarked_dual_key (bookmarks : list Bookmark.t) (id : string) :
  (DualKey.isBookmarked bookmarks id = true <-> some_key_matches bookmarks id)
  /\ (DatabaseFixed.isBookmarked bookmarks id = true
      <-> id <> "" /\ some_key_matches bookmarks id).
Proof.
  split.
  - apply DualKey_isBookmarked_iff.
  - apply DatabaseFixed_isBookmarked_iff.
Qed.

(** ** The guards of [addBookmark] and [removeBookmark] *)

Lemma missing_guard (userId itemId : string) :
  userId = "" \/ itemId = "" ->
  negb (truthy userId) || negb (truthy itemId) = true.
Proof.
  intros [H|H]; apply truthy_false in H; rewrite H; simpl; auto using orb_true_r.
Qed.

(** C10: with an empty user id or item id, [addBookmark] and
    [removeBookmark] (both documents) return [success = false] with the
    message 'Missing user ID or item ID', and the world is the one they were
    called in: no request is sent and no table changes. *)
Theorem C10_missing_ids_no_backend (userId itemId : string) (w : World) :
  userId = "" \/ itemId = "" ->
  let refused := (Val (OpResult.mk false "Missing user ID or item ID"), w) in
  DatabaseFixed.addBookmark userId itemId w = refused
  /\ DatabaseFixed.removeBookmark userId itemId w = refused
  /\ DualKey.addBookmark userId itemId w = refused
  /\ DualKey.removeBookmark userId itemId w = refused.
Proof.
  intros H refused.
  pose proof (missing_guard userId itemId H) as G.
  unfold DatabaseFixed.addBookmark, DatabaseFixed.removeBookmark,
    DualKey.addBookmark, DualKey.removeBookmark.
  rewrite G. repeat split.
Qed.

Lemma C10_missing_ids_witness :
  let w := mkWorld (mkDatabase ∅ [] [] 0) [] [] [] "2025-04-19T00:00:00Z" in
  let refused := (Val (OpResult.mk false "Missing user ID or item ID"), w) in
  DatabaseFixed.addBookmark "" "s1" w = refused
  /\ DatabaseFixed.removeBookmark "" "s1" w = refused
  /\ DualKey.addBookmark "" "s1" w = refused
  /\ DualKey.removeBookmark "" "s1" w = refused.
Proof.
  intros w refused.
  apply (C10_missing_ids_no_backend "" "s1" w).
  left. reflexivity.
Defined.

(** ** Records created by the first document *)

Lemma In_filter_sub {A} (f : A -> bool) (l : list A) (a : A) :
  In a (List.filter f l) -> In a l.
Proof. intros H. apply filter_In in H. tauto. Qed.

Lemma call_requests_app (d d' : Database) (fs fs' : list Fault)
    (lg l : list Request) (sl sl' : list Z) (t t' : string) :
  call_requests (mkWorld d fs lg sl t) (mkWorld d' fs' (lg ++ l) sl' t') = l.
Proof. unfold call_requests. simpl. apply drop_app_length. Qed.

Lemma call_requests_nil (d d' : Database) (fs fs' : list Fault)
    (lg : list Request) (sl sl' : list Z) (t t' : string) :
  call_requests (mkWorld d fs lg sl t) (mkWorld d' fs' lg sl' t') = [].
Proof. unfold call_requests. simpl. apply drop_all. Qed.

(** C9: after [toggleBookmark] or [addBookmark] of the first document
    (lines 61-170), every record of the bookmarks table was there before
    the call or carries the item id under both keys,
    [note_id = subject_id = id], and so does every insert the call sent. *)
Theorem C9_created_records_have_both_keys
    (userId id : string) (currentlyBookmarked : bool) (w : World) :
  creates_only_both_keys userId id w
    (snd (DatabaseFixed.toggleBookmark userId id currentlyBookmarked w))
  /\ creates_only_both_keys userId id w
       (snd (DatabaseFixed.addBookmark userId id w)).
Proof.
  open_world w. unfold creates_only_both_keys. split.
  - destruct currentlyBookmarked; next_fault fs; cbn;
      rewrite call_requests_app; (split; [intros b H | intros u n s r H]);
      try (left; exact H);
      try (left; exact (In_filter_sub _ _ _ H));
      try (destruct H as [H|[]]; (discriminate H || (injection H as <- <- <- _; auto)));
      apply in_app_or in H; destruct H as [H|[H|[]]]; auto;
      subst b; right; repeat split.
  - unfold DatabaseFixed.addBookmark.
    destruct (negb (truthy userId) || negb (truthy id)).
    + cbn. rewrite call_requests_nil. split; [auto | intros u n s r []].
    + next_fault fs; cbn;
        rewrite call_requests_app; (split; [intros b H | intros u n s r H]);
        try (left; exact H);
        try (destruct H as [H|[]]; injection H as <- <- <- _; auto);
        apply in_app_or in H; destruct H as [H|[H|[]]]; auto;
        subst b; right; repeat split.
Qed.

(** ** Dual-key mutations and lookups (second document) *)

Lemma guard_passes (userId itemId : string) :
  userId <> "" -> itemId <> "" ->
  negb (truthy userId) || negb (truthy itemId) = false.
Proof.
  intros H1 H2. apply truthy_true in H1. apply truthy_true in H2.
  now rewrite H1, H2.
Qed.

Ltac log_simpl :=
  repeat rewrite <- app_assoc; simpl app;
  try rewrite call_requests_app; try rewrite call_requests_nil.

Lemma DualKey_addBookmark_order (userId itemId : string) (w : World) :
  userId <> "" -> itemId <> "" ->
  exists res w',
    DualKey.addBookmark userId itemId w = (Val res, w')
    /\ call_requests w w'
       = (if request_ok 0 w
          then [InsertBookmark userId (Some itemId) None false]
          else [InsertBookmark userId (Some itemId) None false;
                InsertBookmark userId None (Some itemId) false])
    /\ OpResult.success res = request_ok 0 w || request_ok 1 w.
Proof.
  intros H1 H2. unfold DualKey.addBookmark.
  rewrite (guard_passes _ _ H1 H2).
  open_world w.
  next_fault fs; [| |next_fault fs..]; cbn -[call_requests];
    do 2 eexists; (split; [reflexivity|]); log_simpl; split; reflexivity.
Qed.



Lemma DualKey_fetchUserBookmarks_closed_form (userId : string) (w : World) :
  userId <> "" ->
  fst (DualKey.fetchUserBookmarks userId w)
  = Val (if request_ok 0 w then map (project NoteCols) (rows_of_user userId w)
         else if request_ok 1 w
              then map DualKey.map_to_note_id
                     (map (project SubjectCols) (rows_of_user userId w))
              else []).
Proof.
  intros H. apply truthy_true in H.
  unfold DualKey.fetchUserBookmarks, rows_of_user. rewrite H.
  change (negb true) with false. cbv iota.
  open_world w.
  next_fault fs; [|next_fault fs..]; unfold_m; cbn;
    try reflexivity;
    try (destruct (List.filter _ (bookmarks d)); reflexivity).
Qed.



(** ** Double toggle *)

Lemma fault_free_cases (w : World) :
  fault_free w ->
  faults w = []
  \/ exists fs', faults w = NoFault :: fs' /\ Forall (fun f => f = NoFault) fs'.
Proof.
  unfold fault_free. intros H. destruct (faults w) as [|f fs]; auto.
  inversion H; subst. right. eauto.
Qed.

Lemma existsb_filter_out {A} (p q : A -> bool) (l : list A) :
  (forall a, p a = true -> q a = true) ->
  existsb p (List.filter (fun a => negb (q a)) l) = false.
Proof.
  intros H. induction l as [|a l IH]; simpl; [reflexivity|].
  destruct (q a) eqn:Hq; simpl; [exact IH|].
  rewrite IH. destruct (p a) eqn:Hp; [|reflexivity].
  apply H in Hp. congruence.
Qed.

Lemma existsb_filter_false {A} (p f : A -> bool) (l : list A) :
  existsb p l = false -> existsb p (List.filter f l) = false.
Proof.
  induction l as [|a l IH]; simpl; [reflexivity|].
  intros H. apply orb_false_iff in H. destruct H as [Ha Hl].
  destruct (f a); simpl; [rewrite Ha|]; auto.
Qed.

Lemma filter_twice {A} (f : A -> bool) (l : list A) :
  List.filter f (List.filter f l) = List.filter f l.
Proof.
  induction l as [|a l IH]; simpl; [reflexivity|].
  destruct (f a) eqn:Hf; simpl; [rewrite Hf, IH|]; auto.
Qed.

(** What one toggle of the first document does to the table when no
    request fails. *)
Lemma DatabaseFixed_toggle_fault_free
    (userId id : string) (currentlyBookmarked : bool) (w : World) :
  fault_free w ->
  let w' := snd (DatabaseFixed.toggleBookmark userId id currentlyBookmarked w) in
  fault_free w'
  /\ bookmarks (db w')
     = if currentlyBookmarked
       then List.filter
              (fun b => negb (bmatch_all
                                [BOr (BEq ColSubjectId id) (BEq ColNoteId id);
                                 BEq ColUserId userId] b))
              (bookmarks (db w))
       else bookmarks (db w)
            ++ [Bookmark.mk ("bm-" +:+ pretty (bookmark_seq (db w))) userId
                  (Some id) (Some id) (now w)].
Proof.
  intros H. apply fault_free_cases in H.
  open_world w. simpl in H.
  destruct H as [->|[fs' [-> H]]]; destruct currentlyBookmarked;
    unfold fault_free; cbn; split; auto.
Qed.

Lemma DualKey_toggle_fault_free
    (userId itemId : string) (isCurrentlyBookmarked : bool) (w : World) :
  fault_free w ->
  let w' := snd (DualKey.toggleBookmark userId itemId isCurrentlyBookmarked w) in
  fault_free w'
  /\ bookmarks (db w')
     = if negb (truthy userId) || negb (truthy itemId) then bookmarks (db w)
       else if isCurrentlyBookmarked
       then List.filter
              (fun b => negb (bmatch_all
                                [BEq ColUserId userId; BEq ColNoteId itemId] b))
              (bookmarks (db w))
       else bookmarks (db w)
            ++ [Bookmark.mk ("bm-" +:+ pretty (bookmark_seq (db w))) userId
                  (Some itemId) None (now w)].
Proof.
  intros H.
  unfold DualKey.toggleBookmark, DualKey.addBookmark, DualKey.removeBookmark.
  destruct (negb (truthy userId) || negb (truthy itemId)).
  - destruct isCurrentlyBookmarked; cbn; auto.
  - pose proof H as H'. apply fault_free_cases in H.
    open_world w. simpl in H.
    destruct H as [->|[fs' [-> H]]]; destruct isCurrentlyBookmarked;
      unfold fault_free; cbn; split; auto.
Qed.

Lemma pair_matches_both (userId id i t : string) (s : option string) :
  pair_matches userId id (Bookmark.mk i userId (Some id) s t) = true.
Proof.
  unfold pair_matches. simpl. rewrite !String.eqb_refl. reflexivity.
Qed.

Lemma DatabaseFixed_double_toggle (userId itemId : string) (w : World) :
  fault_free w ->
  double_toggle DatabaseFixed.toggleBookmark userId itemId w
  = has_bookmark (db w) userId itemId.
Proof.
  intros H. unfold double_toggle.
  set (b0 := has_bookmark (db w) userId itemId).
  destruct (DatabaseFixed_toggle_fault_free userId itemId b0 w H) as [H1 E1].
  set (w1 := snd (DatabaseFixed.toggleBookmark userId itemId b0 w)) in *.
  set (b1 := has_bookmark (db w1) userId itemId).
  destruct (DatabaseFixed_toggle_fault_free userId itemId b1 w1 H1) as [_ E2].
  set (w2 := snd (DatabaseFixed.toggleBookmark userId itemId b1 w1)) in *.
  assert (Hdel : forall l,
    existsb (pair_matches userId itemId)
      (List.filter
         (fun b => negb (bmatch_all
                           [BOr (BEq ColSubjectId itemId) (BEq ColNoteId itemId);
                            BEq ColUserId userId] b)) l) = false).
  { intros l. apply existsb_filter_out. intros a Ha.
    unfold pair_matches in Ha. unfold bmatch_all. simpl.
    apply andb_true_iff in Ha. destruct Ha as [Hu Hk].
    rewrite Hu. rewrite (orb_comm (opt_eqb (Bookmark.subject_id a) itemId)).
    rewrite Hk. reflexivity. }
  assert (Hb1 : b1 = negb b0).
  { unfold b1, has_bookmark. rewrite E1. destruct b0; simpl.
    - apply Hdel.
    - rewrite existsb_app. simpl. rewrite pair_matches_both.
      rewrite orb_true_r. reflexivity. }
  unfold has_bookmark at 1. rewrite E2, Hb1.
  destruct b0; simpl.
  - rewrite existsb_app. simpl. rewrite pair_matches_both.
    rewrite orb_true_r. reflexivity.
  - apply Hdel.
Qed.

Lemma DualKey_double_toggle (userId itemId : string) (w : World) :
  fault_free w ->
  double_toggle DualKey.toggleBookmark userId itemId w
  = has_bookmark (db w) userId itemId.
Proof.
  intros H. unfold double_toggle.
  set (b0 := has_bookmark (db w) userId itemId).
  destruct (DualKey_toggle_fault_free userId itemId b0 w H) as [H1 E1].
  set (w1 := snd (DualKey.toggleBookmark userId itemId b0 w)) in *.
  set (b1 := has_bookmark (db w1) userId itemId).
  destruct (DualKey_toggle_fault_free userId itemId b1 w1 H1) as [_ E2].
  set (w2 := snd (DualKey.toggleBookmark userId itemId b1 w1)) in *.
  unfold has_bookmark at 1. rewrite E2.
  destruct (negb (truthy userId) || negb (truthy itemId)) eqn:G.
  - fold (has_bookmark (db w1) userId itemId).
    unfold has_bookmark. rewrite E1. reflexivity.
  - set (F := fun b => negb (bmatch_all
                               [BEq ColUserId userId; BEq ColNoteId itemId] b)) in *.
    destruct b0 eqn:Hb0.
    + destruct b1 eqn:Hb1.
      * rewrite E1, filter_twice. rewrite <- E1. exact Hb1.
      * rewrite existsb_app. simpl. rewrite pair_matches_both.
        rewrite orb_true_r. reflexivity.
    + assert (Hb1 : b1 = true).
      { unfold b1, has_bookmark. rewrite E1, existsb_app. simpl.
        rewrite pair_matches_both. rewrite orb_true_r. reflexivity. }
      rewrite Hb1, E1, List.filter_app.
      assert (Hrow : forall i t,
        List.filter F [Bookmark.mk i userId (Some itemId) None t] = []).
      { intros i t. unfold F, bmatch_all. simpl. rewrite !String.eqb_refl.
        reflexivity. }
      rewrite Hrow, app_nil_r.
      apply existsb_filter_false. exact Hb0.
Qed.

(** C4, as stated, fails when a request fails: the pair is not bookmarked,
    the first toggle inserts the record, the delete of the second toggle
    comes back with an error, and the pair stays bookmarked. *)
Lemma C4_failed_delete_counterexample :
  let w := mkWorld (mkDatabase ∅ [] [] 0)
             [NoFault; FailWith (PgError.mk "PGRST301" "network error")]
             [] [] "2025-04-19T00:00:00Z" in
  has_bookmark (db w) "u1" "s1" = false
  /\ double_toggle DatabaseFixed.toggleBookmark "u1" "s1" w = true.
Proof.
  split; vm_compute; reflexivity.
Qed.

(** C4 (amended): when no request of the two invocations fails, two
    toggles in sequence for the same (user, item) pair, the second one
    called with the state the first one left, leave the state of the pair
    as it was before the first one.  This holds for the toggle of both
    documents. *)
Theorem C4_double_toggle_restores_state (userId itemId : string) (w : World) :
  fault_free w ->
  double_toggle DatabaseFixed.toggleBookmark userId itemId w
  = has_bookmark (db w) userId itemId
  /\ double_toggle DualKey.toggleBookmark userId itemId w
     = has_bookmark (db w) userId itemId.
Proof.
  intros H. split.
  - apply DatabaseFixed_double_toggle. exact H.
  - apply DualKey_double_toggle. exact H.
Qed.

Lemma C4_double_toggle_witness :
  let w := mkWorld
             (mkDatabase ∅ [] [Bookmark.mk "bm-0" "u1" None (Some "s1") "t0"] 1)
             [NoFault; NoFault] [] [] "2025-04-19T00:00:00Z" in
  double_toggle DatabaseFixed.toggleBookmark "u1" "s1" w = true
  /\ double_toggle DualKey.toggleBookmark "u1" "s1" w = true.
Proof.
  intros w.
  apply (C4_double_toggle_restores_state "u1" "s1" w).
  unfold fault_free. simpl. repeat constructor.
Defined.

(** ** The retry loops, pass by pass *)

(** With [maxAttempts = 3] the loop is three passes at most. *)
Lemma while_attempts_unroll {A} (body : Z -> M (Step A)) (after : A) :
  while_attempts loop_fuel body after 0
  = (do s1 <- body 1;
     match s1 with
     | Return v => ret v
     | Continue =>
         do s2 <- body 2;
         match s2 with
         | Return v => ret v
         | Continue =>
             do s3 <- body 3;
             match s3 with
             | Return v => ret v
             | Continue => ret after
             end
         end
     end).
Proof. reflexivity. Qed.

(** Fuel beyond [loop_fuel] changes nothing. *)
Lemma while_attempts_enough_fuel {A} (n : nat) (body : Z -> M (Step A)) (after : A) :
  while_attempts (loop_fuel + n) body after 0 = while_attempts loop_fuel body after 0.
Proof. reflexivity. Qed.

Lemma ok_at_drop (fs : list Fault) (n i : nat) :
  ok_at (drop n fs) i = ok_at fs (n + i).
Proof. unfold ok_at. rewrite lookup_drop. reflexivity. Qed.

Lemma request_ok_advance (w : World) (reqs : list Request) (sl : list Z) (i : nat) :
  request_ok i (advance w reqs sl) = request_ok (length reqs + i) w.
Proof. unfold request_ok, advance. simpl. apply ok_at_drop. Qed.

Lemma advance_advance (w : World) (r1 r2 : list Request) (s1 s2 : list Z) :
  advance (advance w r1 s1) r2 s2 = advance w (r1 ++ r2) (s1 ++ s2).
Proof.
  unfold advance. simpl.
  rewrite drop_drop, length_app, !app_assoc. reflexivity.
Qed.

Lemma advance_nil (w : World) : advance w [] [] = w.
Proof.
  destruct w. unfold advance. simpl. rewrite !app_nil_r. reflexivity.
Qed.

Lemma testSupabaseConnection_run (w : World) :
  testSupabaseConnection w = (Val (request_ok 0 w), advance w [CountStudents] []).
Proof.
  open_world w. unfold advance.
  next_fault fs; cbn; rewrite ?app_nil_r; reflexivity.
Qed.

Lemma profile_attempt_run (userId : string) (a : Z) (w : World) :
  profile_attempt userId a w
  = if request_ok 0 w
    then (Val (Return (students (db w) !! userId)),
          advance w [SelectStudent userId] [])
    else if a =? maxAttempts
         then (Val (Return None), advance w [SelectStudent userId] [])
         else (Val Continue, advance w [SelectStudent userId] [profile_backoffMs a]).
Proof.
  open_world w. unfold advance, profile_attempt.
  next_fault fs; unfold_m; cbn; rewrite ?app_nil_r;
    try (destruct (students d !! userId); reflexivity);
    destruct (a =? maxAttempts); cbn; rewrite ?app_nil_r; reflexivity.
Qed.

Ltac norm_world :=
  rewrite ?advance_advance, ?request_ok_advance; cbn [length app Nat.add db advance].

(** [fetchStudentProfile] in closed form: the ping, then up to three
    selects, the first one that is answered deciding the result. *)
Lemma fetchStudentProfile_run (userId : string) (w : World) :
  userId <> "" ->
  let found := students (db w) !! userId in
  let ping := CountStudents in
  let sel := SelectStudent userId in
  fetchStudentProfile userId w
  = if request_ok 1 w then (Val found, advance w [ping; sel] [])
    else if request_ok 2 w then (Val found, advance w [ping; sel; sel] [500])
    else if request_ok 3 w
         then (Val found, advance w [ping; sel; sel; sel] [500; 1000])
         else (Val None, advance w [ping; sel; sel; sel] [500; 1000]).
Proof.
  intros H. apply truthy_true in H. cbv zeta.
  unfold fetchStudentProfile. rewrite H.
  change (negb true) with false. cbv iota.
  rewrite while_attempts_unroll. unfold bind, ret. cbv beta.
  rewrite testSupabaseConnection_run.
  rewrite profile_attempt_run. norm_world.
  destruct (request_ok 1 w); [reflexivity|].
  change (1 =? maxAttempts) with false. cbv beta iota.
  rewrite profile_attempt_run. norm_world.
  destruct (request_ok 2 w); [reflexivity|].
  change (2 =? maxAttempts) with false. cbv beta iota.
  rewrite profile_attempt_run. norm_world.
  destruct (request_ok 3 w); reflexivity.
  (* end *)
Qed.

(** Two rejected selects, then the profile: three selects in all, 500 ms
    and 1000 ms waited. *)
Example fetchStudentProfile_third_attempt :
  let abort := mkExn "AbortError" "The operation was aborted" in
  let asha := Student.mk "u1" "Asha" "asha@example.com" 1 1 "CSE" false "t0" in
  let w := mkWorld (mkDatabase {[ "u1" := asha ]} [] [] 0)
             [NoFault; Reject abort; Reject abort] [] [] "2025-04-19T00:00:00Z" in
  let w' := snd (fetchStudentProfile "u1" w) in
  fst (fetchStudentProfile "u1" w) = Val (Some asha)
  /\ call_requests w w'
     = [CountStudents; SelectStudent "u1"; SelectStudent "u1"; SelectStudent "u1"]
  /\ call_sleeps w w' = [500; 1000].
Proof. repeat split; vm_compute; reflexivity. Qed.

Lemma subjects_retry_run (a : Z) (w : World) :
  subjects_retry a w
  = if a =? maxAttempts then (Val (Return []), w)
    else (Val Continue, advance w [] [subjects_backoffMs a]).
Proof.
  open_world w. unfold subjects_retry, advance.
  destruct (a =? maxAttempts); cbn; rewrite ?app_nil_r; reflexivity.
Qed.

Lemma subjects_attempt_run (y s : Z) (b : string) (a : Z) (w : World) :
  let strict := strict_rows y s b w in
  let perm := permissive_rows y w in
  let sel := SelectSubjects (strict_filters y s b) in
  let fallback := SelectSubjects (permissive_filters y) in
  subjects_attempt y s b a w
  = if request_ok 0 w && nonempty strict
    then (Val (Return strict), advance w [sel] [])
    else if request_ok 0 w && (a =? maxAttempts - 1)
         then if request_ok 1 w && nonempty perm
              then (Val (Return perm), advance w [sel; fallback] [])
              else subjects_retry a (advance w [sel; fallback] [])
         else subjects_retry a (advance w [sel] []).
Proof.
  cbv zeta. unfold strict_rows, permissive_rows.
  open_world w. unfold subjects_attempt, subjects_retry, advance.
  destruct (a =? maxAttempts - 1); destruct (a =? maxAttempts);
    destruct fs as [|[| |] fs]; unfold_m; cbn;
    try destruct (List.filter (smatch_all (strict_filters y s b)) (subjects d));
    cbn;
    try (destruct fs as [|[| |] fs]; cbn);
    try destruct (List.filter (smatch_all (permissive_filters y)) (subjects d));
    cbn; rewrite ?app_nil_r, <- ?app_assoc; reflexivity.
Qed.

Lemma strict_rows_advance (y s : Z) (b : string) (w : World)
    (reqs : list Request) (sl : list Z) :
  strict_rows y s b (advance w reqs sl) = strict_rows y s b w.
Proof. reflexivity. Qed.

Lemma permissive_rows_advance (y : Z) (w : World)
    (reqs : list Request) (sl : list Z) :
  permissive_rows y (advance w reqs sl) = permissive_rows y w.
Proof. reflexivity. Qed.

(** The subjects loop in closed form. *)
Lemma subjects_loop_run (y s : Z) (b : string) (w : World) :
  let strict := strict_rows y s b w in
  let perm := permissive_rows y w in
  let sel := SelectSubjects (strict_filters y s b) in
  let fallback := SelectSubjects (permissive_filters y) in
  while_attempts loop_fuel (subjects_attempt y s b) [] 0 w
  = if request_ok 0 w && nonempty strict
    then (Val strict, advance w [sel] [])
    else if request_ok 1 w
         then if nonempty strict
              then (Val strict, advance w [sel; sel] [500])
              else if request_ok 2 w && nonempty perm
                   then (Val perm, advance w [sel; sel; fallback] [500])
                   else (Val [], advance w [sel; sel; fallback; sel] [500; 1000])
         else (Val (if request_ok 2 w then strict else []),
               advance w [sel; sel; sel] [500; 1000]).
Proof.
  cbv zeta. rewrite while_attempts_unroll. unfold bind, ret. cbv beta.
  rewrite subjects_attempt_run, !subjects_retry_run. norm_world.
  change (1 =? maxAttempts - 1) with false. change (1 =? maxAttempts) with false.
  rewrite andb_false_r.
  destruct (request_ok 0 w && nonempty (strict_rows y s b w)) eqn:E0;
    [reflexivity|].
  cbv beta iota.
  rewrite subjects_attempt_run, !subjects_retry_run. norm_world.
  rewrite strict_rows_advance, permissive_rows_advance.
  change (2 =? maxAttempts - 1) with true. change (2 =? maxAttempts) with false.
  rewrite andb_true_r.
  destruct (request_ok 1 w) eqn:E1; cbn [andb].
  - destruct (strict_rows y s b w) eqn:Es; cbn [nonempty]; cbv beta iota.
    + destruct (request_ok 2 w && nonempty (permissive_rows y w)) eqn:E2;
        cbv beta iota; [reflexivity|].
      rewrite subjects_attempt_run, !subjects_retry_run. norm_world.
      rewrite strict_rows_advance, Es. cbn [nonempty].
      rewrite andb_false_r.
      change (3 =? maxAttempts - 1) with false. change (3 =? maxAttempts) with true.
      rewrite andb_false_r. cbv beta iota. reflexivity.
    + reflexivity.
  - cbv beta iota.
    rewrite subjects_attempt_run, !subjects_retry_run. norm_world.
    rewrite strict_rows_advance.
    change (3 =? maxAttempts - 1) with false. change (3 =? maxAttempts) with true.
    rewrite andb_false_r.
    destruct (request_ok 2 w); cbn [andb]; [|reflexivity].
    destruct (strict_rows y s b w); reflexivity.
Qed.

(** ** Exhausted fetches return the default *)

Lemma call_requests_advance (w : World) (reqs : list Request) (sl : list Z) :
  call_requests w (advance w reqs sl) = reqs.
Proof. unfold call_requests, advance. simpl. apply drop_app_length. Qed.

Lemma call_sleeps_advance (w : World) (reqs : list Request) (sl : list Z) :
  call_sleeps w (advance w reqs sl) = sl.
Proof. unfold call_sleeps, advance. simpl. apply drop_app_length. Qed.

Lemma call_requests_same (w : World) : call_requests w w = [].
Proof. unfold call_requests. apply drop_all. Qed.

Lemma call_sleeps_same (w : World) : call_sleeps w w = [].
Proof. unfold call_sleeps. apply drop_all. Qed.

Lemma failures_from_app (c : FetchCall) (i : nat) (l1 l2 : list Request)
    (fs : list Fault) :
  failures_from c i (l1 ++ l2) fs
  = failures_from c i l1 fs && failures_from c (i + length l1) l2 fs.
Proof.
  revert i. induction l1 as [|r l1 IH]; intros i; simpl.
  - rewrite Nat.add_0_r. reflexivity.
  - rewrite IH, andb_assoc.
    replace (S i + length l1)%nat with (i + S (length l1))%nat by lia.
    reflexivity.
Qed.

Lemma failures_from_drop (c : FetchCall) (n i : nat) (reqs : list Request)
    (fs : list Fault) :
  failures_from c i reqs (drop n fs) = failures_from c (n + i) reqs fs.
Proof.
  revert i. induction reqs as [|r reqs IH]; intros i; simpl; [reflexivity|].
  rewrite IH, ok_at_drop.
  replace (n + S i)%nat with (S (n + i)) by lia. reflexivity.
Qed.

Lemma DatabaseFixed_fetchUserBookmarks_run (userId : string) (w : World) :
  DatabaseFixed.fetchUserBookmarks userId w
  = (Val (if request_ok 0 w
          then map (project AllCols) (rows_of_user userId w) else []),
     advance w [SelectBookmarks AllCols [BEq ColUserId userId]] []).
Proof.
  unfold DatabaseFixed.fetchUserBookmarks, rows_of_user, advance.
  open_world w.
  next_fault fs; unfold_m; cbn; rewrite ?app_nil_r;
    try reflexivity;
    destruct (List.filter _ (bookmarks d)); reflexivity.
Qed.

Lemma DualKey_fetchUserBookmarks_run (userId : string) (w : World) :
  userId <> "" ->
  DualKey.fetchUserBookmarks userId w
  = (Val (if request_ok 0 w then map (project NoteCols) (rows_of_user userId w)
          else if request_ok 1 w
               then map DualKey.map_to_note_id
                      (map (project SubjectCols) (rows_of_user userId w))
               else []),
     advance w [SelectBookmarks NoteCols [BEq ColUserId userId];
                SelectBookmarks SubjectCols [BEq ColUserId userId]] []).
Proof.
  intros H. apply truthy_true in H.
  unfold DualKey.fetchUserBookmarks, rows_of_user, advance. rewrite H.
  change (negb true) with false. cbv iota.
  open_world w.
  next_fault fs; [|next_fault fs..]; unfold_m; cbn;
    rewrite ?app_nil_r, <- ?app_assoc;
    try reflexivity;
    try (destruct (List.filter _ (bookmarks d)); reflexivity).
Qed.

Ltac decide_oks :=
  repeat match goal with
         | |- context [request_ok ?i ?w] => destruct (request_ok i w) eqn:?
         end.

Ltac refute_failures H :=
  rewrite ?call_requests_advance, ?call_requests_same in H;
  unfold attempts_fail, request_ok, strict_filters, permissive_filters in *;
  cbn in H;
  repeat match goal with
         | E : ok_at _ _ = _ |- _ => rewrite E in H
         end;
  cbn in H; try discriminate H.

Lemma fetchStudentProfile_exhausted (userId : string) (w : World) :
  attempts_fail (CallFetchStudentProfile userId)
    (call_requests w (snd (fetchStudentProfile userId w))) (faults w) = true ->
  fst (fetchStudentProfile userId w) = Val None.
Proof.
  destruct (decide (userId = "")) as [->|N]; [reflexivity|].
  rewrite (fetchStudentProfile_run userId w N). cbv zeta.
  decide_oks; cbn [fst snd]; intros H; try reflexivity; refute_failures H.
Qed.

Lemma fetchSubjectsForStudent_ByProfile (p : Student.t) (w : World) :
  fetchSubjectsForStudent (ByProfile p) w
  = while_attempts loop_fuel
      (subjects_attempt (Student.academic_year p) (Student.semester p)
         (Student.branch p)) [] 0 w.
Proof. reflexivity. Qed.

Lemma fetchSubjectsForStudent_NoProfile (w : World) :
  fetchSubjectsForStudent NoProfile w = (Val [], w).
Proof. reflexivity. Qed.

(** With a student id, the subjects are fetched for the profile the
    students table holds under that id, in the world the profile fetch
    leaves; without a profile the result is empty. *)
Lemma fetchSubjectsForStudent_ById (studentId : string) (w : World) :
  fetchSubjectsForStudent (ById studentId) w
  = match fetchStudentProfile studentId w with
    | (Val (Some p), w1) => fetchSubjectsForStudent (ByProfile p) w1
    | (Val None, w1) => (Val [], w1)
    | (Throw _, w1) => (Val [], w1)
    end.
Proof.
  unfold fetchSubjectsForStudent at 1. unfold bind, try_catch, ret. cbv beta.
  destruct (fetchStudentProfile studentId w) as [[[p|]|x] w1]; reflexivity.
Qed.

Ltac split_rows :=
  repeat match goal with
         | |- context [nonempty (strict_rows ?y ?s ?b ?w)] =>
             destruct (strict_rows y s b w) eqn:?; cbn [nonempty andb]
         | |- context [nonempty (permissive_rows ?y ?w)] =>
             destruct (permissive_rows y w) eqn:?; cbn [nonempty andb]
         end.

Lemma subjects_loop_exhausted (a : IdOrProfile) (y s : Z) (b : string) (w : World) :
  let result := while_attempts loop_fuel (subjects_attempt y s b) [] 0 w in
  exists reqs sl,
    snd result = advance w reqs sl
    /\ (failures_from (CallFetchSubjectsForStudent a) 0 reqs (faults w) = true ->
        fst result = Val []).
Proof.
  cbv zeta. rewrite subjects_loop_run. cbv zeta.
  decide_oks; cbn [andb]; split_rows; cbn [fst snd];
    do 2 eexists; (split; [reflexivity | idtac]);
    intros H; try reflexivity;
    unfold request_ok, strict_filters, permissive_filters in *; cbn in H;
    repeat match goal with
           | E : ok_at _ _ = _ |- _ => rewrite E in H
           end;
    cbn in H; discriminate H.
Qed.

Lemma fetchSubjectsForStudent_ByProfile_exhausted
    (a : IdOrProfile) (p : Student.t) (w : World) :
  exists reqs sl,
    snd (fetchSubjectsForStudent (ByProfile p) w) = advance w reqs sl
    /\ (failures_from (CallFetchSubjectsForStudent a) 0 reqs (faults w) = true ->
        fst (fetchSubjectsForStudent (ByProfile p) w) = Val []).
Proof.
  rewrite fetchSubjectsForStudent_ByProfile. apply subjects_loop_exhausted.
Qed.

Lemma fetchSubjectsForStudent_exhausted (a : IdOrProfile) (w : World) :
  attempts_fail (CallFetchSubjectsForStudent a)
    (call_requests w (snd (fetchSubjectsForStudent a w))) (faults w) = true ->
  fst (fetchSubjectsForStudent a w) = Val [].
Proof.
  assert (L : forall p (r1 : list Request) (s1 : list Z),
    attempts_fail (CallFetchSubjectsForStudent a)
      (call_requests w
         (snd (fetchSubjectsForStudent (ByProfile p) (advance w r1 s1))))
      (faults w) = true ->
    fst (fetchSubjectsForStudent (ByProfile p) (advance w r1 s1)) = Val []).
  { intros p r1 s1.
    destruct (fetchSubjectsForStudent_ByProfile_exhausted a p (advance w r1 s1))
      as [reqs [sl [E F]]].
    rewrite E, advance_advance, call_requests_advance.
    unfold attempts_fail. rewrite failures_from_app.
    intros H. apply andb_true_iff in H. destruct H as [_ H].
    apply F. unfold advance. cbn [faults].
    rewrite failures_from_drop, Nat.add_0_r. exact H. }
  destruct a as [studentId|p|].
  - rewrite fetchSubjectsForStudent_ById.
    destruct (decide (studentId = "")) as [->|N]; [reflexivity|].
    rewrite (fetchStudentProfile_run studentId w N). cbv zeta.
    decide_oks; try reflexivity;
      (destruct (students (db w) !! studentId) as [p|]; [apply L | reflexivity]).
  - pose proof (L p [] []) as L'. rewrite advance_nil in L'. exact L'.
  - reflexivity.
Qed.

Lemma DatabaseFixed_fetchUserBookmarks_exhausted (userId : string) (w : World) :
  attempts_fail (CallFetchUserBookmarks userId)
    (call_requests w (snd (DatabaseFixed.fetchUserBookmarks userId w)))
    (faults w) = true ->
  fst (DatabaseFixed.fetchUserBookmarks userId w) = Val [].
Proof.
  rewrite DatabaseFixed_fetchUserBookmarks_run.
  decide_oks; cbn [fst snd]; intros H; try reflexivity; refute_failures H.
Qed.

Lemma DualKey_fetchUserBookmarks_exhausted (userId : string) (w : World) :
  attempts_fail (CallFetchUserBookmarksDualKey userId)
    (call_requests w (snd (DualKey.fetchUserBookmarks userId w)))
    (faults w) = true ->
  fst (DualKey.fetchUserBookmarks userId w) = Val [].
Proof.
  destruct (decide (userId = "")) as [->|N]; [reflexivity|].
  rewrite (DualKey_fetchUserBookmarks_run userId w N).
  decide_oks; cbn [fst snd]; intros H; try reflexivity; refute_failures H.
Qed.

Lemma bind_ret_fst {A B} (m : M A) (f : A -> B) (w : World) (v : A) :
  fst (m w) = Val v -> fst ((do x <- m; ret (f x)) w) = Val (f v).
Proof.
  unfold bind, ret. destruct (m w) as [[a|x] w']; simpl; congruence.
Qed.

Lemma bind_ret_snd {A B} (m : M A) (f : A -> B) (w : World) :
  snd ((do x <- m; ret (f x)) w) = snd (m w).
Proof.
  unfold bind, ret. destruct (m w) as [[a|x] w']; reflexivity.
Qed.

(** When every attempt of a resilient fetch function is answered by a
    failure, an [error] in the response or a rejected promise (a transport
    error, an exception, the abort of a query that was given the signal),
    the call returns its declared default, [null] for [fetchStudentProfile],
    the empty list for [fetchSubjectsForStudent] and for both
    [fetchUserBookmarks]: it returns, and throws nothing. *)
Lemma exhausted_fetch_returns_default (c : FetchCall) (w : World) :
  attempts_fail c (call_requests w (snd (run_fetch c w))) (faults w) = true ->
  fst (run_fetch c w) = Val (default_of c).
Proof.
  destruct c as [userId|a|userId|userId]; unfold run_fetch, default_of;
    rewrite bind_ret_snd; intros H; apply bind_ret_fst.
  - apply fetchStudentProfile_exhausted. exact H.
  - apply fetchSubjectsForStudent_exhausted. exact H.
  - apply DatabaseFixed_fetchUserBookmarks_exhausted. exact H.
  - apply DualKey_fetchUserBookmarks_exhausted. exact H.
Qed.

Example exhausted_fetch_by_id :
  let refused := mkExn "TypeError" "Failed to fetch" in
  let asha := Student.mk "u1" "Asha" "asha@example.com" 1 1 "CSE" false "t0" in
  let maths := Subject.mk "s1" "Engineering Mathematics I" "CSE" 1 1 false "t0" in
  let w := mkWorld (mkDatabase {[ "u1" := asha ]} [maths] [] 0)
             [NoFault; NoFault; Reject refused;
              FailWith (PgError.mk "PGRST301" "connection refused"); Reject refused]
             [] [] "2025-04-19T00:00:00Z" in
  fst (run_fetch (CallFetchSubjectsForStudent (ById "u1")) w) = Val (Subjects []).
Proof.
  intros refused asha maths w.
  apply (exhausted_fetch_returns_default
           (CallFetchSubjectsForStudent (ById "u1")) w).
  vm_compute. reflexivity.
Qed.

(** Whatever the backend does, no resilient fetch function throws. *)
Lemma fetchSubjectsForStudent_total (a : IdOrProfile) (w : World) :
  exists l, fst (fetchSubjectsForStudent a w) = Val l.
Proof.
  assert (L : forall p w1, exists l,
             fst (fetchSubjectsForStudent (ByProfile p) w1) = Val l).
  { intros p w1. rewrite fetchSubjectsForStudent_ByProfile, subjects_loop_run.
    cbv zeta. decide_oks; cbn [andb]; split_rows; eexists; reflexivity. }
  destruct a as [studentId|p|].
  - rewrite fetchSubjectsForStudent_ById.
    destruct (decide (studentId = "")) as [->|N]; [eexists; reflexivity|].
    rewrite (fetchStudentProfile_run studentId w N). cbv zeta.
    decide_oks; try (eexists; reflexivity);
      (destruct (students (db w) !! studentId) as [p|];
       [apply L | eexists; reflexivity]).
  - apply L.
  - eexists. reflexivity.
Qed.

Lemma run_fetch_total (c : FetchCall) (w : World) :
  exists v, fst (run_fetch c w) = Val v.
Proof.
  destruct c as [userId|a|userId|userId]; unfold run_fetch.
  - assert (E : exists p, fst (fetchStudentProfile userId w) = Val p).
    { destruct (decide (userId = "")) as [->|N]; [eexists; reflexivity|].
      rewrite (fetchStudentProfile_run userId w N). cbv zeta.
      decide_oks; eexists; reflexivity. }
    destruct E as [p E]. eexists. apply bind_ret_fst. exact E.
  - destruct (fetchSubjectsForStudent_total a w) as [l E].
    eexists. apply bind_ret_fst. exact E.
  - eexists. apply bind_ret_fst.
    rewrite DatabaseFixed_fetchUserBookmarks_run. reflexivity.
  - destruct (decide (userId = "")) as [->|N]; [eexists; reflexivity|].
    eexists. apply bind_ret_fst.
    rewrite (DualKey_fetchUserBookmarks_run userId w N). reflexivity.
Qed.

(** ** Retries and their delays *)

Lemma fetchStudentProfile_retries (userId : string) (w : World) :
  userId <> "" ->
  retry_discipline (CallFetchStudentProfile userId) 1 w
    (snd (fetchStudentProfile userId w)).
Proof.
  intros N. rewrite (fetchStudentProfile_run userId w N). cbv zeta.
  unfold retry_discipline.
  decide_oks; cbn [snd]; rewrite call_sleeps_advance, call_requests_advance;
    first
      [ exists 0%nat; repeat split; try reflexivity; try lia; discriminate
      | exists 1%nat; repeat split; try reflexivity; try lia; discriminate
      | exists 2%nat; repeat split; try reflexivity; try lia; discriminate ].
Qed.

Lemma fetchSubjectsForStudent_retries (p : Student.t) (w : World) :
  retry_discipline (CallFetchSubjectsForStudent (ByProfile p)) 0 w
    (snd (fetchSubjectsForStudent (ByProfile p) w)).
Proof.
  rewrite fetchSubjectsForStudent_ByProfile, subjects_loop_run. cbv zeta.
  unfold retry_discipline.
  decide_oks; cbn [andb]; split_rows; cbn [snd];
    rewrite call_sleeps_advance, call_requests_advance;
    first
      [ exists 0%nat; repeat split; try reflexivity; try lia; discriminate
      | exists 1%nat; repeat split; try reflexivity; try lia; discriminate
      | exists 2%nat; repeat split; try reflexivity; try lia; discriminate ].
Qed.

(** [safeSupabaseOperation] runs its operation once and adds nothing to
    it: the world it leaves is the world the operation leaves. *)
Lemma safeSupabaseOperation_once {T} (operation : M (Resp T))
    (errorMessage : string) (defaultValue : T) (timeoutMs : Z) (w : World) :
  snd (safeSupabaseOperation operation errorMessage defaultValue timeoutMs w)
  = snd (operation w).
Proof.
  unfold safeSupabaseOperation, try_catch, bind, ret.
  destruct (operation w) as [[r|x] w']; [destruct (error r)|]; reflexivity.
Qed.

Lemma safeSupabaseOperation_failed {T} (operation : M (Resp T))
    (errorMessage : string) (defaultValue : T) (timeoutMs : Z) (w : World) :
  (forall r, fst (operation w) = Val r -> error r <> None) ->
  fst (safeSupabaseOperation operation errorMessage defaultValue timeoutMs w)
  = Val (Some defaultValue).
Proof.
  unfold safeSupabaseOperation, try_catch, bind, ret. intros H.
  destruct (operation w) as [[r|x] w']; [|reflexivity].
  specialize (H r eq_refl). destruct (error r); [reflexivity | congruence].
Qed.

(** C7, as stated, fails on the wrappers that have no loop.  The select
    [safeSupabaseOperation] wraps is rejected: it returns its default after
    that one request, without waiting.  Both queries of [fetchUserBookmarks]
    are rejected: it returns the empty list without sending either of them
    again, without waiting. *)
Lemma C7_no_retry_counterexample :
  let refused := mkExn "TypeError" "Failed to fetch" in
  let w := mkWorld (mkDatabase ∅ [] [] 0) [Reject refused; Reject refused] [] []
             "2025-04-19T00:00:00Z" in
  let safe :=
    safeSupabaseOperation (select_subjects [SEqYear 1]) "Error fetching subjects"
      [] 2000 in
  let fetch := DualKey.fetchUserBookmarks "u1" in
  request_ok 0 w = false
  /\ request_ok 1 w = false
  /\ (fst (safe w) = Val (Some [])
      /\ call_requests w (snd (safe w)) = [SelectSubjects [SEqYear 1]]
      /\ retried (call_requests w (snd (safe w))) = false
      /\ call_sleeps w (snd (safe w)) = [])
  /\ (fst (fetch w) = Val []
      /\ retried (call_requests w (snd (fetch w))) = false
      /\ call_sleeps w (snd (fetch w)) = []).
Proof.
  repeat split; vm_compute; reflexivity.
Qed.

(** The two delay formulas, [500 * attempt] and [500 * 2^(attempt - 1)],
    give the same delays after the first and the second attempt, the only
    ones that are followed by a retry; they part at the third. *)
Lemma backoff_formulas_agree :
  subjects_backoffMs 1 = profile_backoffMs 1
  /\ subjects_backoffMs 2 = profile_backoffMs 2
  /\ subjects_backoffMs 3 <> profile_backoffMs 3.
Proof. repeat split. discriminate. Qed.

(** ** Subjects of a profile *)

Lemma smatch_strict (y s : Z) (b : string) (x : Subject.t) :
  smatch_all (strict_filters y s b) x = true <-> strict_match y s b x.
Proof.
  unfold smatch_all, strict_filters, strict_match. simpl.
  rewrite !andb_true_iff, orb_true_iff, !Z.eqb_eq, String.eqb_eq.
  destruct (Subject.is_common x); simpl; intuition congruence.
Qed.

Lemma smatch_permissive (y : Z) (x : Subject.t) :
  smatch_all (permissive_filters y) x = true <-> permissive_match y x.
Proof.
  unfold smatch_all, permissive_filters, permissive_match. simpl.
  rewrite andb_true_iff, orb_true_iff, Z.eqb_eq.
  destruct (Subject.is_common x); simpl; intuition congruence.
Qed.

Lemma strict_rows_match (y s : Z) (b : string) (w : World) (x : Subject.t) :
  In x (strict_rows y s b w) -> In x (subjects (db w)) /\ strict_match y s b x.
Proof.
  unfold strict_rows. intros H. apply filter_In in H.
  destruct H as [H1 H2]. split; [exact H1|]. apply smatch_strict. exact H2.
Qed.

Lemma permissive_rows_match (y : Z) (w : World) (x : Subject.t) :
  In x (permissive_rows y w) -> In x (subjects (db w)) /\ permissive_match y x.
Proof.
  unfold permissive_rows. intros H. apply filter_In in H.
  destruct H as [H1 H2]. split; [exact H1|]. apply smatch_permissive. exact H2.
Qed.

(** What [fetchSubjectsForStudent] returns: nothing, the rows of the strict
    query, or, when the strict query finds no row, those of the permissive
    one. *)
Lemma fetchSubjectsForStudent_result (a : IdOrProfile) (w : World) :
  exists l,
    fst (fetchSubjectsForStudent a w) = Val l
    /\ (l = []
        \/ exists p,
             profile_of a w = Some p
             /\ let y := Student.academic_year p in
                let s := Student.semester p in
                let b := Student.branch p in
                l = strict_rows y s b w
                \/ (strict_rows y s b w = [] /\ l = permissive_rows y w)).
Proof.
  assert (L : forall p w1, exists l,
             fst (fetchSubjectsForStudent (ByProfile p) w1) = Val l
             /\ (l = []
                 \/ let y := Student.academic_year p in
                    let s := Student.semester p in
                    let b := Student.branch p in
                    l = strict_rows y s b w1
                    \/ (strict_rows y s b w1 = [] /\ l = permissive_rows y w1))).
  { intros p w1. rewrite fetchSubjectsForStudent_ByProfile, subjects_loop_run.
    cbv zeta.
    destruct (strict_rows _ _ _ w1) eqn:Es; destruct (permissive_rows _ w1) eqn:Ep;
      decide_oks; cbn [andb nonempty fst];
      eexists; (split; [reflexivity | idtac]); auto. }
  destruct a as [studentId|p|].
  - rewrite fetchSubjectsForStudent_ById.
    destruct (decide (studentId = "")) as [->|N]; [eexists; split; [reflexivity|auto]|].
    rewrite (fetchStudentProfile_run studentId w N). cbv zeta.
    unfold profile_of.
    destruct (students (db w) !! studentId) as [p|] eqn:Ep;
      decide_oks; try (eexists; split; [reflexivity|auto]; fail);
      match goal with
      | |- context [fetchSubjectsForStudent (ByProfile p) ?w1] =>
          destruct (L p w1) as [l [E R]]
      end;
      exists l; (split; [exact E | idtac]);
      (destruct R as [R|R]; [left; exact R | right; exists p; split; [reflexivity|exact R]]).
  - destruct (L p w) as [l [E R]]. exists l. split; [exact E|].
    destruct R as [R|R]; [left; exact R | right; exists p; split; [reflexivity|exact R]].
  - eexists. split; [reflexivity|auto].
Qed.

Lemma createOrUpdateStudentProfile_stores
    (userId : string) (partial : PartialStudent.t) (w w1 : World) (p : Student.t) :
  createOrUpdateStudentProfile userId partial w = (Val (Some p), w1) ->
  students (db w1) !! Student.id p = Some p
  /\ subjects (db w1) = subjects (db w)
  /\ (forall y, PartialStudent.academic_year partial = Some y ->
                Student.academic_year p = y)
  /\ (forall s, PartialStudent.semester partial = Some s -> Student.semester p = s)
  /\ (forall b, PartialStudent.branch partial = Some b -> Student.branch p = b).
Proof.
  unfold createOrUpdateStudentProfile.
  destruct (negb (truthy userId)); [discriminate|].
  open_world w.
  next_fault fs; unfold_m; cbn; intros H; try discriminate H;
    injection H as <- <-; cbn;
    (split; [apply lookup_insert_eq | idtac]);
    (split; [reflexivity | idtac]);
    repeat split; intros v Hv; rewrite Hv; reflexivity.
Qed.

(** C3, as stated, fails through the permissive fallback: the table holds
    one subject, of year 1, semester 2, branch "ECE", not common.  The strict
    query finds nothing on the first two attempts, the fallback query of the
    second attempt selects on [academic_year = 1 or is_common], and the call
    returns that subject. *)
Lemma C3_fallback_counterexample :
  let physics := Subject.mk "s9" "Engineering Physics II" "ECE" 1 2 false "t0" in
  let w := mkWorld (mkDatabase ∅ [physics] [] 0) [] [] [] "2025-04-19T00:00:00Z" in
  let partial :=
    PartialStudent.mk None (Some "Asha") (Some "asha@example.com")
      (Some 1) (Some 1) (Some "CSE") (Some false) None in
  let p := Student.mk "u1" "Asha" "asha@example.com" 1 1 "CSE" false
             "2025-04-19T00:00:00Z" in
  let created := createOrUpdateStudentProfile "u1" partial w in
  fst created = Val (Some p)
  /\ fst (fetchSubjectsForStudent (ByProfile p) (snd created)) = Val [physics]
  /\ ~ claimed_match 1 1 "CSE" physics.
Proof.
  split; [vm_compute; reflexivity|].
  split; [vm_compute; reflexivity|].
  unfold claimed_match. simpl. intros [[_ [H _]]|H]; discriminate H.
Qed.

(** C3 (amended): for a profile created through
    [createOrUpdateStudentProfile] with [academic_year = 1], [semester = 1],
    [branch = "CSE"], every subject [fetchSubjectsForStudent] returns for it
    (called with the profile or with its id) is a row of the subjects table
    that has year 1, semester 1 and either branch "CSE" or [is_common]; or,
    when no row of the table matches that, a row that has year 1 or
    [is_common], found by the permissive fallback query. *)
Theorem C3_subjects_of_created_profile
    (userId : string) (partial : PartialStudent.t) (w w1 : World)
    (p : Student.t) (a : IdOrProfile) :
  PartialStudent.academic_year partial = Some 1 ->
  PartialStudent.semester partial = Some 1 ->
  PartialStudent.branch partial = Some "CSE" ->
  createOrUpdateStudentProfile userId partial w = (Val (Some p), w1) ->
  a = ByProfile p \/ a = ById (Student.id p) ->
  exists l,
    fst (fetchSubjectsForStudent a w1) = Val l
    /\ forall x, In x l ->
         In x (subjects (db w1))
         /\ (strict_match 1 1 "CSE" x
             \/ (strict_rows 1 1 "CSE" w1 = [] /\ permissive_match 1 x)).
Proof.
  intros Hy Hs Hb Hc Ha.
  destruct (createOrUpdateStudentProfile_stores _ _ _ _ _ Hc)
    as [Hst [_ [Py [Ps Pb]]]].
  specialize (Py _ Hy). specialize (Ps _ Hs). specialize (Pb _ Hb).
  destruct (fetchSubjectsForStudent_result a w1) as [l [E R]].
  exists l. split; [exact E|].
  intros x Hx.
  destruct R as [->|[q [Hq R]]]; [destruct Hx|].
  assert (q = p) as ->.
  { destruct Ha as [->| ->]; simpl in Hq; congruence. }
  cbv zeta in R. rewrite Py, Ps, Pb in R.
  destruct R as [->|[Hnone ->]].
  - apply strict_rows_match in Hx. destruct Hx as [H1 H2]. auto.
  - apply permissive_rows_match in Hx. destruct Hx as [H1 H2]. auto.
Qed.

Lemma C3_subjects_of_created_profile_witness :
  let maths := Subject.mk "s1" "Engineering Mathematics I" "CSE" 1 1 false "t0" in
  let physics := Subject.mk "s9" "Engineering Physics II" "ECE" 1 2 false "t0" in
  let w := mkWorld (mkDatabase ∅ [maths; physics] [] 0) [] [] []
             "2025-04-19T00:00:00Z" in
  let partial :=
    PartialStudent.mk None (Some "Asha") (Some "asha@example.com")
      (Some 1) (Some 1) (Some "CSE") (Some false) None in
  let p := Student.mk "u1" "Asha" "asha@example.com" 1 1 "CSE" false
             "2025-04-19T00:00:00Z" in
  let w1 := snd (createOrUpdateStudentProfile "u1" partial w) in
  exists l,
    fst (fetchSubjectsForStudent (ById "u1") w1) = Val l
    /\ forall x, In x l ->
         In x (subjects (db w1))
         /\ (strict_match 1 1 "CSE" x
             \/ (strict_rows 1 1 "CSE" w1 = [] /\ permissive_match 1 x)).
Proof.
  intros maths physics w partial p w1.
  apply (C3_subjects_of_created_profile "u1" partial w w1 p (ById "u1")).
  - reflexivity.
  - reflexivity.
  - reflexivity.
  - vm_compute. reflexivity.
  - right. reflexivity.
Defined.

(** ** Emergency mode *)

(** No event other than a user action clears the flag. *)
Lemma step_keeps_flag (st : Home.State) (e : Home.Event) :
  Home.user_action e = false ->
  Home.isEmergencyMode st = true ->
  Home.isEmergencyMode (Home.step st e) = true.
Proof.
  intros Hu Hf. destruct st as [u r o t f l pt pr c h]. simpl in Hf. subst f.
  destruct e as [b|b| | |b|b|u'| |]; try discriminate Hu; simpl.
  - destruct pt; [reflexivity|]. destruct b; reflexivity.
  - destruct pr; [reflexivity|]. destruct o; simpl; [destruct b|]; reflexivity.
  - destruct l; reflexivity.
  - reflexivity.
  - destruct b; reflexivity.
  - destruct b; reflexivity.
  - reflexivity.
Qed.

Lemma run_events_keeps_flag (es : list Home.Event) (st : Home.State) :
  Forall (fun e => Home.user_action e = false) es ->
  Home.isEmergencyMode st = true ->
  Home.isEmergencyMode (Home.run_events st es) = true.
Proof.
  revert st. induction es as [|e es IH]; intros st Hes Hf; simpl; [exact Hf|].
  inversion Hes; subst. apply IH; [assumption|].
  apply step_keeps_flag; assumption.
Qed.

Lemma page_load_invariant (u : option Home.User) (retry : Z) (online : bool)
    (time : string) :
  home_invariant (Home.page_load u retry online time).
Proof.
  unfold home_invariant, emergency_cause, Home.page_load, Home.connection_effect,
    Home.rerender, Home.has_user.
  destruct (retry >? 3) eqn:Hr; cbn;
    destruct (truthy_opt (Home.id <$> u)); cbn;
    destruct online; cbn; (split; [intros H | intros H; lia]);
    try discriminate H; auto;
    left; apply Z.gtb_lt in Hr; lia.
Qed.

Lemma step_invariant (st : Home.State) (e : Home.Event) :
  home_invariant st -> home_invariant (Home.step st e).
Proof.
  intros Hinv.
  destruct e as [b|b| | |b|b|u'| |].
  8: { simpl. destruct (Home.isEmergencyMode st);
         [apply page_load_invariant | exact Hinv]. }
  8: { apply page_load_invariant. }
  all: destruct st as [u r o t f l pt pr c [fc so qt]];
    unfold home_invariant, emergency_cause, Home.failureThreshold in *;
    simpl in *; destruct Hinv as [H1 H2].
  - destruct pt; [auto|]. destruct b; simpl; (split; [intros H | intros H]);
      try (specialize (H1 H)); try lia; intuition lia.
  - destruct pr; [auto|]. assert (Hfc : (1 <= fc)%nat) by (apply H2; lia).
    destruct o; simpl; [destruct b; simpl|]; (split; [intros H | intros H]);
      try (specialize (H1 H)); try lia; auto; try (intuition lia).
  - destruct l; simpl; (split; [intros H | intros H]); auto.
  - auto.
  - destruct b; simpl; (split; [intros H | intros H]); auto;
      try (right; right; right; lia); specialize (H1 H); intuition lia.
  - destruct b; simpl; (split; [intros H | intros H]); auto;
      try (right; right; right; lia); specialize (H1 H); intuition lia.
  - unfold Home.rerender, Home.connection_effect, Home.has_user; simpl.
    destruct f; simpl; [auto|].
    destruct (truthy_opt (Home.id <$> u')); simpl; [|auto].
    destruct o; simpl; (split; [intros H | intros H]); auto; discriminate H.
Qed.

Lemma run_events_invariant (es : list Home.Event) (st : Home.State) :
  home_invariant st -> home_invariant (Home.run_events st es).
Proof.
  revert st. induction es as [|e es IH]; intros st H; simpl; [exact H|].
  apply IH. apply step_invariant. exact H.
Qed.

(** C5, as stated, fails when the browser is offline: the page loads with
    [navigator.onLine] false for a signed-in user, and the connection effect
    sets the flag at once, before any connectivity check has failed. *)
Lemma C5_offline_counterexample :
  let u := Home.mkUser "u1" (Some "asha@example.com") None in
  let st := Home.page_load (Some u) 0 false "2025-04-19T00:00:00Z" in
  Home.isEmergencyMode st = true
  /\ Home.retryAttempt st = 0
  /\ Home.failedChecks (Home.history st) = 0%nat
  /\ (Home.failedChecks (Home.history st) < Home.failureThreshold)%nat.
Proof.
  repeat split. vm_compute. lia.
Qed.

(** C5 (amended): in every state the home page reaches from a page load,
    a set emergency flag has one of these causes since that load: the URL
    counted more than three reconnection attempts, the browser was seen
    offline, two connectivity checks failed (the initial one and the retry),
    or a query timeout timer fired.  Once set, the flag stays set through
    every sequence of events that holds no user action (a reconnection
    attempt or a reload); the browser coming back online does not clear
    it. *)
Theorem C5_emergency_mode_activation_and_latch
    (u : option Home.User) (retry : Z) (online : bool) (time : string)
    (es later : list Home.Event) :
  Home.isEmergencyMode (Home.run_events (Home.page_load u retry online time) es)
  = true ->
  Forall (fun e => Home.user_action e = false) later ->
  emergency_cause (Home.run_events (Home.page_load u retry online time) es)
  /\ Home.isEmergencyMode
       (Home.run_events (Home.run_events (Home.page_load u retry online time) es)
          later) = true.
Proof.
  intros Hf Hl. split.
  - apply (run_events_invariant es _ (page_load_invariant u retry online time)).
    exact Hf.
  - apply run_events_keeps_flag; assumption.
Qed.

Lemma C5_emergency_mode_witness :
  let u := Home.mkUser "u1" (Some "asha@example.com") None in
  let st := Home.run_events
              (Home.page_load (Some u) 0 true "2025-04-19T00:00:00Z")
              [Home.EvTestResolved false; Home.EvRetryTimer false] in
  emergency_cause st
  /\ Home.isEmergencyMode (Home.run_events st [Home.EvOnline; Home.EvTestResolved true])
     = true.
Proof.
  intros u st.
  apply (C5_emergency_mode_activation_and_latch (Some u) 0 true
           "2025-04-19T00:00:00Z"
           [Home.EvTestResolved false; Home.EvRetryTimer false]
           [Home.EvOnline; Home.EvTestResolved true]).
  - reflexivity.
  - repeat constructor.
Defined.

(** C6 (the failing path): with the emergency flag set and a user signed
    in, the profile and the subjects queries are disabled, so a refetch of
    either leaves the page and the world as they are; the bookmarks query is
    enabled by [!!user?.id] alone, and its refetch sends a select on the
    bookmarks table to the backend. *)
Theorem C6_bookmarks_query_ignores_emergency_mode
    (st : Home.State) (u : Home.User) (w : World) :
  Home.isEmergencyMode st = true ->
  Home.user st = Some u ->
  Home.id u <> "" ->
  Home.refetch_profile st w = (Val st, w)
  /\ Home.refetch_subjects st w = (Val st, w)
  /\ Home.bookmarks_enabled st = true
  /\ call_requests w (snd (Home.refetch_bookmarks st w))
     = [SelectBookmarks AllCols [BEq ColUserId (Home.id u)]].
Proof.
  intros Hf Hu Hid. apply truthy_true in Hid.
  assert (He : Home.bookmarks_enabled st = true).
  { unfold Home.bookmarks_enabled, Home.has_user. rewrite Hu. exact Hid. }
  unfold Home.refetch_profile, Home.refetch_subjects, Home.refetch_bookmarks,
    Home.profile_enabled, Home.subjects_enabled.
  rewrite He, Hf. unfold Home.bookmarks_enabled in He. rewrite He. simpl.
  repeat split.
  unfold Home.bookmarks_queryFn. rewrite Hu, Hid. simpl negb. cbv iota.
  unfold bind, ret. rewrite DatabaseFixed_fetchUserBookmarks_run.
  cbn [snd]. apply call_requests_advance.
Qed.

Lemma C6_bookmarks_query_witness :
  let u := Home.mkUser "u1" (Some "asha@example.com") None in
  let st := Home.page_load (Some u) 0 false "2025-04-19T00:00:00Z" in
  let w := mkWorld (mkDatabase ∅ [] [] 0) [] [] [] "2025-04-19T00:00:00Z" in
  Home.refetch_profile st w = (Val st, w)
  /\ Home.refetch_subjects st w = (Val st, w)
  /\ Home.bookmarks_enabled st = true
  /\ call_requests w (snd (Home.refetch_bookmarks st w))
     = [SelectBookmarks AllCols [BEq ColUserId "u1"]].
Proof.
  intros u st w.
  apply (C6_bookmarks_query_ignores_emergency_mode st u w).
  - reflexivity.
  - reflexivity.
  - discriminate.
Defined.

(** * Further properties of the bookmark functions *)

Lemma fault_free_ok (w : World) (i : nat) : fault_free w -> request_ok i w = true.
Proof.
  unfold fault_free, request_ok, ok_at. intros H.
  destruct (faults w !! i) as [f|] eqn:E; [|reflexivity].
  rewrite Forall_lookup in H. rewrite (H i f E). reflexivity.
Qed.

Lemma fault_free_drop (w w' : World) (k : nat) :
  fault_free w -> faults w' = drop k (faults w) -> fault_free w'.
Proof.
  unfold fault_free. intros H ->. now apply Forall_drop.
Qed.

Lemma request_ok_drop (w w' : World) (k i : nat) :
  faults w' = drop k (faults w) -> request_ok i w' = request_ok (k + i) w.
Proof. unfold request_ok. intros ->. apply ok_at_drop. Qed.

Lemma map_project_all (l : list Bookmark.t) : map (project AllCols) l = l.
Proof. induction l as [|b l IH]; simpl; [|rewrite IH]; reflexivity. Qed.

Lemma existsb_map_filter {A B} (p : A -> bool) (g : A -> B) (f : B -> bool)
    (q : A -> bool) (l : list A) :
  (forall a, p a && f (g a) = q a) ->
  existsb f (map g (List.filter p l)) = existsb q l.
Proof.
  intros H. induction l as [|a l IH]; simpl; [reflexivity|].
  rewrite <- (H a). destruct (p a); simpl; rewrite IH; reflexivity.
Qed.

Lemma truthy_opt_eqb (o : option string) (id : string) :
  id <> "" -> truthy_opt o && opt_eqb o id = opt_eqb o id.
Proof.
  intros N. destruct o as [s|]; simpl; [|reflexivity].
  destruct (String.eqb s id) eqn:E; [|apply andb_false_r].
  apply String.eqb_eq in E. subst s. apply truthy_true in N. now rewrite N.
Qed.

(** What a call of the bookmark functions does to the tables, what it
    reports and how many requests it sends: the write that is answered is
    the only one that runs. *)
Lemma run_bookmark_call_effect (c : BookmarkCall) (userId itemId : string) (w : World) :
  let del fs := snd (exec_delete_bookmarks fs (db w)) in
  let ins r n s := snd (exec_insert_bookmark userId n s r (now w) (db w)) in
  let byNote := [BEq ColUserId userId; BEq ColNoteId itemId] in
  let bySubject := [BEq ColUserId userId; BEq ColSubjectId itemId] in
  let either :=
    [BOr (BEq ColSubjectId itemId) (BEq ColNoteId itemId); BEq ColUserId userId] in
  let guarded (r : bool * Database * nat) :=
    if negb (truthy userId) || negb (truthy itemId) then (false, db w, 0%nat) else r in
  let one (d : Database) :=
    if request_ok 0 w then (true, d, 1%nat) else (false, db w, 1%nat) in
  let two (d1 d2 : Database) :=
    if request_ok 0 w then (true, d1, 1%nat)
    else if request_ok 1 w then (true, d2, 2%nat) else (false, db w, 2%nat) in
  let result := run_bookmark_call c userId itemId w in
  (fst result, db (snd result), faults (snd result))
  = let '(s, d, k) :=
      match c with
      | CallToggleBookmark true => one (del either)
      | CallToggleBookmark false => one (ins true (Some itemId) (Some itemId))
      | CallAddBookmark => guarded (one (ins true (Some itemId) (Some itemId)))
      | CallRemoveBookmark | CallRemoveBookmarkDualKey
      | CallToggleBookmarkDualKey true => guarded (two (del byNote) (del bySubject))
      | CallAddBookmarkDualKey
      | CallToggleBookmarkDualKey false =>
          guarded (two (ins false (Some itemId) None) (ins false None (Some itemId)))
      end in
    (Val s, d, drop k (faults w)).
Proof.
  cbv zeta.
  destruct c as [[|]| | |[|]| |]; unfold run_bookmark_call;
    unfold DatabaseFixed.toggleBookmark, DatabaseFixed.addBookmark,
      DatabaseFixed.removeBookmark, DualKey.toggleBookmark, DualKey.addBookmark,
      DualKey.removeBookmark;
    try (destruct (negb (truthy userId) || negb (truthy itemId));
         [reflexivity|]);
    open_world w;
    (next_fault fs; [| |next_fault fs..]); reflexivity.
Qed.

Lemma other_records_delete (userId itemId : string) (fs : list BFilter) (d : Database) :
  (forall b, bmatch_all fs b = true -> pair_matches userId itemId b = true) ->
  other_records userId itemId (snd (exec_delete_bookmarks fs d))
  = other_records userId itemId d.
Proof.
  intros H. unfold other_records. simpl.
  induction (bookmarks d) as [|b l IH]; simpl; [reflexivity|].
  destruct (bmatch_all fs b) eqn:E; simpl.
  - rewrite (H b E). simpl. exact IH.
  - destruct (pair_matches userId itemId b); simpl; rewrite IH; reflexivity.
Qed.

Lemma other_records_insert (userId itemId : string) (n s : option string)
    (r : bool) (t : string) (d : Database) :
  n = Some itemId \/ s = Some itemId ->
  other_records userId itemId (snd (exec_insert_bookmark userId n s r t d))
  = other_records userId itemId d.
Proof.
  intros H. unfold other_records. simpl. rewrite List.filter_app. simpl.
  assert (E : pair_matches userId itemId
                (Bookmark.mk ("bm-" +:+ pretty (bookmark_seq d)) userId n s t) = true).
  { unfold pair_matches. simpl. rewrite String.eqb_refl.
    destruct H as [-> | ->]; simpl; rewrite String.eqb_refl;
      [reflexivity | apply orb_true_r]. }
  rewrite E. simpl. apply app_nil_r.
Qed.

Lemma byNote_pair (userId itemId : string) (b : Bookmark.t) :
  bmatch_all [BEq ColUserId userId; BEq ColNoteId itemId] b = true ->
  pair_matches userId itemId b = true.
Proof.
  unfold bmatch_all, pair_matches. simpl.
  destruct (String.eqb (Bookmark.user_id b) userId); simpl; [|discriminate].
  destruct (opt_eqb (Bookmark.note_id b) itemId); simpl; [reflexivity|discriminate].
Qed.

Lemma bySubject_pair (userId itemId : string) (b : Bookmark.t) :
  bmatch_all [BEq ColUserId userId; BEq ColSubjectId itemId] b = true ->
  pair_matches userId itemId b = true.
Proof.
  unfold bmatch_all, pair_matches. simpl.
  destruct (String.eqb (Bookmark.user_id b) userId); simpl; [|discriminate].
  destruct (opt_eqb (Bookmark.subject_id b) itemId); simpl;
    [intros _; apply orb_true_r|discriminate].
Qed.

Lemma either_pair (userId itemId : string) (b : Bookmark.t) :
  bmatch_all
    [BOr (BEq ColSubjectId itemId) (BEq ColNoteId itemId); BEq ColUserId userId] b
  = pair_matches userId itemId b.
Proof.
  unfold bmatch_all, pair_matches. simpl.
  destruct (String.eqb (Bookmark.user_id b) userId),
    (opt_eqb (Bookmark.note_id b) itemId),
    (opt_eqb (Bookmark.subject_id b) itemId); reflexivity.
Qed.

(** X1: whatever the backend answers, a call of one of the six functions
    that write bookmarks never throws, leaves every record that does not
    belong to the (user, item) pair of the call in the table, in its place,
    and leaves the students and the subjects alone.  The removal by
    [toggleBookmark] of the first document splices the item id into its
    [.or] filter string, so for that call the id is to be [plain]: with a
    comma in it the filter would name other items. *)
Theorem bookmark_calls_touch_one_pair
    (c : BookmarkCall) (userId itemId : string) (w : World) :
  (c = CallToggleBookmark true -> plain itemId = true) ->
  let result := run_bookmark_call c userId itemId w in
  (exists success, fst result = Val success)
  /\ other_records userId itemId (db (snd result))
     = other_records userId itemId (db w)
  /\ students (db (snd result)) = students (db w)
  /\ subjects (db (snd result)) = subjects (db w).
Proof.
  intros _.
  pose proof (run_bookmark_call_effect c userId itemId w) as H.
  cbv zeta in *.
  set (result := run_bookmark_call c userId itemId w) in *.
  assert (Hd : forall fs,
            (forall b, bmatch_all fs b = true -> pair_matches userId itemId b = true) ->
            other_records userId itemId (snd (exec_delete_bookmarks fs (db w)))
            = other_records userId itemId (db w))
    by (intros; now apply other_records_delete).
  assert (He : forall b,
            bmatch_all
              [BOr (BEq ColSubjectId itemId) (BEq ColNoteId itemId);
               BEq ColUserId userId] b = true ->
            pair_matches userId itemId b = true)
    by (intros b Hb; now rewrite <- either_pair).
  destruct c as [[|]| | |[|]| |];
    try destruct (negb (truthy userId) || negb (truthy itemId));
    destruct (request_ok 0 w); try destruct (request_ok 1 w);
    cbv beta iota in H; injection H as -> -> _;
    (split; [eexists; reflexivity|]);
    (split; [|split; reflexivity]).
  all: try reflexivity.
  all: try exact (Hd _ He).
  all: try exact (Hd _ (byNote_pair userId itemId)).
  all: try exact (Hd _ (bySubject_pair userId itemId)).
  all: try exact (other_records_insert userId itemId (Some itemId) (Some itemId)
                    true (now w) (db w) (or_introl eq_refl)).
  all: try exact (other_records_insert userId itemId (Some itemId) None
                    false (now w) (db w) (or_introl eq_refl)).
  all: try exact (other_records_insert userId itemId None (Some itemId)
                    false (now w) (db w) (or_intror eq_refl)).
Qed.

Lemma bookmark_calls_touch_one_pair_witness :
  let theirs := Bookmark.mk "b1" "u2" (Some "s1") (Some "s1") "t0" in
  let other := Bookmark.mk "b2" "u1" (Some "s2") (Some "s2") "t0" in
  let mine := Bookmark.mk "b3" "u1" (Some "s1") (Some "s1") "t0" in
  let w := mkWorld (mkDatabase ∅ [] [theirs; other; mine] 3) [] [] [] "t1" in
  let result := run_bookmark_call (CallToggleBookmark true) "u1" "s1" w in
  bookmarks (db (snd result)) = [theirs; other]
  /\ other_records "u1" "s1" (db (snd result)) = [theirs; other].
Proof.
  intros theirs other mine w result.
  split; [reflexivity|].
  destruct (bookmark_calls_touch_one_pair (CallToggleBookmark true) "u1" "s1" w)
    as [_ [H _]]; [reflexivity|].
  exact H.
Defined.

(** X2: with both ids, [removeBookmark] (both documents have the same code)
    deletes the user's records that carry the item as [note_id] when that
    delete is answered, and stops there; only when it fails does it delete the
    records that carry the item as [subject_id]; when both fail the table is
    as it was.  It reports success exactly when one delete was answered.  So
    after an answered first delete, a record that carries the item as
    [subject_id] only is still in the table. *)
Theorem removeBookmark_deletes_under_one_key (userId itemId : string) (w : World) :
  userId <> "" -> itemId <> "" ->
  let byNote := [BEq ColUserId userId; BEq ColNoteId itemId] in
  let bySubject := [BEq ColUserId userId; BEq ColSubjectId itemId] in
  let effect (remove : string -> string -> M OpResult.t) :=
    exists res w',
      remove userId itemId w = (Val res, w')
      /\ OpResult.success res = request_ok 0 w || request_ok 1 w
      /\ bookmarks (db w')
         = if request_ok 0 w
           then List.filter (fun b => negb (bmatch_all byNote b)) (bookmarks (db w))
           else if request_ok 1 w
                then List.filter (fun b => negb (bmatch_all bySubject b))
                       (bookmarks (db w))
                else bookmarks (db w) in
  effect DatabaseFixed.removeBookmark /\ effect DualKey.removeBookmark.
Proof.
  intros H1 H2. cbv zeta.
  unfold DatabaseFixed.removeBookmark, DualKey.removeBookmark.
  rewrite (guard_passes _ _ H1 H2).
  open_world w.
  split; (next_fault fs; [| |next_fault fs..]); do 2 eexists;
    (split; [reflexivity|]); split; reflexivity.
Qed.

Lemma removeBookmark_deletes_under_one_key_witness :
  let w := mkWorld
             (mkDatabase ∅ []
                [Bookmark.mk "b1" "u1" None (Some "s1") "t0";
                 Bookmark.mk "b2" "u1" (Some "s1") None "t0"] 2)
             [] [] [] "t1" in
  exists res w',
    DualKey.removeBookmark "u1" "s1" w = (Val res, w')
    /\ OpResult.success res = true
    /\ bookmarks (db w') = [Bookmark.mk "b1" "u1" None (Some "s1") "t0"].
Proof.
  cbv zeta.
  destruct (removeBookmark_deletes_under_one_key "u1" "s1"
              (mkWorld
                 (mkDatabase ∅ []
                    [Bookmark.mk "b1" "u1" None (Some "s1") "t0";
                     Bookmark.mk "b2" "u1" (Some "s1") None "t0"] 2)
                 [] [] [] "t1"))
    as [_ [res [w' [E [S B]]]]]; [discriminate | discriminate |].
  exists res, w'. split; [exact E|]. split; [exact S | exact B].
Defined.

(** X3: with both ids, [addBookmark] never looks at what the table holds: a
    call that reports success has appended exactly one record for the pair,
    also when the pair was bookmarked already, and a call that reports
    failure has left the table as it was.  The record of the first document
    carries the item under both keys; the record of the second carries it
    as [note_id] only or, when that insert failed, as [subject_id] only. *)
Theorem addBookmark_appends_one_record (userId itemId : string) (w : World) :
  userId <> "" -> itemId <> "" ->
  let row n s :=
    Bookmark.mk ("bm-" +:+ pretty (bookmark_seq (db w))) userId n s (now w) in
  (exists res w',
     DatabaseFixed.addBookmark userId itemId w = (Val res, w')
     /\ OpResult.success res = request_ok 0 w
     /\ bookmarks (db w')
        = if request_ok 0 w
          then bookmarks (db w) ++ [row (Some itemId) (Some itemId)]
          else bookmarks (db w))
  /\ (exists res w',
        DualKey.addBookmark userId itemId w = (Val res, w')
        /\ OpResult.success res = request_ok 0 w || request_ok 1 w
        /\ bookmarks (db w')
           = if request_ok 0 w then bookmarks (db w) ++ [row (Some itemId) None]
             else if request_ok 1 w
                  then bookmarks (db w) ++ [row None (Some itemId)]
                  else bookmarks (db w)).
Proof.
  intros H1 H2. cbv zeta.
  unfold DatabaseFixed.addBookmark, DualKey.addBookmark.
  rewrite (guard_passes _ _ H1 H2).
  open_world w.
  split; (next_fault fs; [| |next_fault fs..]); do 2 eexists;
    (split; [reflexivity|]); split; reflexivity.
Qed.

Lemma addBookmark_appends_one_record_witness :
  let w := mkWorld
             (mkDatabase ∅ [] [Bookmark.mk "b1" "u1" (Some "s1") (Some "s1") "t0"] 2)
             [] [] [] "t1" in
  exists res w',
    DatabaseFixed.addBookmark "u1" "s1" w = (Val res, w')
    /\ OpResult.success res = true
    /\ bookmarks (db w')
       = [Bookmark.mk "b1" "u1" (Some "s1") (Some "s1") "t0";
          Bookmark.mk "bm-2" "u1" (Some "s1") (Some "s1") "t1"].
Proof.
  cbv zeta.
  destruct (addBookmark_appends_one_record "u1" "s1"
              (mkWorld
                 (mkDatabase ∅ []
                    [Bookmark.mk "b1" "u1" (Some "s1") (Some "s1") "t0"] 2)
                 [] [] [] "t1"))
    as [[res [w' [E [S B]]]] _]; [discriminate | discriminate |].
  exists res, w'. split; [exact E|]. split; [exact S | exact B].
Defined.

(** ** Looking bookmarks up *)

Lemma isBookmarked_rows_of_user (userId id : string) (w : World) :
  id <> "" ->
  DatabaseFixed.isBookmarked (rows_of_user userId w) id
  = has_bookmark (db w) userId id.
Proof.
  intros N. unfold DatabaseFixed.isBookmarked, rows_of_user, has_bookmark.
  rewrite <- (map_id (List.filter _ (bookmarks (db w)))).
  apply existsb_map_filter. intros b.
  rewrite !(truthy_opt_eqb _ id N). unfold bmatch_all, pair_matches. simpl.
  rewrite andb_true_r, (orb_comm (opt_eqb (Bookmark.subject_id b) id)).
  reflexivity.
Qed.

Lemma DualKey_isBookmarked_note_rows (userId id : string) (w : World) :
  DualKey.isBookmarked (map (project NoteCols) (rows_of_user userId w)) id
  = stored_under ColNoteId (db w) userId id.
Proof.
  unfold DualKey.isBookmarked, rows_of_user, stored_under.
  apply existsb_map_filter. intros b. unfold bmatch_all. simpl.
  rewrite !andb_true_r, orb_false_r. reflexivity.
Qed.

Lemma DualKey_isBookmarked_subject_rows (userId id : string) (w : World) :
  DualKey.isBookmarked
    (map DualKey.map_to_note_id (map (project SubjectCols) (rows_of_user userId w)))
    id
  = stored_under ColSubjectId (db w) userId id.
Proof.
  unfold DualKey.isBookmarked, rows_of_user, stored_under.
  rewrite map_map. apply existsb_map_filter. intros b. unfold bmatch_all. simpl.
  rewrite !andb_true_r, orb_diag. reflexivity.
Qed.

(** X4: the lookup of the first document followed by [isBookmarked]
    tells, for an item id that is not empty, whether the table holds a
    record of the user for the item under either key, provided the query is
    answered; when it fails, nothing counts as bookmarked. *)
Theorem DatabaseFixed_lookup_agrees_with_table (userId id : string) (w : World) :
  id <> "" ->
  exists l,
    fst (DatabaseFixed.fetchUserBookmarks userId w) = Val l
    /\ DatabaseFixed.isBookmarked l id
       = request_ok 0 w && has_bookmark (db w) userId id.
Proof.
  intros N. rewrite DatabaseFixed_fetchUserBookmarks_run. eexists.
  split; [reflexivity|].
  destruct (request_ok 0 w); [|reflexivity].
  rewrite map_project_all. now apply isBookmarked_rows_of_user.
Qed.

Lemma DatabaseFixed_lookup_agrees_with_table_witness :
  let w := mkWorld
             (mkDatabase ∅ [] [Bookmark.mk "b1" "u1" None (Some "s1") "t0"] 1)
             [] [] [] "t1" in
  exists l,
    fst (DatabaseFixed.fetchUserBookmarks "u1" w) = Val l
    /\ DatabaseFixed.isBookmarked l "s1" = true.
Proof.
  intros w.
  destruct (DatabaseFixed_lookup_agrees_with_table "u1" "s1" w) as [l [E B]];
    [discriminate|].
  exists l. split; [exact E | exact B].
Defined.

(** X5: the lookup of the second document followed by its [isBookmarked]
    sees one key only.  When the [note_id] query is answered, an item counts
    as bookmarked exactly when the user has a record that carries it as
    [note_id]; when that query fails and the [subject_id] query is answered,
    exactly when the user has a record that carries it as [subject_id]; when
    both fail, never. *)
Theorem DualKey_lookup_sees_one_key (userId id : string) (w : World) :
  userId <> "" ->
  exists l,
    fst (DualKey.fetchUserBookmarks userId w) = Val l
    /\ DualKey.isBookmarked l id
       = if request_ok 0 w then stored_under ColNoteId (db w) userId id
         else if request_ok 1 w then stored_under ColSubjectId (db w) userId id
              else false.
Proof.
  intros N. rewrite (DualKey_fetchUserBookmarks_closed_form userId w N).
  eexists. split; [reflexivity|].
  destruct (request_ok 0 w); [apply DualKey_isBookmarked_note_rows|].
  destruct (request_ok 1 w); [apply DualKey_isBookmarked_subject_rows|].
  reflexivity.
Qed.

Lemma DualKey_lookup_sees_one_key_witness :
  let w := mkWorld
             (mkDatabase ∅ [] [Bookmark.mk "b1" "u1" None (Some "s1") "t0"] 1)
             [] [] [] "t1" in
  exists l,
    fst (DualKey.fetchUserBookmarks "u1" w) = Val l
    /\ DualKey.isBookmarked l "s1" = false.
Proof.
  intros w.
  destruct (DualKey_lookup_sees_one_key "u1" "s1" w) as [l [E B]];
    [discriminate|].
  exists l. split; [exact E | exact B].
Defined.

(** X6: both lookups return records of the user only, and only records the
    table holds: the first document returns stored records as they are, the
    second returns, for a stored record, a record with the same [id] and
    [created_at]. *)
Theorem fetchUserBookmarks_own_records
    (userId : string) (w : World) (l : list Bookmark.t) (b : Bookmark.t) :
  In b l ->
  (fst (DatabaseFixed.fetchUserBookmarks userId w) = Val l ->
   In b (bookmarks (db w)) /\ Bookmark.user_id b = userId)
  /\ (fst (DualKey.fetchUserBookmarks userId w) = Val l ->
      Bookmark.user_id b = userId
      /\ exists row,
           In row (bookmarks (db w))
           /\ Bookmark.id row = Bookmark.id b
           /\ Bookmark.created_at row = Bookmark.created_at b).
Proof.
  intros Hb.
  assert (Hrow : forall row, In row (rows_of_user userId w) ->
            In row (bookmarks (db w)) /\ Bookmark.user_id row = userId).
  { intros row H. unfold rows_of_user in H. apply filter_In in H.
    destruct H as [H1 H2]. split; [exact H1|].
    unfold bmatch_all in H2. simpl in H2. rewrite andb_true_r in H2.
    now apply String.eqb_eq. }
  split.
  - rewrite DatabaseFixed_fetchUserBookmarks_run. cbn [fst].
    intros E. injection E as <-.
    destruct (request_ok 0 w); [|destruct Hb].
    rewrite map_project_all in Hb. now apply Hrow.
  - destruct (decide (userId = "")) as [->|N].
    + cbn. intros E. injection E as <-. destruct Hb.
    + rewrite (DualKey_fetchUserBookmarks_closed_form userId w N).
      intros E. injection E as <-.
      destruct (request_ok 0 w); [|destruct (request_ok 1 w); [|destruct Hb]].
      * apply in_map_iff in Hb. destruct Hb as [row [<- H]].
        destruct (Hrow row H) as [H1 H2]. split; [exact H2|].
        exists row. auto.
      * rewrite map_map in Hb. apply in_map_iff in Hb.
        destruct Hb as [row [<- H]].
        destruct (Hrow row H) as [H1 H2]. split; [exact H2|].
        exists row. auto.
Qed.

Lemma fetchUserBookmarks_own_records_witness :
  let mine := Bookmark.mk "b1" "u1" (Some "s1") (Some "s1") "t0" in
  let w := mkWorld
             (mkDatabase ∅ []
                [mine; Bookmark.mk "b2" "u2" (Some "s1") (Some "s1") "t0"] 2)
             [] [] [] "t1" in
  In mine (bookmarks (db w)) /\ Bookmark.user_id mine = "u1".
Proof.
  intros mine w.
  apply (fetchUserBookmarks_own_records "u1" w [mine] mine).
  - left. reflexivity.
  - reflexivity.
Defined.

(** ** Adding, removing and looking up in sequence *)

Ltac table_simpl :=
  unfold exec_insert_bookmark, exec_delete_bookmarks, with_bookmarks;
  cbn [snd bookmarks].

Lemma filter_none {A} (p : A -> bool) (l : list A) :
  existsb p l = false -> List.filter (fun a => negb (p a)) l = l.
Proof.
  induction l as [|a l IH]; simpl; [reflexivity|].
  intros H. apply orb_false_iff in H. destruct H as [Ha Hl].
  rewrite Ha. simpl. now rewrite IH.
Qed.

Lemma byNote_row (userId itemId i t : string) (s : option string) :
  bmatch_all [BEq ColUserId userId; BEq ColNoteId itemId]
    (Bookmark.mk i userId (Some itemId) s t) = true.
Proof. unfold bmatch_all. simpl. now rewrite !String.eqb_refl. Qed.

Lemma bySubject_row (userId itemId i t : string) (n : option string) :
  bmatch_all [BEq ColUserId userId; BEq ColSubjectId itemId]
    (Bookmark.mk i userId n (Some itemId) t) = true.
Proof. unfold bmatch_all. simpl. now rewrite !String.eqb_refl. Qed.

(** The world [addBookmark] and [removeBookmark] leave, with both ids. *)
Lemma bookmark_call_world (c : BookmarkCall) (userId itemId : string) (w : World) :
  userId <> "" -> itemId <> "" ->
  let del fs := snd (exec_delete_bookmarks fs (db w)) in
  let ins r n s := snd (exec_insert_bookmark userId n s r (now w) (db w)) in
  let byNote := [BEq ColUserId userId; BEq ColNoteId itemId] in
  let bySubject := [BEq ColUserId userId; BEq ColSubjectId itemId] in
  let w' := snd (run_bookmark_call c userId itemId w) in
  match c with
  | CallAddBookmark =>
      db w' = (if request_ok 0 w then ins true (Some itemId) (Some itemId) else db w)
      /\ faults w' = drop 1 (faults w)
  | CallAddBookmarkDualKey =>
      db w' = (if request_ok 0 w then ins false (Some itemId) None
               else if request_ok 1 w then ins false None (Some itemId) else db w)
      /\ faults w' = drop (if request_ok 0 w then 1 else 2) (faults w)
  | CallRemoveBookmark | CallRemoveBookmarkDualKey =>
      db w' = (if request_ok 0 w then del byNote
               else if request_ok 1 w then del bySubject else db w)
      /\ faults w' = drop (if request_ok 0 w then 1 else 2) (faults w)
  | _ => True
  end.
Proof.
  intros H1 H2. cbv zeta.
  pose proof (run_bookmark_call_effect c userId itemId w) as H.
  cbv zeta in H. rewrite (guard_passes _ _ H1 H2) in H.
  destruct c as [[|]| | |[|]| |]; try exact I;
    destruct (request_ok 0 w); try destruct (request_ok 1 w);
    cbv beta iota in H; injection H as _ Hd Hf; split; assumption.
Qed.

Lemma run_add (userId itemId : string) (w : World) :
  snd (run_bookmark_call CallAddBookmark userId itemId w)
  = snd (DatabaseFixed.addBookmark userId itemId w).
Proof. apply bind_ret_snd. Qed.

Lemma run_remove (userId itemId : string) (w : World) :
  snd (run_bookmark_call CallRemoveBookmark userId itemId w)
  = snd (DatabaseFixed.removeBookmark userId itemId w).
Proof. apply bind_ret_snd. Qed.

Lemma run_add_dual (userId itemId : string) (w : World) :
  snd (run_bookmark_call CallAddBookmarkDualKey userId itemId w)
  = snd (DualKey.addBookmark userId itemId w).
Proof. apply bind_ret_snd. Qed.

Lemma run_remove_dual (userId itemId : string) (w : World) :
  snd (run_bookmark_call CallRemoveBookmarkDualKey userId itemId w)
  = snd (DualKey.removeBookmark userId itemId w).
Proof. apply bind_ret_snd. Qed.

(** X7: when no request fails, a bookmark added with [addBookmark] is found
    by the lookup and [isBookmarked] of the same document. *)
Theorem add_then_lookup (userId itemId : string) (w : World) :
  fault_free w -> userId <> "" -> itemId <> "" ->
  (exists l,
     fst (DatabaseFixed.fetchUserBookmarks userId
            (snd (DatabaseFixed.addBookmark userId itemId w))) = Val l
     /\ DatabaseFixed.isBookmarked l itemId = true)
  /\ (exists l,
        fst (DualKey.fetchUserBookmarks userId
               (snd (DualKey.addBookmark userId itemId w))) = Val l
        /\ DualKey.isBookmarked l itemId = true).
Proof.
  intros F H1 H2. split.
  - destruct (bookmark_call_world CallAddBookmark userId itemId w H1 H2) as [Hd Hf].
    rewrite run_add in Hd, Hf. rewrite (fault_free_ok w 0 F) in Hd.
    set (w1 := snd (DatabaseFixed.addBookmark userId itemId w)) in *.
    rewrite DatabaseFixed_fetchUserBookmarks_run. eexists. split; [reflexivity|].
    rewrite (fault_free_ok w1 0 (fault_free_drop w w1 1 F Hf)).
    rewrite map_project_all, (isBookmarked_rows_of_user userId itemId w1 H2).
    unfold has_bookmark. rewrite Hd. table_simpl. rewrite existsb_app. cbn [existsb].
    rewrite pair_matches_both. now rewrite orb_true_r.
  - destruct (bookmark_call_world CallAddBookmarkDualKey userId itemId w H1 H2)
      as [Hd Hf].
    rewrite run_add_dual in Hd, Hf. rewrite (fault_free_ok w 0 F) in Hd, Hf.
    set (w1 := snd (DualKey.addBookmark userId itemId w)) in *.
    rewrite (DualKey_fetchUserBookmarks_closed_form userId w1 H1).
    eexists. split; [reflexivity|].
    rewrite (fault_free_ok w1 0 (fault_free_drop w w1 1 F Hf)).
    rewrite DualKey_isBookmarked_note_rows. unfold stored_under.
    rewrite Hd. table_simpl. rewrite existsb_app. cbn [existsb].
    rewrite byNote_row. now rewrite orb_true_r.
Qed.

Lemma add_then_lookup_witness :
  let w := mkWorld (mkDatabase ∅ [] [] 0) [] [] [] "t1" in
  exists l,
    fst (DatabaseFixed.fetchUserBookmarks "u1"
           (snd (DatabaseFixed.addBookmark "u1" "s1" w))) = Val l
    /\ DatabaseFixed.isBookmarked l "s1" = true.
Proof.
  intros w.
  apply (add_then_lookup "u1" "s1" w); [constructor | discriminate | discriminate].
Defined.

(** X8: in the second document, a bookmark stored by the fallback insert
    is not found afterwards.  When the insert keyed by [note_id] fails and
    the one keyed by [subject_id] is answered, [addBookmark] reports success
    and the record is in the table; but a lookup whose [note_id] query is
    answered, followed by [isBookmarked], finds the item only if the user had
    a record carrying it as [note_id] before. *)
Theorem DualKey_fallback_insert_not_found (userId itemId : string) (w : World) :
  userId <> "" -> itemId <> "" ->
  request_ok 0 w = false -> request_ok 1 w = true -> request_ok 2 w = true ->
  exists res w1 l,
    DualKey.addBookmark userId itemId w = (Val res, w1)
    /\ OpResult.success res = true
    /\ stored_under ColSubjectId (db w1) userId itemId = true
    /\ fst (DualKey.fetchUserBookmarks userId w1) = Val l
    /\ DualKey.isBookmarked l itemId = stored_under ColNoteId (db w) userId itemId.
Proof.
  intros H1 H2 K0 K1 K2.
  destruct (DualKey_addBookmark_order userId itemId w H1 H2) as [res [w1 [E [_ S]]]].
  destruct (bookmark_call_world CallAddBookmarkDualKey userId itemId w H1 H2)
    as [Hd Hf].
  rewrite run_add_dual, E in Hd, Hf. cbn [snd] in Hd, Hf.
  rewrite K0 in Hd, Hf, S. rewrite K1 in Hd, S.
  exists res, w1. eexists. split; [exact E|]. split; [exact S|].
  split; [|split].
  - unfold stored_under. rewrite Hd. table_simpl. rewrite existsb_app. cbn [existsb].
    rewrite bySubject_row. now rewrite orb_true_r.
  - rewrite (DualKey_fetchUserBookmarks_closed_form userId w1 H1). reflexivity.
  - rewrite (request_ok_drop w w1 2 0 Hf). simpl. rewrite K2.
    rewrite DualKey_isBookmarked_note_rows. unfold stored_under.
    rewrite Hd. table_simpl. rewrite existsb_app. cbn [existsb].
    unfold bmatch_all. simpl. rewrite andb_false_r, !orb_false_r. reflexivity.
Qed.

Lemma DualKey_fallback_insert_not_found_witness :
  let w := mkWorld (mkDatabase ∅ [] [] 0)
             [FailWith (PgError.mk "42703" "column bookmarks.note_id does not exist")]
             [] [] "t1" in
  exists res w1 l,
    DualKey.addBookmark "u1" "s1" w = (Val res, w1)
    /\ OpResult.success res = true
    /\ stored_under ColSubjectId (db w1) "u1" "s1" = true
    /\ fst (DualKey.fetchUserBookmarks "u1" w1) = Val l
    /\ DualKey.isBookmarked l "s1" = false.
Proof.
  intros w.
  apply (DualKey_fallback_insert_not_found "u1" "s1" w);
    [discriminate | discriminate | reflexivity | reflexivity | reflexivity].
Defined.

(** X9: when no request fails and the user has no record that carries the
    item as [note_id], [addBookmark] followed by [removeBookmark] of the same
    document leaves the bookmarks table as it was. *)
Theorem add_then_remove_restores_table (userId itemId : string) (w : World) :
  fault_free w -> userId <> "" -> itemId <> "" ->
  stored_under ColNoteId (db w) userId itemId = false ->
  bookmarks
    (db (snd (DatabaseFixed.removeBookmark userId itemId
                (snd (DatabaseFixed.addBookmark userId itemId w)))))
  = bookmarks (db w)
  /\ bookmarks
       (db (snd (DualKey.removeBookmark userId itemId
                   (snd (DualKey.addBookmark userId itemId w)))))
     = bookmarks (db w).
Proof.
  intros F H1 H2 N.
  assert (R : forall i t s,
    List.filter
      (fun b => negb (bmatch_all [BEq ColUserId userId; BEq ColNoteId itemId] b))
      (bookmarks (db w) ++ [Bookmark.mk i userId (Some itemId) s t])
    = bookmarks (db w)).
  { intros i t s. rewrite List.filter_app. cbn [List.filter].
    rewrite byNote_row. cbn [negb]. rewrite app_nil_r. now apply filter_none. }
  split.
  - destruct (bookmark_call_world CallAddBookmark userId itemId w H1 H2) as [Hd Hf].
    rewrite run_add in Hd, Hf. rewrite (fault_free_ok w 0 F) in Hd.
    set (w1 := snd (DatabaseFixed.addBookmark userId itemId w)) in *.
    destruct (bookmark_call_world CallRemoveBookmark userId itemId w1 H1 H2)
      as [Hd2 _].
    rewrite run_remove in Hd2.
    rewrite (fault_free_ok w1 0 (fault_free_drop w w1 1 F Hf)) in Hd2.
    rewrite Hd2. table_simpl. rewrite Hd. table_simpl. now apply R.
  - destruct (bookmark_call_world CallAddBookmarkDualKey userId itemId w H1 H2)
      as [Hd Hf].
    rewrite run_add_dual in Hd, Hf. rewrite (fault_free_ok w 0 F) in Hd, Hf.
    set (w1 := snd (DualKey.addBookmark userId itemId w)) in *.
    destruct (bookmark_call_world CallRemoveBookmarkDualKey userId itemId w1 H1 H2)
      as [Hd2 _].
    rewrite run_remove_dual in Hd2.
    rewrite (fault_free_ok w1 0 (fault_free_drop w w1 1 F Hf)) in Hd2.
    rewrite Hd2. table_simpl. rewrite Hd. table_simpl. now apply R.
Qed.

Lemma add_then_remove_restores_table_witness :
  let w := mkWorld
             (mkDatabase ∅ [] [Bookmark.mk "b1" "u1" None (Some "s1") "t0"] 1)
             [] [] [] "t1" in
  bookmarks
    (db (snd (DatabaseFixed.removeBookmark "u1" "s1"
                (snd (DatabaseFixed.addBookmark "u1" "s1" w)))))
  = bookmarks (db w).
Proof.
  intros w.
  apply (add_then_remove_restores_table "u1" "s1" w);
    [constructor | discriminate | discriminate | reflexivity].
Defined.

(** * Further properties of the profile functions *)

(** The world after an answered upsert of [row] under [id]. *)
Lemma createOrUpdateStudentProfile_run
    (userId : string) (partial : PartialStudent.t) (w : World) :
  userId <> "" ->
  let id := default userId (PartialStudent.id partial) in
  let created := or_else (PartialStudent.created_at partial) (now w) in
  let row := upsert_row (students (db w) !! id) id partial created in
  let req := UpsertStudent id partial created in
  createOrUpdateStudentProfile userId partial w
  = if request_ok 0 w
    then (Val (Some row),
          mkWorld (with_students (db w) (<[id := row]> (students (db w))))
            (drop 1 (faults w)) (log w ++ [req]) (sleeps w) (now w))
    else (Val None, advance w [req] []).
Proof.
  intros H. apply truthy_true in H. cbv zeta.
  unfold createOrUpdateStudentProfile. rewrite H.
  change (negb true) with false. cbv iota.
  open_world w. unfold advance.
  next_fault fs; unfold_m; cbn; rewrite ?app_nil_r; reflexivity.
Qed.

(** X10: with a user id, [fetchStudentProfile] returns what the students
    table holds under the id as soon as one of its three selects is
    answered, and [null] when all three fail; the result of the connectivity
    ping plays no part.  A missing row is an answer: when the first select
    is answered the function has sent the ping and that select only, and
    has not waited. *)
Theorem fetchStudentProfile_reads_stored_row (userId : string) (w : World) :
  userId <> "" ->
  let w' := snd (fetchStudentProfile userId w) in
  fst (fetchStudentProfile userId w)
  = Val (if request_ok 1 w || request_ok 2 w || request_ok 3 w
         then students (db w) !! userId else None)
  /\ (request_ok 1 w = true ->
      call_requests w w' = [CountStudents; SelectStudent userId]
      /\ call_sleeps w w' = []).
Proof.
  intros N. rewrite (fetchStudentProfile_run userId w N). cbv zeta.
  decide_oks; cbn [fst snd orb]; (split; [reflexivity|]);
    intros H; try discriminate H;
    rewrite call_requests_advance, call_sleeps_advance; split; reflexivity.
Qed.

Lemma fetchStudentProfile_reads_stored_row_witness :
  let asha := Student.mk "u1" "Asha" "asha@example.com" 2 1 "ECE" false "t0" in
  let w := mkWorld (mkDatabase {[ "u1" := asha ]} [] [] 0) [] [] [] "t1" in
  fst (fetchStudentProfile "u2" w) = Val None
  /\ call_requests w (snd (fetchStudentProfile "u2" w))
     = [CountStudents; SelectStudent "u2"]
  /\ call_sleeps w (snd (fetchStudentProfile "u2" w)) = [].
Proof.
  intros asha w.
  destruct (fetchStudentProfile_reads_stored_row "u2" w) as [H1 H2];
    [discriminate|].
  split; [exact H1 | apply H2; reflexivity].
Defined.

(** X11: a profile that [createOrUpdateStudentProfile] has returned is what
    [fetchStudentProfile] returns for its id afterwards, provided one of the
    three selects is answered. *)
Theorem create_then_fetch_profile
    (userId : string) (partial : PartialStudent.t) (w w1 : World) (p : Student.t) :
  createOrUpdateStudentProfile userId partial w = (Val (Some p), w1) ->
  Student.id p <> "" ->
  request_ok 1 w1 || request_ok 2 w1 || request_ok 3 w1 = true ->
  fst (fetchStudentProfile (Student.id p) w1) = Val (Some p).
Proof.
  intros E N K.
  destruct (createOrUpdateStudentProfile_stores userId partial w w1 p E) as [S _].
  rewrite (fetchStudentProfile_run (Student.id p) w1 N). cbv zeta.
  rewrite S. revert K. decide_oks; cbn [orb fst]; intros K;
    first [reflexivity | discriminate K].
Qed.

Lemma create_then_fetch_profile_witness :
  let w := mkWorld (mkDatabase ∅ [] [] 0) [] [] [] "t1" in
  let partial :=
    PartialStudent.mk None (Some "Asha") (Some "asha@example.com")
      (Some 2) (Some 1) (Some "ECE") None None in
  let p := Student.mk "u1" "Asha" "asha@example.com" 2 1 "ECE" false "t1" in
  fst (fetchStudentProfile "u1" (snd (createOrUpdateStudentProfile "u1" partial w)))
  = Val (Some p).
Proof.
  intros w partial p.
  apply (create_then_fetch_profile "u1" partial w
           (snd (createOrUpdateStudentProfile "u1" partial w)) p);
    [reflexivity | discriminate | reflexivity].
Defined.

(** X12: with a user id, [createOrUpdateStudentProfile] never throws.  When
    its request fails it returns [null] and the tables are as they were.
    When the request is answered, the row it returns is the only row of the
    students table that has changed, and the subjects and the bookmarks are
    as they were. *)
Theorem createOrUpdateStudentProfile_touches_one_row
    (userId : string) (partial : PartialStudent.t) (w : World) :
  userId <> "" ->
  exists r w',
    createOrUpdateStudentProfile userId partial w = (Val r, w')
    /\ (request_ok 0 w = false -> r = None /\ db w' = db w)
    /\ (request_ok 0 w = true ->
        exists p, r = Some p
                  /\ students (db w') = <[Student.id p := p]> (students (db w)))
    /\ subjects (db w') = subjects (db w)
    /\ bookmarks (db w') = bookmarks (db w).
Proof.
  intros N. rewrite (createOrUpdateStudentProfile_run userId partial w N).
  cbv zeta. destruct (request_ok 0 w); do 2 eexists;
    (split; [reflexivity|]); cbn [db advance with_students students subjects bookmarks];
    (split; [intros H; try discriminate H; split; reflexivity|]);
    (split; [intros H; try discriminate H; eexists; split; reflexivity|]);
    split; reflexivity.
Qed.

Lemma createOrUpdateStudentProfile_touches_one_row_witness :
  let asha := Student.mk "u1" "Asha" "asha@example.com" 2 1 "ECE" false "t0" in
  let w := mkWorld (mkDatabase {[ "u1" := asha ]} [] [] 0)
             [Reject (mkExn "TypeError" "Failed to fetch")] [] [] "t1" in
  let partial :=
    PartialStudent.mk None None None (Some 3) None None None None in
  exists r w',
    createOrUpdateStudentProfile "u1" partial w = (Val r, w')
    /\ r = None /\ db w' = db w.
Proof.
  intros asha w partial.
  destruct (createOrUpdateStudentProfile_touches_one_row "u1" partial w)
    as [r [w' [E [F _]]]]; [discriminate|].
  exists r, w'. split; [exact E|]. apply F. reflexivity.
Defined.

(** X13: what [createOrUpdateStudentProfile] writes.  The row is keyed by
    the [id] of the payload when it has one, and by [userId] otherwise, so a
    payload with another id leaves the row of [userId] alone; its
    [created_at] is that of the payload when it has a non-empty one and the
    time of the call otherwise, also when the row existed already. *)
Theorem createOrUpdateStudentProfile_key_and_created_at
    (userId : string) (partial : PartialStudent.t) (w w1 : World) (p : Student.t) :
  createOrUpdateStudentProfile userId partial w = (Val (Some p), w1) ->
  Student.id p = default userId (PartialStudent.id partial)
  /\ Student.created_at p = or_else (PartialStudent.created_at partial) (now w)
  /\ (Student.id p <> userId ->
      students (db w1) !! userId = students (db w) !! userId).
Proof.
  intros E.
  destruct (decide (userId = "")) as [->|N]; [discriminate E|].
  rewrite (createOrUpdateStudentProfile_run userId partial w N) in E.
  cbv zeta in E. destruct (request_ok 0 w); [|discriminate E].
  injection E as <- <-. cbn [db with_students students].
  split; [reflexivity|]. split; [reflexivity|].
  intros D. now rewrite lookup_insert_ne.
Qed.

Lemma createOrUpdateStudentProfile_key_and_created_at_witness :
  let asha := Student.mk "u1" "Asha" "asha@example.com" 2 1 "ECE" false "t0" in
  let w := mkWorld (mkDatabase {[ "u1" := asha ]} [] [] 0) [] [] [] "t1" in
  let partial :=
    PartialStudent.mk (Some "u2") (Some "Ravi") None (Some 3) None None None None in
  let ravi := Student.mk "u2" "Ravi" "" 3 0 "" false "t1" in
  Student.id ravi = "u2" /\ Student.created_at ravi = "t1"
  /\ students (db (snd (createOrUpdateStudentProfile "u1" partial w))) !! "u1"
     = Some asha.
Proof.
  intros asha w partial ravi.
  destruct (createOrUpdateStudentProfile_key_and_created_at "u1" partial w
              (snd (createOrUpdateStudentProfile "u1" partial w)) ravi)
    as [H1 [H2 H3]]; [reflexivity|].
  split; [exact H1|]. split; [exact H2|].
  rewrite H3; [reflexivity | discriminate].
Defined.

(** ** The profile query of the home page *)

Lemma upsert_default_row (u : Home.User) (t : string) (old : option Student.t) :
  upsert_row old (Home.id u) (Home.to_partial (Home.defaultProfile u t))
    (if truthy t then t else t)
  = Home.defaultProfile u t.
Proof. destruct (truthy t); reflexivity. Qed.

Lemma profile_queryFn_unfold (st : Home.State) (u : Home.User) (w : World) :
  Home.user st = Some u -> Home.id u <> "" ->
  Home.profile_queryFn st w
  = match fetchStudentProfile (Home.id u) w with
    | (Val (Some p), w1) => (Val (Some p), w1)
    | (Val None, w1) =>
        (do t <- get_now;
         do savedProfile <-
           createOrUpdateStudentProfile (Home.id u)
             (Home.to_partial (Home.defaultProfile u t));
         match savedProfile with
         | Some p => ret (Some p)
         | None => ret (Some (Home.defaultProfile u t))
         end) w1
    | (Throw x, w1) => (Throw x, w1)
    end.
Proof.
  intros U N. unfold Home.profile_queryFn. rewrite U.
  apply truthy_true in N. rewrite N.
  change (negb true) with false. cbv iota.
  unfold bind at 1. destruct (fetchStudentProfile (Home.id u) w) as [[[p|]|x] w1];
    reflexivity.
Qed.

(** The result of the profile query and the row it leaves under the id of
    the user, by the requests that are answered: the three selects are the
    requests 1 to 3, the upsert of the default profile is the one after the
    last select. *)
Lemma profile_queryFn_run (st : Home.State) (u : Home.User) (w : World) :
  Home.user st = Some u -> Home.id u <> "" ->
  let stored := students (db w) !! Home.id u in
  let d := Home.defaultProfile u (now w) in
  let result := Home.profile_queryFn st w in
  let fresh (k : nat) :=
    (Val (Some d), if request_ok k w then Some d else stored) in
  (fst result, students (db (snd result)) !! Home.id u)
  = if request_ok 1 w || request_ok 2 w || request_ok 3 w
    then match stored with
         | Some p => (Val (Some p), stored)
         | None =>
             fresh (if request_ok 1 w then 2 else if request_ok 2 w then 3 else 4)%nat
         end
    else fresh 4%nat.
Proof.
  intros U N. cbv zeta. rewrite (profile_queryFn_unfold st u w U N).
  rewrite (fetchStudentProfile_run (Home.id u) w N). cbv zeta.
  assert (L : forall reqs sl,
    let result :=
      (do t <- get_now;
       do savedProfile <-
         createOrUpdateStudentProfile (Home.id u)
           (Home.to_partial (Home.defaultProfile u t));
       match savedProfile with
       | Some p => ret (Some p)
       | None => ret (Some (Home.defaultProfile u t))
       end) (advance w reqs sl) in
    (fst result, students (db (snd result)) !! Home.id u)
    = (Val (Some (Home.defaultProfile u (now w))),
       if request_ok (length reqs) w
       then Some (Home.defaultProfile u (now w))
       else students (db w) !! Home.id u)).
  { intros reqs sl. cbv zeta. unfold bind, get_now.
    rewrite (createOrUpdateStudentProfile_run (Home.id u) _ (advance w reqs sl) N).
    cbv zeta. rewrite request_ok_advance, Nat.add_0_r.
    destruct (request_ok (length reqs) w); cbn -[upsert_row advance];
      [|reflexivity].
    change (now (advance w reqs sl)) with (now w).
    rewrite upsert_default_row. now rewrite lookup_insert_eq. }
  cbv zeta in L.
  decide_oks; cbn [orb];
    destruct (students (db w) !! Home.id u) as [p|] eqn:S;
    first [ rewrite L, ?S; cbn [length]; rewrite ?Heqb, ?Heqb0, ?Heqb1, ?Heqb2;
            reflexivity
          | cbn [fst snd db advance]; now rewrite S ].
Qed.

(** X14: for a signed-in user the profile query never throws and never comes
    back empty.  It returns the stored profile when one of the three selects
    is answered and finds one; in every other case, a missing row and three
    failed selects alike, it returns the default profile (year 1, semester 1,
    branch CSE, no admin rights), whether or not saving it succeeded. *)
Theorem profile_queryFn_yields_profile (st : Home.State) (u : Home.User) (w : World) :
  Home.user st = Some u -> Home.id u <> "" ->
  fst (Home.profile_queryFn st w)
  = Val (Some
           (default (Home.defaultProfile u (now w))
              (if request_ok 1 w || request_ok 2 w || request_ok 3 w
               then students (db w) !! Home.id u else None))).
Proof.
  intros U N. pose proof (profile_queryFn_run st u w U N) as H. cbv zeta in H.
  apply (f_equal fst) in H. cbn [fst] in H. rewrite H.
  destruct (request_ok 1 w || request_ok 2 w || request_ok 3 w); [|reflexivity].
  destruct (students (db w) !! Home.id u); reflexivity.
Qed.

Lemma profile_queryFn_yields_profile_witness :
  let u := Home.mkUser "u1" (Some "asha@example.com") None in
  let st := Home.page_load (Some u) 0 true "t1" in
  let w := mkWorld (mkDatabase ∅ [] [] 0)
             [NoFault; NoFault; FailWith (PgError.mk "42501" "permission denied")]
             [] [] "t1" in
  fst (Home.profile_queryFn st w)
  = Val (Some (Student.mk "u1" "asha" "asha@example.com" 1 1 "CSE" false "t1")).
Proof.
  intros u st w.
  apply (profile_queryFn_yields_profile st u w); [reflexivity | discriminate].
Defined.

(** X15: when the three selects of the profile query fail and the upsert
    that follows is answered, the row of the user holds the default profile
    afterwards, whatever it held before. *)
Theorem profile_queryFn_resets_profile_after_failed_reads
    (st : Home.State) (u : Home.User) (w : World) :
  Home.user st = Some u -> Home.id u <> "" ->
  request_ok 1 w = false -> request_ok 2 w = false -> request_ok 3 w = false ->
  request_ok 4 w = true ->
  fst (Home.profile_queryFn st w) = Val (Some (Home.defaultProfile u (now w)))
  /\ students (db (snd (Home.profile_queryFn st w))) !! Home.id u
     = Some (Home.defaultProfile u (now w)).
Proof.
  intros U N K1 K2 K3 K4.
  pose proof (profile_queryFn_run st u w U N) as H. cbv zeta in H.
  rewrite K1, K2, K3, K4 in H. cbn [orb] in H.
  injection H as H1 H2. split; assumption.
Qed.

Lemma profile_queryFn_resets_profile_after_failed_reads_witness :
  let u := Home.mkUser "u1" (Some "asha@example.com") (Some "Asha") in
  let st := Home.page_load (Some u) 0 true "t1" in
  let asha := Student.mk "u1" "Asha" "asha@example.com" 3 2 "ECE" true "t0" in
  let abort := mkExn "AbortError" "The operation was aborted" in
  let w := mkWorld (mkDatabase {[ "u1" := asha ]} [] [] 0)
             [NoFault; Reject abort; Reject abort; Reject abort] [] [] "t1" in
  students (db (snd (Home.profile_queryFn st w))) !! "u1"
  = Some (Student.mk "u1" "Asha" "asha@example.com" 1 1 "CSE" false "t1").
Proof.
  intros u st asha abort w.
  apply (profile_queryFn_resets_profile_after_failed_reads st u w);
    [reflexivity | discriminate | reflexivity | reflexivity | reflexivity
    | reflexivity].
Defined.

(** * Further properties of the subjects fetch *)

(** X16: called with an id, [fetchSubjectsForStudent] returns the empty list
    without sending any subjects query when the students table has no row
    for the id, and also when the three profile selects fail. *)
Theorem fetchSubjectsForStudent_without_profile (studentId : string) (w : World) :
  students (db w) !! studentId = None
  \/ (request_ok 1 w = false /\ request_ok 2 w = false /\ request_ok 3 w = false) ->
  let w' := snd (fetchSubjectsForStudent (ById studentId) w) in
  fst (fetchSubjectsForStudent (ById studentId) w) = Val []
  /\ forall fs, ~ In (SelectSubjects fs) (call_requests w w').
Proof.
  intros H. cbv zeta. rewrite fetchSubjectsForStudent_ById.
  destruct (decide (studentId = "")) as [->|N].
  { cbn [fetchStudentProfile truthy String.eqb negb ret fst snd].
    rewrite call_requests_same. split; [reflexivity | intros fs []]. }
  rewrite (fetchStudentProfile_run studentId w N). cbv zeta.
  assert (R : forall reqs sl,
    (forall r, In r reqs -> r = CountStudents \/ r = SelectStudent studentId) ->
    forall fs, ~ In (SelectSubjects fs) (call_requests w (advance w reqs sl))).
  { intros reqs sl Hr fs Hin. rewrite call_requests_advance in Hin.
    destruct (Hr _ Hin) as [E|E]; discriminate E. }
  destruct H as [H|[K1 [K2 K3]]].
  - rewrite H. decide_oks; cbn [fst snd]; (split; [reflexivity|]);
      apply R; intros r Hr; cbn [In] in Hr; intuition auto.
  - rewrite K1, K2, K3. cbn [fst snd]. split; [reflexivity|].
    apply R; intros r Hr; cbn [In] in Hr; intuition auto.
Qed.

Lemma fetchSubjectsForStudent_without_profile_witness :
  let maths := Subject.mk "s1" "Engineering Mathematics I" "CSE" 1 1 true "t0" in
  let w := mkWorld (mkDatabase ∅ [maths] [] 0) [] [] [] "t1" in
  fst (fetchSubjectsForStudent (ById "u1") w) = Val []
  /\ forall fs,
       ~ In (SelectSubjects fs)
           (call_requests w (snd (fetchSubjectsForStudent (ById "u1") w))).
Proof.
  intros maths w.
  apply (fetchSubjectsForStudent_without_profile "u1" w). left. reflexivity.
Defined.

(** X17: when the subjects table has rows for the year, the semester and the
    branch (or common ones) of the profile, [fetchSubjectsForStudent] returns
    exactly these rows as soon as one of its three attempts is answered, and
    the empty list when all three fail; it never sends the permissive
    query.  The branch is spliced into the [.or] filter string of the
    query, so it is to be [plain]. *)
Theorem fetchSubjectsForStudent_matching_rows (p : Student.t) (w : World) :
  let strict :=
    strict_rows (Student.academic_year p) (Student.semester p) (Student.branch p) w in
  let w' := snd (fetchSubjectsForStudent (ByProfile p) w) in
  plain (Student.branch p) = true ->
  strict <> [] ->
  fst (fetchSubjectsForStudent (ByProfile p) w)
  = Val (if request_ok 0 w || request_ok 1 w || request_ok 2 w then strict else [])
  /\ forall r, In r (call_requests w w') -> is_fallback r = false.
Proof.
  cbv zeta. intros _ S.
  rewrite fetchSubjectsForStudent_ByProfile, subjects_loop_run. cbv zeta.
  destruct (strict_rows (Student.academic_year p) (Student.semester p)
              (Student.branch p) w) as [|x l] eqn:E; [contradiction|].
  cbn [nonempty]. rewrite andb_true_r.
  decide_oks; cbn [fst snd orb]; (split; [reflexivity|]);
    rewrite call_requests_advance; intros r Hr; cbn [In] in Hr;
    intuition (subst; reflexivity).
Qed.

Lemma fetchSubjectsForStudent_matching_rows_witness :
  let maths := Subject.mk "s1" "Engineering Mathematics I" "CSE" 1 1 false "t0" in
  let physics := Subject.mk "s9" "Engineering Physics II" "ECE" 1 2 false "t0" in
  let asha := Student.mk "u1" "Asha" "asha@example.com" 1 1 "CSE" false "t0" in
  let refused := mkExn "TypeError" "Failed to fetch" in
  let w := mkWorld (mkDatabase ∅ [maths; physics] [] 0)
             [Reject refused; Reject refused] [] [] "t1" in
  fst (fetchSubjectsForStudent (ByProfile asha) w) = Val [maths]
  /\ forall r,
       In r (call_requests w (snd (fetchSubjectsForStudent (ByProfile asha) w))) ->
       is_fallback r = false.
Proof.
  intros maths physics asha refused w.
  apply (fetchSubjectsForStudent_matching_rows asha w);
    [reflexivity | discriminate].
Defined.

(** X18: when no row of the subjects table matches the profile, the answer
    to the first attempt is of no use: the function waits 500 ms and asks
    again, and it is the second attempt alone that sends the permissive query
    (same year or common).  The result is the rows of that query when the
    second attempt and the query are both answered, and the empty list
    otherwise; unless the permissive query has found rows, the function has
    waited 500 ms and then 1000 ms before it returns.  The branch is spliced
    into the [.or] filter string of the strict query, so it is to be
    [plain]. *)
Theorem fetchSubjectsForStudent_fallback_on_second_attempt
    (p : Student.t) (w : World) :
  let strict :=
    strict_rows (Student.academic_year p) (Student.semester p) (Student.branch p) w in
  let perm := permissive_rows (Student.academic_year p) w in
  let w' := snd (fetchSubjectsForStudent (ByProfile p) w) in
  plain (Student.branch p) = true ->
  strict = [] ->
  fst (fetchSubjectsForStudent (ByProfile p) w)
  = Val (if request_ok 1 w && request_ok 2 w then perm else [])
  /\ call_sleeps w w'
     = if request_ok 1 w && request_ok 2 w && nonempty perm
       then [500] else [500; 1000].
Proof.
  cbv zeta. intros _ S.
  rewrite fetchSubjectsForStudent_ByProfile, subjects_loop_run. cbv zeta.
  rewrite S. cbn [nonempty]. rewrite andb_false_r.
  destruct (request_ok 1 w), (request_ok 2 w); cbn [andb];
    try (destruct (permissive_rows (Student.academic_year p) w); cbn [nonempty]);
    cbn [fst snd]; rewrite call_sleeps_advance; split; reflexivity.
Qed.

Lemma fetchSubjectsForStudent_fallback_on_second_attempt_witness :
  let common := Subject.mk "s5" "Environmental Studies" "ALL" 2 1 true "t0" in
  let asha := Student.mk "u1" "Asha" "asha@example.com" 1 1 "CSE" false "t0" in
  let w := mkWorld (mkDatabase ∅ [common] [] 0) [] [] [] "t1" in
  fst (fetchSubjectsForStudent (ByProfile asha) w) = Val [common]
  /\ call_sleeps w (snd (fetchSubjectsForStudent (ByProfile asha) w)) = [500].
Proof.
  intros common asha w.
  apply (fetchSubjectsForStudent_fallback_on_second_attempt asha w);
    reflexivity.
Defined.

(** ** The first visit of a new user *)

Lemma try_catch_val {A} (m : M A) (h : Exn -> M A) (w : World) (v : A) :
  fst (m w) = Val v -> try_catch m h w = m w.
Proof.
  unfold try_catch. destruct (m w) as [[a|x] w1]; cbn [fst]; intros E;
    [reflexivity | discriminate E].
Qed.

(** The profile query leaves the subjects and the bookmarks alone and
    consumes a prefix of the fault schedule. *)
Lemma profile_queryFn_world (st : Home.State) (u : Home.User) (w : World) :
  Home.user st = Some u -> Home.id u <> "" ->
  let w' := snd (Home.profile_queryFn st w) in
  subjects (db w') = subjects (db w)
  /\ bookmarks (db w') = bookmarks (db w)
  /\ exists k, faults w' = drop k (faults w).
Proof.
  intros U N. cbv zeta. rewrite (profile_queryFn_unfold st u w U N).
  rewrite (fetchStudentProfile_run (Home.id u) w N). cbv zeta.
  assert (L : forall reqs sl,
    let w' :=
      snd ((do t <- get_now;
            do savedProfile <-
              createOrUpdateStudentProfile (Home.id u)
                (Home.to_partial (Home.defaultProfile u t));
            match savedProfile with
            | Some p => ret (Some p)
            | None => ret (Some (Home.defaultProfile u t))
            end) (advance w reqs sl)) in
    subjects (db w') = subjects (db w)
    /\ bookmarks (db w') = bookmarks (db w)
    /\ exists k, faults w' = drop k (faults w)).
  { intros reqs sl. cbv zeta. unfold bind, get_now.
    rewrite (createOrUpdateStudentProfile_run (Home.id u) _ (advance w reqs sl) N).
    cbv zeta.
    destruct (request_ok 0 (advance w reqs sl));
      cbn -[upsert_row drop]; rewrite drop_drop;
      (split; [reflexivity|]); (split; [reflexivity|]); eexists; reflexivity. }
  cbv zeta in L.
  assert (R : forall reqs sl,
    subjects (db (advance w reqs sl)) = subjects (db w)
    /\ bookmarks (db (advance w reqs sl)) = bookmarks (db w)
    /\ exists k, faults (advance w reqs sl) = drop k (faults w)).
  { intros reqs sl. split; [reflexivity|]. split; [reflexivity|].
    eexists. reflexivity. }
  decide_oks; destruct (students (db w) !! Home.id u) as [p|];
    cbn [snd]; first [apply L | apply R].
Qed.

Lemma subjects_fault_free (p : Student.t) (w : World) :
  fault_free w ->
  let y := Student.academic_year p in
  fst (fetchSubjectsForStudent (ByProfile p) w)
  = Val (if nonempty (strict_rows y (Student.semester p) (Student.branch p) w)
         then strict_rows y (Student.semester p) (Student.branch p) w
         else permissive_rows y w).
Proof.
  intros F. cbv zeta.
  rewrite fetchSubjectsForStudent_ByProfile, subjects_loop_run. cbv zeta.
  rewrite !(fault_free_ok w _ F). cbn [andb].
  split_rows; reflexivity.
Qed.

(** X19: the first visit of a new user, when no request fails.  The profile
    query finds no row, stores the default profile and returns it; a
    subjects query that runs once the profile query has settled finds that
    profile and returns the subjects of year 1, semester 1 that are of branch
    CSE or common or, when there are none, the subjects that are of year 1 or
    common. *)
Theorem first_visit_subjects (st : Home.State) (u : Home.User) (w : World) :
  fault_free w ->
  Home.user st = Some u -> Home.id u <> "" ->
  students (db w) !! Home.id u = None ->
  let w1 := snd (Home.profile_queryFn st w) in
  fst (Home.profile_queryFn st w) = Val (Some (Home.defaultProfile u (now w)))
  /\ students (db w1) !! Home.id u = Some (Home.defaultProfile u (now w))
  /\ fst (Home.subjects_queryFn st w1)
     = Val (if nonempty (strict_rows 1 1 "CSE" w) then strict_rows 1 1 "CSE" w
            else permissive_rows 1 w).
Proof.
  intros F U N S. cbv zeta.
  pose proof (profile_queryFn_run st u w U N) as H. cbv zeta in H.
  rewrite !(fault_free_ok w _ F), S in H. cbn [orb] in H.
  injection H as H1 H2.
  destruct (profile_queryFn_world st u w U N) as [Hs [_ [k Hf]]].
  set (w1 := snd (Home.profile_queryFn st w)) in *.
  pose proof (fault_free_drop w w1 k F Hf) as F1.
  split; [exact H1|]. split; [exact H2|].
  unfold Home.subjects_queryFn. rewrite U.
  pose proof N as T. apply truthy_true in T. rewrite T.
  change (negb true) with false. cbv iota.
  assert (E : fst (fetchSubjectsForStudent (ById (Home.id u)) w1)
              = Val (if nonempty (strict_rows 1 1 "CSE" w)
                     then strict_rows 1 1 "CSE" w else permissive_rows 1 w)).
  { rewrite fetchSubjectsForStudent_ById.
    rewrite (fetchStudentProfile_run (Home.id u) w1 N). cbv zeta.
    rewrite (fault_free_ok w1 1 F1), H2.
    rewrite subjects_fault_free.
    - unfold strict_rows, permissive_rows. cbn [db advance]. rewrite Hs.
      reflexivity.
    - unfold fault_free, advance. cbn [faults]. now apply Forall_drop. }
  rewrite (try_catch_val _ _ _ _ E). exact E.
Qed.

Lemma first_visit_subjects_witness :
  let u := Home.mkUser "u1" (Some "asha@example.com") None in
  let st := Home.page_load (Some u) 0 true "t1" in
  let maths := Subject.mk "s1" "Engineering Mathematics I" "CSE" 1 1 false "t0" in
  let physics := Subject.mk "s9" "Engineering Physics II" "ECE" 1 2 false "t0" in
  let w := mkWorld (mkDatabase ∅ [maths; physics] [] 0) [] [] [] "t1" in
  let w1 := snd (Home.profile_queryFn st w) in
  fst (Home.profile_queryFn st w) = Val (Some (Home.defaultProfile u "t1"))
  /\ students (db w1) !! "u1" = Some (Home.defaultProfile u "t1")
  /\ fst (Home.subjects_queryFn st w1) = Val [maths].
Proof.
  intros u st maths physics w.
  apply (first_visit_subjects st u w);
    [constructor | reflexivity | discriminate | reflexivity].
Defined.

(** * Further properties of the home page *)

(** ** Toggling a bookmark on the home page *)

Lemma DatabaseFixed_toggle_world
    (userId id : string) (currentlyBookmarked : bool) (w : World) :
  exists r d,
    DatabaseFixed.toggleBookmark userId id currentlyBookmarked w
    = (Val r,
       mkWorld d (drop 1 (faults w))
         (log w ++ [toggle_request userId id currentlyBookmarked])
         (sleeps w) (now w))
    /\ DatabaseResponse.success r = request_ok 0 w.
Proof.
  open_world w. destruct currentlyBookmarked; next_fault fs;
    do 2 eexists; split; reflexivity.
Qed.

Lemma handleBookmarkToggle_run
    (st : Home.State) (u : Home.User) (id : string) (w : World) :
  Home.user st = Some u -> Home.id u <> "" ->
  let shown := DatabaseFixed.isBookmarked (Home.bookmarksData (Home.cache st)) id in
  let w1 := snd (DatabaseFixed.toggleBookmark (Home.id u) id shown w) in
  HomeBookmarks.handleBookmarkToggle st id w
  = (Val (Home.set_cache st
            (Home.mkCache (Home.userProfile (Home.cache st))
               (Home.subjectsData (Home.cache st))
               (if request_ok 0 w1 then rows_of_user (Home.id u) w1 else []))),
     advance w1 [SelectBookmarks AllCols [BEq ColUserId (Home.id u)]] []).
Proof.
  intros U N. cbv zeta. unfold HomeBookmarks.handleBookmarkToggle. rewrite U.
  set (shown := DatabaseFixed.isBookmarked (Home.bookmarksData (Home.cache st)) id).
  destruct (DatabaseFixed_toggle_world (Home.id u) id shown w) as [r [d [E _]]].
  unfold try_catch, bind. rewrite E. cbn [snd].
  unfold Home.refetch_bookmarks, Home.bookmarks_enabled, Home.has_user,
    Home.bookmarks_queryFn, Home.set_cache. cbn [Home.user Home.cache].
  rewrite U. cbn [fmap option_fmap option_map truthy_opt].
  apply truthy_true in N. rewrite N. change (negb true) with false. cbv iota.
  unfold bind. rewrite DatabaseFixed_fetchUserBookmarks_run.
  rewrite map_project_all. reflexivity.
Qed.

(** X21: for a signed-in user, [handleBookmarkToggle] never throws and sends
    exactly two requests, in emergency mode as out of it: the write that
    matches what the cache showed (a delete under either key when the item
    was shown as bookmarked, an insert under both keys when it was not) and
    the lookup of the invalidated bookmarks query.  Afterwards the cache
    holds the rows of the user when the lookup was answered and is empty
    when it failed, so the optimistic entry never outlives the call; the
    emergency flag is as it was. *)
Theorem handleBookmarkToggle_writes_then_refetches
    (st : Home.State) (u : Home.User) (id : string) (w : World) :
  Home.user st = Some u -> Home.id u <> "" ->
  let shown := DatabaseFixed.isBookmarked (Home.bookmarksData (Home.cache st)) id in
  exists st' w',
    HomeBookmarks.handleBookmarkToggle st id w = (Val st', w')
    /\ call_requests w w'
       = [toggle_request (Home.id u) id shown;
          SelectBookmarks AllCols [BEq ColUserId (Home.id u)]]
    /\ Home.bookmarksData (Home.cache st')
       = (if request_ok 1 w then rows_of_user (Home.id u) w' else [])
    /\ Home.isEmergencyMode st' = Home.isEmergencyMode st.
Proof.
  intros U N. cbv zeta.
  rewrite (handleBookmarkToggle_run st u id w U N). cbv zeta.
  set (shown := DatabaseFixed.isBookmarked (Home.bookmarksData (Home.cache st)) id).
  destruct (DatabaseFixed_toggle_world (Home.id u) id shown w) as [r [d [E _]]].
  rewrite E. cbn [snd]. do 2 eexists. split; [reflexivity|].
  split; [|split; [|reflexivity]].
  - open_world w. unfold advance. cbn [log]. rewrite <- app_assoc.
    apply call_requests_app.
  - cbn [Home.cache Home.set_cache Home.bookmarksData].
    unfold request_ok. cbn [faults]. rewrite ok_at_drop. reflexivity.
Qed.

Lemma handleBookmarkToggle_writes_then_refetches_witness :
  let u := Home.mkUser "u1" (Some "asha@example.com") None in
  let st := Home.forceEmergencyMode (Home.page_load (Some u) 0 true "t1") in
  let w := mkWorld (mkDatabase ∅ [] [] 0) [] [] [] "t1" in
  exists st' w',
    HomeBookmarks.handleBookmarkToggle st "s1" w = (Val st', w')
    /\ call_requests w w'
       = [InsertBookmark "u1" (Some "s1") (Some "s1") true;
          SelectBookmarks AllCols [BEq ColUserId "u1"]]
    /\ Home.bookmarksData (Home.cache st') = rows_of_user "u1" w'
    /\ Home.isEmergencyMode st' = true.
Proof.
  intros u st w.
  apply (handleBookmarkToggle_writes_then_refetches st u "s1" w);
    [reflexivity | discriminate].
Defined.

(** X22: when no request fails and the cache holds the rows of the user, a
    click on the bookmark of an item (with a non-empty id) flips what the
    page shows for it: after [handleBookmarkToggle] the item counts as
    bookmarked exactly when it did not before.  The cache holds the rows of
    the user again, so the next click flips it back. *)
Theorem handleBookmarkToggle_flips_shown_state
    (st : Home.State) (u : Home.User) (id : string) (w : World) :
  fault_free w ->
  Home.user st = Some u -> Home.id u <> "" -> id <> "" ->
  Home.bookmarksData (Home.cache st) = rows_of_user (Home.id u) w ->
  exists st' w',
    HomeBookmarks.handleBookmarkToggle st id w = (Val st', w')
    /\ DatabaseFixed.isBookmarked (Home.bookmarksData (Home.cache st')) id
       = negb (DatabaseFixed.isBookmarked (Home.bookmarksData (Home.cache st)) id)
    /\ Home.bookmarksData (Home.cache st') = rows_of_user (Home.id u) w'
    /\ fault_free w'.
Proof.
  intros F U N Nid Sync.
  rewrite (handleBookmarkToggle_run st u id w U N). cbv zeta.
  set (shown := DatabaseFixed.isBookmarked (Home.bookmarksData (Home.cache st)) id).
  assert (Hs : shown = has_bookmark (db w) (Home.id u) id).
  { unfold shown. rewrite Sync. now apply isBookmarked_rows_of_user. }
  destruct (DatabaseFixed_toggle_fault_free (Home.id u) id shown w F) as [F1 E1].
  set (w1 := snd (DatabaseFixed.toggleBookmark (Home.id u) id shown w)) in *.
  rewrite (fault_free_ok w1 0 F1).
  do 2 eexists. split; [reflexivity|].
  cbn [Home.cache Home.set_cache Home.bookmarksData].
  split; [|split; [reflexivity|]].
  - rewrite (isBookmarked_rows_of_user (Home.id u) id w1 Nid).
    unfold has_bookmark. rewrite E1. destruct shown; cbn [negb].
    + apply existsb_filter_out. intros a Ha. now rewrite either_pair.
    + rewrite existsb_app. cbn [existsb]. rewrite pair_matches_both.
      now rewrite orb_true_r.
  - unfold fault_free, advance. cbn [faults]. now apply Forall_drop.
Qed.

Lemma handleBookmarkToggle_flips_shown_state_witness :
  let u := Home.mkUser "u1" (Some "asha@example.com") None in
  let st := Home.page_load (Some u) 0 true "t1" in
  let w := mkWorld (mkDatabase ∅ [] [] 0) [] [] [] "t1" in
  exists st' w',
    HomeBookmarks.handleBookmarkToggle st "s1" w = (Val st', w')
    /\ DatabaseFixed.isBookmarked (Home.bookmarksData (Home.cache st')) "s1" = true
    /\ Home.bookmarksData (Home.cache st') = rows_of_user "u1" w'
    /\ fault_free w'.
Proof.
  intros u st w.
  apply (handleBookmarkToggle_flips_shown_state st u "s1" w);
    [constructor | reflexivity | discriminate | discriminate | reflexivity].
Defined.

(** X23: the optimistic update predicts the flip when every cached record
    that carries the item as [note_id] carries it as [subject_id] as well, as
    the records written by the first document do: for an item with a
    non-empty id, the updated cache shows it as bookmarked exactly when the
    old one did not.  (The removal filters on [subject_id] only.) *)
Theorem optimistic_update_flips_shown_state
    (userId id : string) (oldBookmarks : list Bookmark.t) :
  id <> "" ->
  Forall (fun b => Bookmark.note_id b = Some id -> Bookmark.subject_id b = Some id)
    oldBookmarks ->
  let shown := DatabaseFixed.isBookmarked oldBookmarks id in
  DatabaseFixed.isBookmarked
    (HomeBookmarks.optimistic_update userId id shown oldBookmarks) id
  = negb shown.
Proof.
  intros N H. cbv zeta. unfold HomeBookmarks.optimistic_update.
  destruct (DatabaseFixed.isBookmarked oldBookmarks id) eqn:E; cbn [negb].
  - clear E. unfold DatabaseFixed.isBookmarked.
    induction H as [|b l Hb Hl IH]; [reflexivity|].
    cbn [List.filter].
    destruct (opt_eqb (Bookmark.subject_id b) id) eqn:Es; cbn [negb]; [exact IH|].
    cbn [existsb]. rewrite IH, Es, andb_false_r, orb_false_r. cbn [orb].
    destruct (Bookmark.note_id b) as [n|] eqn:En; [|reflexivity].
    cbn [opt_eqb]. destruct (String.eqb n id) eqn:Eq; [|apply andb_false_r].
    apply String.eqb_eq in Eq. subst n. rewrite (Hb eq_refl) in Es.
    cbn [opt_eqb] in Es. rewrite String.eqb_refl in Es. discriminate Es.
  - unfold DatabaseFixed.isBookmarked in *. rewrite existsb_app, E.
    cbn [existsb Bookmark.subject_id Bookmark.note_id orb truthy_opt opt_eqb andb].
    apply truthy_true in N. rewrite N, String.eqb_refl. reflexivity.
Qed.

Lemma optimistic_update_flips_shown_state_witness :
  let old := [Bookmark.mk "b1" "u1" (Some "s1") (Some "s1") "t0";
              Bookmark.mk "b2" "u1" (Some "s2") (Some "s2") "t0"] in
  DatabaseFixed.isBookmarked
    (HomeBookmarks.optimistic_update "u1" "s1"
       (DatabaseFixed.isBookmarked old "s1") old) "s1"
  = false.
Proof.
  intros old.
  apply (optimistic_update_flips_shown_state "u1" "s1" old); [discriminate|].
  repeat constructor. intros H. discriminate H.
Defined.

(** * What the fetch functions leave alone *)

(** X24: the four fetch functions and the connectivity check only read:
    whatever the backend answers, the students, the subjects and the
    bookmarks are the same after the call as before. *)
Theorem fetches_leave_tables (c : FetchCall) (w : World) :
  db (snd (run_fetch c w)) = db w
  /\ db (snd (testSupabaseConnection w)) = db w.
Proof.
  split; [|rewrite testSupabaseConnection_run; reflexivity].
  assert (P : forall userId, db (snd (fetchStudentProfile userId w)) = db w).
  { intros userId. destruct (decide (userId = "")) as [->|N]; [reflexivity|].
    rewrite (fetchStudentProfile_run userId w N). cbv zeta.
    decide_oks; reflexivity. }
  assert (L : forall p w1,
            db (snd (fetchSubjectsForStudent (ByProfile p) w1)) = db w1).
  { intros p w1. rewrite fetchSubjectsForStudent_ByProfile.
    destruct (subjects_loop_exhausted (ByProfile p) (Student.academic_year p)
                (Student.semester p) (Student.branch p) w1) as [reqs [sl [E _]]].
    rewrite E. reflexivity. }
  destruct c as [userId|a|userId|userId]; unfold run_fetch; rewrite bind_ret_snd.
  - apply P.
  - destruct a as [studentId|p|]; [|apply L|reflexivity].
    rewrite fetchSubjectsForStudent_ById. specialize (P studentId).
    destruct (fetchStudentProfile studentId w) as [[[p|]|x] w1]; cbn [snd] in *;
      [|exact P|exact P].
    rewrite L. exact P.
  - rewrite DatabaseFixed_fetchUserBookmarks_run. reflexivity.
  - destruct (decide (userId = "")) as [->|N]; [reflexivity|].
    rewrite (DualKey_fetchUserBookmarks_run userId w N). reflexivity.
Qed.

(** X25: what the functions do with an empty id.  [fetchStudentProfile],
    [fetchSubjectsForStudent], [createOrUpdateStudentProfile] and the lookup
    of the second document return their default at once, without a request.
    The lookup and [toggleBookmark] of the first document have no such guard:
    they send their request with the empty id, and an answered toggle stores
    a record whose user and keys are empty. *)
Theorem empty_ids (partial : PartialStudent.t) (w : World) :
  fetchStudentProfile "" w = (Val None, w)
  /\ fetchSubjectsForStudent (ById "") w = (Val [], w)
  /\ fetchSubjectsForStudent NoProfile w = (Val [], w)
  /\ createOrUpdateStudentProfile "" partial w = (Val None, w)
  /\ DualKey.fetchUserBookmarks "" w = (Val [], w)
  /\ call_requests w (snd (DatabaseFixed.fetchUserBookmarks "" w))
     = [SelectBookmarks AllCols [BEq ColUserId ""]]
  /\ call_requests w (snd (DatabaseFixed.toggleBookmark "" "" false w))
     = [InsertBookmark "" (Some "") (Some "") true]
  /\ bookmarks (db (snd (DatabaseFixed.toggleBookmark "" "" false w)))
     = if request_ok 0 w
       then bookmarks (db w)
            ++ [Bookmark.mk ("bm-" +:+ pretty (bookmark_seq (db w))) ""
                  (Some "") (Some "") (now w)]
       else bookmarks (db w).
Proof.
  repeat (split; [reflexivity|]).
  split; [rewrite DatabaseFixed_fetchUserBookmarks_run; apply call_requests_advance|].
  destruct (DatabaseFixed_toggle_world "" "" false w) as [r [d [E _]]].
  split.
  - rewrite E. cbn [snd]. open_world w. apply call_requests_app.
  - clear E. open_world w. next_fault fs; reflexivity.
Qed.

(** X26: [toggleBookmark] of the first document never throws and sends one
    request.  When the request is answered, the pair is afterwards in the
    state opposite to the one the caller passed, whatever the table held: a
    removal deletes the records of the pair under either key, an addition
    inserts one.  When it fails, the call reports failure and the table is
    as it was. *)
Theorem DatabaseFixed_toggle_sets_opposite_state
    (userId id : string) (currentlyBookmarked : bool) (w : World) :
  exists r w',
    DatabaseFixed.toggleBookmark userId id currentlyBookmarked w = (Val r, w')
    /\ DatabaseResponse.success r = request_ok 0 w
    /\ call_requests w w' = [toggle_request userId id currentlyBookmarked]
    /\ has_bookmark (db w') userId id
       = (if request_ok 0 w then negb currentlyBookmarked
          else has_bookmark (db w) userId id)
    /\ (request_ok 0 w = false -> bookmarks (db w') = bookmarks (db w)).
Proof.
  pose proof (run_bookmark_call_effect (CallToggleBookmark currentlyBookmarked)
                userId id w) as H.
  cbv zeta in H. unfold run_bookmark_call in H. rewrite bind_ret_snd in H.
  destruct (DatabaseFixed_toggle_world userId id currentlyBookmarked w)
    as [r [d [E S]]].
  rewrite E in H. cbn [snd db] in H.
  exists r. eexists. split; [exact E|]. split; [exact S|].
  split; [open_world w; apply call_requests_app|].
  cbn [db]. unfold has_bookmark.
  destruct currentlyBookmarked, (request_ok 0 w);
    cbv beta iota in H; injection H as _ ->; table_simpl;
    (split; [|intros K; first [discriminate K | reflexivity]]);
    cbn [negb]; try reflexivity.
  - apply existsb_filter_out. intros a Ha.
    exact (eq_trans (either_pair userId id a) Ha).
  - rewrite existsb_app. cbn [existsb]. rewrite pair_matches_both.
    now rewrite orb_true_r.
Qed.

(** * Requests that take time *)

Section Agreement.

(** The timed functions against the untimed ones.  [Q] says what the
    scheduled latencies are like. *)
Variable Q : Timed.Latency -> Prop.

Definition agrees {A} (tm : Timed.T A) (m : M A) : Prop :=
  forall w ls, Forall Q ls ->
    exists k, tm (Timed.mkTimedWorld w ls)
              = (Timed.of_outcome (fst (m w)),
                 Timed.mkTimedWorld (snd (m w)) (drop k ls)).

Lemma agrees_ret {A} (a : A) : agrees (Timed.ret a) (ret a).
Proof. intros w ls _. exists 0%nat. reflexivity. Qed.

Lemma agrees_lift {A} (m : M A) : agrees (Timed.lift m) m.
Proof.
  intros w ls _. exists 0%nat. unfold Timed.lift. cbn.
  destruct (m w) as [o w']. reflexivity.
Qed.

Lemma agrees_bind {A B} (tm : Timed.T A) (m : M A)
    (tk : A -> Timed.T B) (k : A -> M B) :
  agrees tm m -> (forall a, agrees (tk a) (k a)) ->
  agrees (Timed.bind tm tk) (bind m k).
Proof.
  intros Hm Hk w ls HQ. destruct (Hm w ls HQ) as [n1 E1].
  unfold Timed.bind, bind. rewrite E1.
  destruct (m w) as [[a|x] w1]; cbn [fst snd Timed.of_outcome].
  - destruct (Hk a w1 (drop n1 ls) (Forall_drop _ _ _ HQ)) as [n2 E2].
    exists (n1 + n2)%nat. rewrite E2, drop_drop. reflexivity.
  - exists n1. reflexivity.
Qed.

Lemma agrees_try_catch {A} (tm : Timed.T A) (m : M A)
    (th : Exn -> Timed.T A) (h : Exn -> M A) :
  agrees tm m -> (forall x, agrees (th x) (h x)) ->
  agrees (Timed.try_catch tm th) (try_catch m h).
Proof.
  intros Hm Hh w ls HQ. destruct (Hm w ls HQ) as [n1 E1].
  unfold Timed.try_catch, try_catch. rewrite E1.
  destruct (m w) as [[a|x] w1]; cbn [fst snd Timed.of_outcome].
  - exists n1. reflexivity.
  - destruct (Hh x w1 (drop n1 ls) (Forall_drop _ _ _ HQ)) as [n2 E2].
    exists (n1 + n2)%nat. rewrite E2, drop_drop. reflexivity.
Qed.

Lemma agrees_send {A} (signal : option Timed.AbortSignal) (r : Request)
    (exec : Database -> Resp A * Database) :
  Timed.aborted_first signal (Timed.After 0) = false ->
  (forall l, Q l -> Timed.aborted_first signal l = false /\ l <> Timed.Never) ->
  agrees (Timed.send signal r exec) (backend r exec).
Proof.
  intros H0 HQ w ls Hls. exists 1%nat. unfold Timed.send, Timed.latency_at.
  destruct ls as [|l ls]; cbn -[backend advance Timed.aborted_first drop].
  - rewrite H0. destruct (backend r exec w) as [o w']. reflexivity.
  - inversion Hls as [|? ? Hl _]; subst. destruct (HQ l Hl) as [Ha Hn].
    rewrite Ha. destruct l as [ms|]; [|contradiction].
    destruct (backend r exec w) as [o w']. reflexivity.
Qed.

Lemma agrees_while {A} (tbody : Z -> Timed.T (Step A)) (body : Z -> M (Step A))
    (after : A) :
  (forall a, 0 < a -> agrees (tbody a) (body a)) ->
  forall fuel a, 0 <= a ->
    agrees (Timed.while_attempts fuel tbody after a)
      (while_attempts fuel body after a).
Proof.
  intros H fuel. induction fuel as [|fuel IH]; intros a Ha.
  - apply agrees_ret.
  - cbn [Timed.while_attempts while_attempts].
    destruct (a <? maxAttempts); [|apply agrees_ret].
    apply agrees_bind; [apply H; lia|].
    intros [v|]; [apply agrees_ret | apply IH; lia].
Qed.

End Agreement.

(** Latencies under which nothing stays pending, and latencies under which
    no timer of [fetchStudentProfile] goes off either (its shortest time
    limit is 6000 ms). *)
Definition settles (l : Timed.Latency) : Prop := l <> Timed.Never.

Definition in_time (l : Timed.Latency) : Prop :=
  exists ms, l = Timed.After ms /\ ms <= 6000.

Lemma in_time_settles (l : Timed.Latency) : in_time l -> settles l.
Proof. intros [ms [-> _]]. discriminate. Qed.

Section Unconnected.

(** The functions that give their queries no signal agree with their
    untimed versions as soon as every request settles, however late. *)
Variable Q : Timed.Latency -> Prop.
Hypothesis Q_settles : forall l, Q l -> settles l.

Lemma agrees_send_unconnected {A} (r : Request)
    (exec : Database -> Resp A * Database) :
  agrees Q (Timed.send None r exec) (backend r exec).
Proof.
  apply agrees_send; [reflexivity|].
  intros l Hl. split; [reflexivity | now apply Q_settles].
Qed.

Lemma agrees_testSupabaseConnection :
  agrees Q Timed.testSupabaseConnection testSupabaseConnection.
Proof.
  apply agrees_try_catch; [|intros x; apply agrees_ret].
  apply agrees_bind; [apply agrees_send_unconnected|].
  intros r. destruct (error r); apply agrees_ret.
Qed.

Lemma agrees_subjects_retry (a : Z) :
  agrees Q (Timed.subjects_retry a) (subjects_retry a).
Proof.
  unfold Timed.subjects_retry, subjects_retry.
  destruct (a =? maxAttempts); [apply agrees_ret|].
  apply agrees_bind; [apply agrees_lift | intros _; apply agrees_ret].
Qed.

Lemma agrees_subjects_attempt (y s : Z) (b : string) (a : Z) :
  agrees Q (Timed.subjects_attempt y s b a) (subjects_attempt y s b a).
Proof.
  apply agrees_try_catch; [|intros x; apply agrees_subjects_retry].
  apply agrees_bind; [apply agrees_send_unconnected|].
  intros r. destruct (error r); [apply agrees_subjects_retry|].
  destruct (data r) as [[|x l]|]; try apply agrees_ret;
    (apply agrees_bind;
     [ destruct (a =? maxAttempts - 1); [|apply agrees_ret];
       apply agrees_bind; [apply agrees_send_unconnected|];
       intros r2; apply agrees_ret
     | intros [[|x' l']|]; first [apply agrees_ret | apply agrees_subjects_retry] ]).
Qed.

Lemma agrees_subjects_loop (p : Student.t) :
  agrees Q (Timed.fetchSubjectsForStudent (ByProfile p))
    (fetchSubjectsForStudent (ByProfile p)).
Proof.
  apply agrees_bind; [apply agrees_ret|].
  intros [q|]; [|apply agrees_ret].
  apply agrees_while; [|lia]. intros a _. apply agrees_subjects_attempt.
Qed.

Lemma agrees_fetchUserBookmarks (userId : string) :
  agrees Q (Timed.fetchUserBookmarks userId) (DatabaseFixed.fetchUserBookmarks userId).
Proof.
  apply agrees_try_catch; [|intros x; apply agrees_ret].
  apply agrees_bind; [apply agrees_send_unconnected|].
  intros r. destruct (error r); [apply agrees_ret|].
  destruct (data r) as [[|x l]|]; apply agrees_ret.
Qed.

Lemma agrees_allSettled {A B} (tm1 : Timed.T A) (m1 : M A)
    (tm2 : Timed.T B) (m2 : M B) :
  agrees Q tm1 m1 -> agrees Q tm2 m2 ->
  agrees Q (Timed.allSettled tm1 tm2)
    (do a <- settle m1; do b <- settle m2; ret (a, b)).
Proof.
  intros H1 H2 w ls HQ. destruct (H1 w ls HQ) as [n1 E1].
  unfold Timed.allSettled. rewrite E1.
  destruct (H2 (snd (m1 w)) (drop n1 ls) (Forall_drop _ _ _ HQ)) as [n2 E2].
  rewrite E2, drop_drop. exists (n1 + n2)%nat.
  unfold settle, try_catch, bind, ret.
  destruct (m1 w) as [[a|x] w1]; cbn [fst snd Timed.of_outcome];
    destruct (m2 w1) as [[b|y] w2]; reflexivity.
Qed.

Lemma agrees_fetchUserBookmarksDualKey (userId : string) :
  agrees Q (Timed.fetchUserBookmarksDualKey userId) (DualKey.fetchUserBookmarks userId).
Proof.
  unfold Timed.fetchUserBookmarksDualKey, DualKey.fetchUserBookmarks.
  destruct (negb (truthy userId)); [apply agrees_ret|].
  intros w ls HQ.
  assert (G : agrees Q
    (Timed.try_catch
       (Timed.bind
          (Timed.allSettled
             (Timed.send None (SelectBookmarks NoteCols [BEq ColUserId userId])
                (exec_select_bookmarks NoteCols [BEq ColUserId userId]))
             (Timed.send None (SelectBookmarks SubjectCols [BEq ColUserId userId])
                (exec_select_bookmarks SubjectCols [BEq ColUserId userId])))
          (fun results =>
             match DualKey.rows_of (fst results) with
             | Some rows => Timed.ret rows
             | None =>
                 match DualKey.rows_of (snd results) with
                 | Some rows => Timed.ret (map DualKey.map_to_note_id rows)
                 | None => Timed.ret []
                 end
             end))
       (fun _ => Timed.ret []))
    (try_catch
       (do results <-
          (do a <- settle (select_bookmarks NoteCols [BEq ColUserId userId]);
           do b <- settle (select_bookmarks SubjectCols [BEq ColUserId userId]);
           ret (a, b));
        match DualKey.rows_of (fst results) with
        | Some rows => ret rows
        | None =>
            match DualKey.rows_of (snd results) with
            | Some rows => ret (map DualKey.map_to_note_id rows)
            | None => ret []
            end
        end)
       (fun _ => ret []))).
  { apply agrees_try_catch; [|intros x; apply agrees_ret].
    apply agrees_bind.
    - apply agrees_allSettled; apply agrees_send_unconnected.
    - intros [a b]. cbn [fst snd].
      destruct (DualKey.rows_of a); [apply agrees_ret|].
      destruct (DualKey.rows_of b); apply agrees_ret. }
  destruct (G w ls HQ) as [k E]. exists k. rewrite E. clear E G.
  unfold try_catch, bind, settle, try_catch, bind, ret.
  destruct (select_bookmarks NoteCols [BEq ColUserId userId] w) as [[a|x] w1];
    destruct (select_bookmarks SubjectCols [BEq ColUserId userId] w1) as [[b|y] w2];
    reflexivity.
Qed.

End Unconnected.

Lemma agrees_profile_attempt (userId : string) (a : Z) :
  0 < a ->
  agrees in_time (Timed.profile_attempt userId a) (profile_attempt userId a).
Proof.
  intros Ha.
  assert (R : agrees in_time
                (if a =? maxAttempts then Timed.ret (Return None)
                 else Timed.bind (Timed.sleep (profile_backoffMs a))
                        (fun _ => Timed.ret Continue))
                (if a =? maxAttempts then ret (Return (None : option Student.t))
                 else run sleep (profile_backoffMs a); ret Continue)).
  { destruct (a =? maxAttempts); [apply agrees_ret|].
    apply agrees_bind; [apply agrees_lift | intros _; apply agrees_ret]. }
  apply agrees_try_catch; [|intros x; exact R].
  apply agrees_bind.
  - apply agrees_send.
    + unfold Timed.aborted_first, Timed.abort_after. apply Z.ltb_ge. lia.
    + intros l [ms [-> Hms]]. split; [|discriminate].
      unfold Timed.aborted_first, Timed.abort_after. apply Z.ltb_ge. lia.
  - intros r. destruct (error r); [exact R|].
    destruct (data r); apply agrees_ret.
Qed.

Lemma agrees_fetchStudentProfile (userId : string) :
  agrees in_time (Timed.fetchStudentProfile userId) (fetchStudentProfile userId).
Proof.
  unfold Timed.fetchStudentProfile, fetchStudentProfile.
  destruct (negb (truthy userId)); [apply agrees_ret|].
  apply agrees_bind;
    [apply agrees_testSupabaseConnection; exact in_time_settles|].
  intros _. apply agrees_while; [|lia].
  intros a Ha. now apply agrees_profile_attempt.
Qed.

Lemma agrees_fetchSubjectsForStudent (a : IdOrProfile) :
  agrees in_time (Timed.fetchSubjectsForStudent a) (fetchSubjectsForStudent a).
Proof.
  destruct a as [studentId|p|].
  - apply agrees_bind.
    + apply agrees_try_catch; [apply agrees_fetchStudentProfile|].
      intros x. apply agrees_ret.
    + intros [q|]; [|apply agrees_ret].
      apply agrees_while; [|lia]. intros a _.
      apply agrees_subjects_attempt. exact in_time_settles.
  - apply agrees_subjects_loop. exact in_time_settles.
  - apply agrees_bind; [apply agrees_ret|]. intros [q|]; [|apply agrees_ret].
    apply agrees_while; [|lia]. intros a _.
    apply agrees_subjects_attempt. exact in_time_settles.
Qed.


(** ** The timed profile fetch in closed form *)

Lemma latency_at_drop (w' w : World) (ls : list Timed.Latency) (k i : nat) :
  Timed.latency_at (Timed.mkTimedWorld w' (drop k ls)) i
  = Timed.latency_at (Timed.mkTimedWorld w ls) (k + i).
Proof. unfold Timed.latency_at. cbn. now rewrite lookup_drop. Qed.

Lemma Timed_testSupabaseConnection_run (tw : Timed.TimedWorld) :
  Timed.latency_at tw 0 <> Timed.Never ->
  Timed.testSupabaseConnection tw
  = (Timed.Returns (request_ok 0 (Timed.world tw)),
     Timed.mkTimedWorld (advance (Timed.world tw) [CountStudents] [])
       (drop 1 (Timed.latencies tw))).
Proof.
  intros H. unfold Timed.testSupabaseConnection, Timed.try_catch, Timed.bind,
    Timed.send.
  cbn [Timed.aborted_first].
  destruct (Timed.latency_at tw 0) as [ms|]; [|contradiction].
  destruct tw as [w ls]. cbn [Timed.world Timed.latencies].
  open_world w. unfold advance.
  next_fault fs; cbn; rewrite ?app_nil_r; reflexivity.
Qed.

Lemma Timed_profile_attempt_run (userId : string) (a : Z) (tw : Timed.TimedWorld) :
  let w := Timed.world tw in
  let ok :=
    request_ok 0 w
    && negb (Timed.aborted_first (Some (Timed.abort_after (5000 + a * 1000)))
               (Timed.latency_at tw 0)) in
  Timed.profile_attempt userId a tw
  = (Timed.Returns
       (if ok then Return (students (db w) !! userId)
        else if a =? maxAttempts then Return None else Continue),
     Timed.mkTimedWorld
       (advance w [SelectStudent userId]
          (if ok || (a =? maxAttempts) then [] else [profile_backoffMs a]))
       (drop 1 (Timed.latencies tw))).
Proof.
  cbv zeta.
  unfold Timed.profile_attempt, Timed.try_catch, Timed.bind, Timed.send.
  destruct (Timed.aborted_first (Some (Timed.abort_after (5000 + a * 1000)))
              (Timed.latency_at tw 0)) eqn:E.
  - rewrite andb_false_r. cbn [orb].
    destruct (a =? maxAttempts); [reflexivity|].
    unfold Timed.sleep, Timed.lift, sleep, Timed.ret, advance. cbn.
    rewrite <- app_assoc. reflexivity.
  - rewrite andb_true_r.
    destruct (Timed.latency_at tw 0) as [ms|]; [|discriminate E].
    destruct tw as [w ls]. cbn [Timed.world Timed.latencies].
    open_world w. unfold advance.
    next_fault fs; unfold_m; cbn; rewrite ?app_nil_r;
      try (destruct (students d !! userId); reflexivity);
      destruct (a =? maxAttempts); cbn; rewrite ?app_nil_r; reflexivity.
Qed.

Lemma Timed_fetchStudentProfile_run (userId : string) (tw : Timed.TimedWorld) :
  userId <> "" ->
  Timed.latency_at tw 0 <> Timed.Never ->
  let w := Timed.world tw in
  let found := students (db w) !! userId in
  let ping := CountStudents in
  let sel := SelectStudent userId in
  let after reqs sl :=
    Timed.mkTimedWorld (advance w reqs sl) (drop (length reqs) (Timed.latencies tw)) in
  Timed.fetchStudentProfile userId tw
  = if answered_in_time tw 1
    then (Timed.Returns found, after [ping; sel] [])
    else if answered_in_time tw 2
         then (Timed.Returns found, after [ping; sel; sel] [500])
         else if answered_in_time tw 3
              then (Timed.Returns found, after [ping; sel; sel; sel] [500; 1000])
              else (Timed.Returns None, after [ping; sel; sel; sel] [500; 1000]).
Proof.
  intros N P. cbv zeta. apply truthy_true in N.
  unfold Timed.fetchStudentProfile. rewrite N.
  change (negb true) with false. cbv iota.
  unfold Timed.bind at 1. rewrite (Timed_testSupabaseConnection_run tw P).
  destruct tw as [w ls]. cbn [Timed.world Timed.latencies].
  change (Timed.while_attempts loop_fuel (Timed.profile_attempt userId) None 0)
    with (Timed.bind (Timed.profile_attempt userId 1)
            (fun s1 =>
               match s1 with
               | Return v => Timed.ret v
               | Continue =>
                   Timed.bind (Timed.profile_attempt userId 2)
                     (fun s2 =>
                        match s2 with
                        | Return v => Timed.ret v
                        | Continue =>
                            Timed.bind (Timed.profile_attempt userId 3)
                              (fun s3 =>
                                 match s3 with
                                 | Return v => Timed.ret v
                                 | Continue => Timed.ret None
                                 end)
                        end)
               end)).
  set (tw := Timed.mkTimedWorld w ls) in *.
  unfold Timed.bind at 1. rewrite Timed_profile_attempt_run.
  cbn [Timed.world Timed.latencies]. rewrite (latency_at_drop _ w), request_ok_advance.
  cbn [length Nat.add].
  change (request_ok 1 w
          && negb (Timed.aborted_first (Some (Timed.abort_after (5000 + 1 * 1000)))
                     (Timed.latency_at (Timed.mkTimedWorld w ls) 1)))
    with (answered_in_time tw 1).
  destruct (answered_in_time tw 1);
    [cbn [orb]; rewrite advance_advance, drop_drop; reflexivity|].
  change (1 =? maxAttempts) with false. cbv beta iota. cbn [orb].
  unfold Timed.bind at 1. rewrite Timed_profile_attempt_run.
  cbn [Timed.world Timed.latencies].
  rewrite drop_drop, (latency_at_drop _ w), advance_advance, request_ok_advance.
  cbn [length Nat.add app].
  change (request_ok 2 w
          && negb (Timed.aborted_first (Some (Timed.abort_after (5000 + 2 * 1000)))
                     (Timed.latency_at (Timed.mkTimedWorld w ls) 2)))
    with (answered_in_time tw 2).
  destruct (answered_in_time tw 2);
    [cbn [orb]; rewrite advance_advance, drop_drop; reflexivity|].
  change (2 =? maxAttempts) with false. cbv beta iota. cbn [orb].
  unfold Timed.bind at 1. rewrite Timed_profile_attempt_run.
  cbn [Timed.world Timed.latencies].
  rewrite drop_drop, (latency_at_drop _ w), advance_advance, request_ok_advance.
  cbn [length Nat.add app].
  change (request_ok 3 w
          && negb (Timed.aborted_first (Some (Timed.abort_after (5000 + 3 * 1000)))
                     (Timed.latency_at (Timed.mkTimedWorld w ls) 3)))
    with (answered_in_time tw 3).
  change (3 =? maxAttempts) with true. rewrite orb_true_r.
  destruct (answered_in_time tw 3); cbv beta iota;
    rewrite advance_advance, drop_drop; reflexivity.
Qed.

(** ** Timers that abort nothing *)

Lemma Timed_subjects_pending (p : Student.t) (w : World) (ls : list Timed.Latency) :
  fst (Timed.fetchSubjectsForStudent (ByProfile p)
         (Timed.mkTimedWorld w (Timed.Never :: ls)))
  = Timed.Pending.
Proof. reflexivity. Qed.

Lemma Timed_bookmarks_pending (userId : string) (w : World)
    (ls : list Timed.Latency) :
  userId <> "" ->
  fst (Timed.fetchUserBookmarksDualKey userId
         (Timed.mkTimedWorld w (Timed.Never :: ls)))
  = Timed.Pending.
Proof.
  intros N. apply truthy_true in N. unfold Timed.fetchUserBookmarksDualKey.
  rewrite N. change (negb true) with false. cbv iota.
  unfold Timed.try_catch, Timed.bind, Timed.allSettled.
  destruct (Timed.send None (SelectBookmarks SubjectCols [BEq ColUserId userId])
              (exec_select_bookmarks SubjectCols [BEq ColUserId userId])
              (snd (Timed.send None (SelectBookmarks NoteCols [BEq ColUserId userId])
                      (exec_select_bookmarks NoteCols [BEq ColUserId userId])
                      (Timed.mkTimedWorld w (Timed.Never :: ls)))))
    as [r2 tw2] eqn:E.
  cbn in E |- *. rewrite E. reflexivity.
Qed.

Lemma agrees_fst {A} (Q : Timed.Latency -> Prop) (tm : Timed.T A) (m : M A)
    (w : World) (ls : list Timed.Latency) :
  agrees Q tm m -> Forall Q ls ->
  fst (tm (Timed.mkTimedWorld w ls)) = Timed.of_outcome (fst (m w))
  /\ Timed.world (snd (tm (Timed.mkTimedWorld w ls))) = snd (m w).
Proof.
  intros H HQ. destruct (H w ls HQ) as [k E]. rewrite E. split; reflexivity.
Qed.

Lemma timed_out_not_answered (tw : Timed.TimedWorld) (a : nat) :
  Timed.aborted_first (Some (Timed.abort_after (5000 + Z.of_nat a * 1000)))
    (Timed.latency_at tw a) = true ->
  answered_in_time tw a = false.
Proof. unfold answered_in_time. intros ->. apply andb_false_r. Qed.

(** C1: the time limits of the fetch functions are enforced by
    [fetchStudentProfile] alone.  [fetchSubjectsForStudent] and
    [fetchUserBookmarks] (lines 243-310) set up the controller and its timer
    but give the signal to no query.  So when the query of an attempt never
    settles, the call never returns: it does not return the default.  And
    when the queries settle, however long after the time limit, the call
    does what it does when they settle at once: an attempt that has timed
    out is no failed attempt.  [fetchStudentProfile], which gives the signal
    to its select, returns [null] when the ping settles and its three
    selects exceed their time limits. *)
Theorem C1_timers_abort_nothing
    (userId : string) (p : Student.t) (w : World) (ls : list Timed.Latency) :
  userId <> "" ->
  let hung := Timed.mkTimedWorld w (Timed.Never :: ls) in
  let late := Timed.mkTimedWorld w ls in
  (fst (Timed.fetchSubjectsForStudent (ByProfile p) hung) = Timed.Pending
   /\ fst (Timed.fetchUserBookmarksDualKey userId hung) = Timed.Pending)
  /\ (Forall settles ls ->
      fst (Timed.fetchSubjectsForStudent (ByProfile p) late)
      = Timed.of_outcome (fst (fetchSubjectsForStudent (ByProfile p) w))
      /\ fst (Timed.fetchUserBookmarksDualKey userId late)
         = Timed.of_outcome (fst (DualKey.fetchUserBookmarks userId w)))
  /\ (Timed.latency_at late 0 <> Timed.Never ->
      (forall a, In a [1; 2; 3]%nat ->
         Timed.aborted_first (Some (Timed.abort_after (5000 + Z.of_nat a * 1000)))
           (Timed.latency_at late a) = true) ->
      fst (Timed.fetchStudentProfile userId late) = Timed.Returns None).
Proof.
  intros N. cbv zeta. split; [|split].
  - split; [apply Timed_subjects_pending | now apply Timed_bookmarks_pending].
  - intros HQ. split.
    + apply (agrees_fst settles); [|exact HQ].
      apply agrees_subjects_loop. auto.
    + apply (agrees_fst settles); [|exact HQ].
      apply agrees_fetchUserBookmarksDualKey. auto.
  - intros P H. rewrite (Timed_fetchStudentProfile_run userId _ N P). cbv zeta.
    rewrite !timed_out_not_answered by (apply H; cbn; auto).
    reflexivity.
Qed.

Lemma C1_timers_abort_nothing_witness :
  let asha := Student.mk "u1" "Asha" "asha@example.com" 1 1 "CSE" false "t0" in
  let maths := Subject.mk "s1" "Engineering Mathematics I" "CSE" 1 1 false "t0" in
  let w := mkWorld (mkDatabase {[ "u1" := asha ]} [maths] [] 0) [] [] []
             "2025-04-19T00:00:00Z" in
  let late := Timed.mkTimedWorld w
                [Timed.After 60000; Timed.After 60000; Timed.Never; Timed.After 60000] in
  (fst (Timed.fetchSubjectsForStudent (ByProfile asha)
          (Timed.mkTimedWorld w [Timed.Never])) = Timed.Pending
   /\ fst (Timed.fetchUserBookmarksDualKey "u1"
             (Timed.mkTimedWorld w [Timed.Never])) = Timed.Pending)
  /\ fst (Timed.fetchSubjectsForStudent (ByProfile asha)
            (Timed.mkTimedWorld w [Timed.After 60000])) = Timed.Returns [maths]
  /\ fst (Timed.fetchStudentProfile "u1" late) = Timed.Returns None.
Proof.
  intros asha maths w late.
  split; [|split].
  - apply (C1_timers_abort_nothing "u1" asha w []). discriminate.
  - destruct (C1_timers_abort_nothing "u1" asha w [Timed.After 60000])
      as [_ [H _]]; [discriminate|].
    destruct H as [H _]; [repeat constructor; discriminate|]. exact H.
  - destruct (C1_timers_abort_nothing "u1" asha w
                [Timed.After 60000; Timed.After 60000; Timed.Never; Timed.After 60000])
      as [_ [_ H]]; [discriminate|].
    apply H; [discriminate|].
    intros a [<-|[<-|[<-|[]]]]; reflexivity.
Defined.

(** ** Retries, with the time limits *)

Lemma fetchSubjectsForStudent_by_id (studentId : string) (w : World) :
  studentId <> "" ->
  by_id_discipline studentId w (snd (fetchSubjectsForStudent (ById studentId) w)).
Proof.
  intros N. unfold by_id_discipline. cbv zeta.
  split; [now apply fetchStudentProfile_retries|].
  rewrite fetchSubjectsForStudent_ById.
  destruct (fetchStudentProfile studentId w) as [[[p|]|x] w1]; cbn [fst snd];
    [apply fetchSubjectsForStudent_retries | reflexivity | reflexivity].
Qed.

(** C7 (amended): [fetchStudentProfile] and [fetchSubjectsForStudent] make
    at most three attempts.  An attempt that fails, by an [error] in the
    response or by a rejected request, is followed by another as long as
    fewer than three have been made, after a wait of 500 ms before the first
    retry and of 1000 ms before the second (500 * 2^(n-1) before retry n);
    when the last attempt fails as well, the result is the default, [null]
    or the empty list.  For [fetchStudentProfile] a select that has not
    settled after 5000 + 1000 * attempt ms is aborted and is such a failed
    attempt.  Called with an id, [fetchSubjectsForStudent] first looks the
    profile up with [fetchStudentProfile], retries and waits included, and
    makes its own attempts, with their own waits, only when a profile was
    found.  [safeSupabaseOperation] runs its operation once, and
    [fetchUserBookmarks] (both documents) sends its queries once; neither
    waits, and on failure the one returns its default value and the other
    the empty list. *)
Theorem C7_retry_with_backoff (userId : string) (p : Student.t)
    (fs : list SFilter) (w : World) (tw : Timed.TimedWorld) :
  userId <> "" ->
  (let w' := snd (fetchStudentProfile userId w) in
   retry_discipline (CallFetchStudentProfile userId) 1 w w'
   /\ (attempts_fail (CallFetchStudentProfile userId) (call_requests w w') (faults w)
       = true ->
       fst (fetchStudentProfile userId w) = Val None))
  /\ (Timed.latency_at tw 0 <> Timed.Never ->
      let result := Timed.fetchStudentProfile userId tw in
      let reqs := call_requests (Timed.world tw) (Timed.world (snd result)) in
      let ok := answered_in_time tw in
      fst result
      = Timed.Returns (if ok 1%nat || ok 2%nat || ok 3%nat
                       then students (db (Timed.world tw)) !! userId else None)
      /\ attempts (CallFetchStudentProfile userId) reqs
         = (if ok 1%nat then 1 else if ok 2%nat then 2 else 3)%nat
      /\ call_sleeps (Timed.world tw) (Timed.world (snd result))
         = if ok 1%nat then [] else if ok 2%nat then [500] else [500; 1000])
  /\ (let w' := snd (fetchSubjectsForStudent (ByProfile p) w) in
      retry_discipline (CallFetchSubjectsForStudent (ByProfile p)) 0 w w'
      /\ (attempts_fail (CallFetchSubjectsForStudent (ByProfile p))
            (call_requests w w') (faults w) = true ->
          fst (fetchSubjectsForStudent (ByProfile p) w) = Val []))
  /\ (let w' := snd (fetchSubjectsForStudent (ById userId) w) in
      by_id_discipline userId w w'
      /\ (attempts_fail (CallFetchSubjectsForStudent (ById userId))
            (call_requests w w') (faults w) = true ->
          fst (fetchSubjectsForStudent (ById userId) w) = Val []))
  /\ (let safe := safeSupabaseOperation (select_subjects fs)
                    "Error fetching subjects" [] 2000 in
      call_requests w (snd (safe w)) = [SelectSubjects fs]
      /\ call_sleeps w (snd (safe w)) = []
      /\ (request_ok 0 w = false -> fst (safe w) = Val (Some [])))
  /\ (let fetch := DatabaseFixed.fetchUserBookmarks userId in
      call_requests w (snd (fetch w))
      = [SelectBookmarks AllCols [BEq ColUserId userId]]
      /\ call_sleeps w (snd (fetch w)) = []
      /\ (request_ok 0 w = false -> fst (fetch w) = Val []))
  /\ (let fetch := DualKey.fetchUserBookmarks userId in
      call_requests w (snd (fetch w))
      = [SelectBookmarks NoteCols [BEq ColUserId userId];
         SelectBookmarks SubjectCols [BEq ColUserId userId]]
      /\ call_sleeps w (snd (fetch w)) = []
      /\ (request_ok 0 w = false -> request_ok 1 w = false ->
          fst (fetch w) = Val [])).
Proof.
  intros N. cbv zeta.
  assert (S1 : snd (select_subjects fs w) = advance w [SelectSubjects fs] []).
  { open_world w. unfold advance. next_fault fs0; cbn; rewrite ?app_nil_r;
      reflexivity. }
  assert (S2 : request_ok 0 w = false ->
               fst (safeSupabaseOperation (select_subjects fs)
                      "Error fetching subjects" [] 2000 w) = Val (Some [])).
  { open_world w. next_fault fs0; intros K; first [discriminate K | reflexivity]. }
  split; [split; [now apply fetchStudentProfile_retries
                 | apply fetchStudentProfile_exhausted]|].
  split.
  { intros P. rewrite (Timed_fetchStudentProfile_run userId tw N P). cbv zeta.
    destruct (answered_in_time tw 1), (answered_in_time tw 2),
      (answered_in_time tw 3); cbn [fst snd orb Timed.world];
      rewrite call_requests_advance, call_sleeps_advance;
      repeat split; reflexivity. }
  split; [split; [apply fetchSubjectsForStudent_retries
                 | apply fetchSubjectsForStudent_exhausted]|].
  split; [split; [now apply fetchSubjectsForStudent_by_id
                 | apply fetchSubjectsForStudent_exhausted]|].
  split; [|split].
  - split; [|split; [|exact S2]].
    + rewrite safeSupabaseOperation_once, S1. apply call_requests_advance.
    + rewrite safeSupabaseOperation_once, S1. apply call_sleeps_advance.
  - rewrite DatabaseFixed_fetchUserBookmarks_run. cbn [fst snd].
    split; [apply call_requests_advance|].
    split; [apply call_sleeps_advance|]. intros ->. reflexivity.
  - rewrite (DualKey_fetchUserBookmarks_run userId w N). cbn [fst snd].
    split; [apply call_requests_advance|].
    split; [apply call_sleeps_advance|]. intros -> ->. reflexivity.
Qed.

Lemma C7_retry_with_backoff_witness :
  let refused := mkExn "TypeError" "Failed to fetch" in
  let asha := Student.mk "u1" "Asha" "asha@example.com" 1 1 "CSE" false "t0" in
  let w := mkWorld (mkDatabase {[ "u1" := asha ]} [] [] 0)
             [NoFault; Reject refused; Reject refused; NoFault;
              Reject refused; Reject refused; Reject refused]
             [] [] "2025-04-19T00:00:00Z" in
  let tw := Timed.mkTimedWorld (mkWorld (mkDatabase {[ "u1" := asha ]} [] [] 0)
                                  [] [] [] "2025-04-19T00:00:00Z")
              [Timed.After 20; Timed.Never; Timed.After 7001; Timed.After 30] in
  (call_sleeps w (snd (fetchSubjectsForStudent (ById "u1") w))
   = [500; 1000; 500; 1000]
   /\ fst (fetchSubjectsForStudent (ById "u1") w) = Val [])
  /\ fst (Timed.fetchStudentProfile "u1" tw) = Timed.Returns (Some asha)
  /\ call_sleeps (Timed.world tw) (Timed.world (snd (Timed.fetchStudentProfile "u1" tw)))
     = [500; 1000].
Proof.
  intros refused asha w tw.
  destruct (C7_retry_with_backoff "u1" asha [] w tw)
    as [_ [T [_ [[_ D] _]]]]; [discriminate|].
  split; [split; [vm_compute; reflexivity | apply D; vm_compute; reflexivity]|].
  destruct T as [T1 [_ T3]]; [discriminate|]. split; [exact T1 | exact T3].
Defined.
